(** * FPS prediction engine of gpu_gaming_advisor

    A shallow embedding of [src/gpu_gaming_advisor/fps_predictor.py] (class
    [FPSPredictor] and its four module-level tables) together with the one
    function of [game_analyzer.py] it calls, followed by the properties of
    the prediction, search and comparison operations.

    Modelling conventions.
    - A Python [float] is an IEEE 754 binary64 number: Rocq's primitive
      [float].  Decimal literals denote the nearest binary64 value in both
      languages, and [*], [/] round to nearest-even in both.
    - A Python [int] is a [Z].
    - A Python [str] is a [string] of ASCII characters, on which
      [str.upper] and [str.lower] change the 26 letters and nothing else;
      the model leaves every other character unchanged, so it speaks for
      ASCII names (every key of the tables is ASCII).  The resolution of
      processor names is embedded a second time for names of any
      characters, in [Unicode], with the full case mapping of [str.upper].
    - A [dict] literal that is iterated is an association list in insertion
      order (the keys of every table below are pairwise distinct).
    - An exception is the [None] of [option]. *)

From Stdlib Require Import Floats ZArith List Bool Lia.
From Stdlib Require Import Strings.String Strings.Ascii Numbers.DecimalString.
From Stdlib Require Import Sorting.Permutation Sorting.Sorted.
Import ListNotations.

#[local] Set Warnings "-inexact-float".
#[local] Open Scope string_scope.
#[local] Open Scope Z_scope.

(** ** Python primitives *)

Module Py.

(** [c.upper()] and [c.lower()] on one character. *)
Definition upper_ascii (c : ascii) : ascii :=
  let n := nat_of_ascii c in
  if (Nat.leb 97 n && Nat.leb n 122)%bool then ascii_of_nat (n - 32) else c.

Definition lower_ascii (c : ascii) : ascii :=
  let n := nat_of_ascii c in
  if (Nat.leb 65 n && Nat.leb n 90)%bool then ascii_of_nat (n + 32) else c.

Fixpoint upper (s : string) : string :=
  match s with
  | EmptyString => EmptyString
  | String c s' => String (upper_ascii c) (upper s')
  end.

Fixpoint lower (s : string) : string :=
  match s with
  | EmptyString => EmptyString
  | String c s' => String (lower_ascii c) (lower s')
  end.

(** [a in b] on strings: [a] occurs in [b] as a contiguous substring. *)
Fixpoint str_in (a b : string) : bool :=
  String.prefix a b ||
  match b with
  | EmptyString => false
  | String _ b' => str_in a b'
  end.

(** [str(n)] for an [int], as used by f-strings. *)
Definition str_of_int (n : Z) : string :=
  NilZero.string_of_int (Z.to_int n).

(** Dictionaries with string keys. *)
Section Dict.
Context {V : Type}.

Definition dict := list (string * V).

(** [d.get(k)] *)
Fixpoint get (d : dict) (k : string) : option V :=
  match d with
  | [] => None
  | (k', v) :: d' => if String.eqb k' k then Some v else get d' k
  end.

(** [d.get(k, default)] *)
Definition get_default (d : dict) (k : string) (default : V) : V :=
  match get d k with
  | Some v => v
  | None => default
  end.

(** [k in d] *)
Definition contains (d : dict) (k : string) : bool :=
  match get d k with
  | Some _ => true
  | None => false
  end.

(** [d.keys()] *)
Definition keys (d : dict) : list string := map fst d.
End Dict.
Arguments dict V : clear implicits.

(** [l.append(x)], on the value of the list. *)
Definition append {A : Type} (l : list A) (x : A) : list A := (l ++ [x])%list.

(** [any(f(x) for x in l)] *)
Definition any {A : Type} (f : A -> bool) (l : list A) : bool := existsb f l.

(** *** Floats *)

(** A finite non-zero float is [(-1)^s * m * 2^e] for the sign [s], the
    mantissa [m] and the exponent [e] that [Prim2SF] returns.  [Z.shiftl a e]
    is [a * 2^e] for [0 <= e] and the quotient of [a] by [2^(-e)] rounded
    down for [e < 0]. *)

(** [int(x)]: truncation toward zero, that is the magnitude rounded down
    and the sign restored; raises [ValueError] on NaN and [OverflowError]
    on an infinity. *)
Definition int (x : float) : option Z :=
  match Prim2SF x with
  | S754_zero _ => Some 0
  | S754_finite s m e =>
      let a := Z.shiftl (Zpos m) e in
      Some (if s then - a else a)
  | S754_infinity _ | S754_nan => None
  end.

(** The mathematical floor of a finite float, for comparison with [int]:
    the signed value rounded down. *)
Definition floor (x : float) : option Z :=
  match Prim2SF x with
  | S754_zero _ => Some 0
  | S754_finite s m e => Some (Z.shiftl (if s then Zneg m else Zpos m) e)
  | S754_infinity _ | S754_nan => None
  end.

(** The exact value of a finite float as a fraction [num / den] with [den]
    a power of two; [None] stands for NaN and the infinities. *)
Definition float_ratio (x : float) : option (Z * Z) :=
  match Prim2SF x with
  | S754_zero _ => Some (0, 1)
  | S754_finite s m e =>
      let n := match e with Zpos p => Z.shiftl (Zpos m) (Zpos p) | _ => Zpos m end in
      let d := match e with Zneg p => Z.shiftl 1 (Zpos p) | _ => 1 end in
      Some (if s then - n else n, d)
  | S754_infinity _ | S754_nan => None
  end.

(** [float(n)], exact for [|n| < 2^53] (every integer converted below is
    far smaller). *)
Definition float_of_int (n : Z) : float :=
  if n <? 0 then PrimFloat.opp (PrimFloat.of_uint63 (Uint63.of_Z (- n)))
  else PrimFloat.of_uint63 (Uint63.of_Z n).

(** [a / b] on two ints (true division); raises [ZeroDivisionError]. *)
Definition int_truediv (a b : Z) : option float :=
  if b =? 0 then None
  else Some (PrimFloat.div (float_of_int a) (float_of_int b)).

(** Round-half-even of the rational [n / d], [d > 0]. *)
Definition round_half_even (n d : Z) : Z :=
  let q := Z.div n d in
  let r := Z.modulo n d in
  match Z.compare (2 * r) d with
  | Lt => q
  | Gt => q + 1
  | Eq => if Z.even q then q else q + 1
  end.

(** [round(x, 1)] on a float: the exact value of [x] is rounded to one
    decimal digit (ties to even) and the decimal result [t / 10] is
    converted back to the nearest float; NaN and the infinities round to
    themselves.  The conversion is written as the float division of [t] by
    10, which is the nearest float of [t / 10] as long as [t < 2^53]; the
    percentages rounded below are smaller than 252000 in magnitude. *)
Definition round1 (x : float) : float :=
  match float_ratio x with
  | None => x
  | Some (n, d) =>
      let t := round_half_even (Z.abs n * 10) d in
      let y := PrimFloat.div (float_of_int t) (float_of_int 10) in
      if PrimFloat.ltb x PrimFloat.zero then PrimFloat.opp y
      else match Prim2SF x with S754_zero true => PrimFloat.opp y | _ => y end
  end.

(** A Python number that is either an [int] or a [float]. *)
Inductive num : Type :=
  | Int (n : Z)
  | Float (x : float).

(** [round(v, 1)] on a number: an [int] is returned unchanged. *)
Definition round1_num (v : num) : num :=
  match v with
  | Int n => Int n
  | Float x => Float (round1 x)
  end.

(** *** Further dictionary and list operations *)

(** [d[k] = v]: the value of an existing key is replaced in place, a new
    key is appended. *)
Fixpoint set {V : Type} (d : dict V) (k : string) (v : V) : dict V :=
  match d with
  | [] => [(k, v)]
  | (k', v') :: d' =>
      if String.eqb k' k then (k', v) :: d' else (k', v') :: set d' k v
  end.

(** [{k: f(k) for k in ks}] for pairwise distinct [ks]: one entry per key,
    in the order of [ks]; an exception of [f] ends the comprehension. *)
Fixpoint dict_comprehension {V : Type} (f : string -> option V)
    (ks : list string) : option (dict V) :=
  match ks with
  | [] => Some []
  | k :: ks' =>
      match f k with
      | Some v =>
          match dict_comprehension f ks' with
          | Some d => Some ((k, v) :: d)
          | None => None
          end
      | None => None
      end
  end.

(** [sorted(l)] on strings: the stable sort by code points, written as an
    insertion sort. *)
Fixpoint insert_sorted (x : string) (l : list string) : list string :=
  match l with
  | [] => [x]
  | y :: l' => if String.leb x y then x :: l else y :: insert_sorted x l'
  end.

Definition sorted (l : list string) : list string :=
  fold_right insert_sorted [] l.

End Py.

(** The error monad of exceptions. *)
Notation "x <- e ;; k" :=
  (match e with Some x => k | None => None end)
  (at level 61, e at next level, right associativity, only parsing).

(** ** gpu_detector.py *)

Module GPUInfo.
(** The fields of the [GPUInfo] dataclass that the predictor is given by
    its callers; [predict] reads [name] and [vram_total] only. *)
Record t : Type := mk {
  name : string;
  vram_total : Z;      (* MB *)
  architecture : string
}.
End GPUInfo.

(** ** game_analyzer.py *)

Module GameAnalyzer.

(** One entry of [GAMES_DATABASE], with the keys the predictor reads. *)
Record game_data : Type := mk_data {
  d_recommended_vram : Z;
  d_supports_dlss : bool;
  d_supports_fsr : bool
}.

Record GameRequirements : Type := mk {
  name : string;
  recommended_vram : Z;
  supports_dlss : bool;
  supports_fsr : bool
}.

Definition GAMES_DATABASE : Py.dict game_data :=
  [ ("Cyberpunk 2077",           mk_data 8192  true  true);
    ("Elden Ring",               mk_data 8192  false false);
    ("Red Dead Redemption 2",    mk_data 8192  true  true);
    ("Hogwarts Legacy",          mk_data 8192  true  true);
    ("God of War Ragnarok",      mk_data 8192  true  true);
    ("Baldur's Gate 3",          mk_data 8192  true  true);
    ("Starfield",                mk_data 8192  true  true);
    ("Alan Wake 2",              mk_data 16384 true  true);
    ("Call of Duty: Warzone",    mk_data 8192  true  true);
    ("Fortnite",                 mk_data 4096  true  true);
    ("Counter-Strike 2",         mk_data 4096  false false);
    ("Valorant",                 mk_data 4096  false false);
    ("The Witcher 3: Wild Hunt", mk_data 8192  true  true);
    ("GTA V",                    mk_data 4096  false false);
    ("Minecraft",                mk_data 4096  true  false) ].

(** [GameAnalyzer.get_game_requirements] on the built-in database (the
    predictor constructs its analyzer without a custom database): exact
    key, then case-insensitive equality, then the query as a
    case-insensitive substring of a key. *)
Definition get_game_requirements (game_name : string) : option GameRequirements :=
  let games_db := GAMES_DATABASE in
  let found :=
    match Py.get games_db game_name with
    | Some data => Some (game_name, data)
    | None =>
        match find (fun '(name, _) => String.eqb (Py.lower name) (Py.lower game_name)) games_db with
        | Some (name, data) => Some (name, data)
        | None =>
            find (fun '(name, _) => Py.str_in (Py.lower game_name) (Py.lower name)) games_db
        end
    end in
  match found with
  | None => None
  | Some (game_name, data) =>
      Some {| name := game_name;
              recommended_vram := d_recommended_vram data;
              supports_dlss := d_supports_dlss data;
              supports_fsr := d_supports_fsr data |}
  end.

End GameAnalyzer.

(** ** fps_predictor.py: the tables *)

#[local] Open Scope float_scope.

(** Performance multipliers, normalised to RTX 3060 = 1.0. *)
Definition GPU_PERFORMANCE_INDEX : Py.dict float :=
  [ ("RTX 4090", 2.80); ("RTX 4080 SUPER", 2.30); ("RTX 4080", 2.15);
    ("RTX 4070 TI SUPER", 1.95); ("RTX 4070 TI", 1.80);
    ("RTX 4070 SUPER", 1.65); ("RTX 4070", 1.45); ("RTX 4060 TI", 1.25);
    ("RTX 4060", 1.10);
    ("RTX 3090 TI", 1.85); ("RTX 3090", 1.75); ("RTX 3080 TI", 1.70);
    ("RTX 3080", 1.55); ("RTX 3070 TI", 1.30); ("RTX 3070", 1.20);
    ("RTX 3060 TI", 1.10); ("RTX 3060", 1.00); ("RTX 3050", 0.70);
    ("RTX 2080 TI", 1.20); ("RTX 2080 SUPER", 1.05); ("RTX 2080", 0.95);
    ("RTX 2070 SUPER", 0.90); ("RTX 2070", 0.82); ("RTX 2060 SUPER", 0.78);
    ("RTX 2060", 0.70);
    ("GTX 1660 TI", 0.58); ("GTX 1660 SUPER", 0.55); ("GTX 1660", 0.50);
    ("GTX 1650 SUPER", 0.45); ("GTX 1650", 0.35);
    ("GTX 1080 TI", 0.85); ("GTX 1080", 0.68); ("GTX 1070 TI", 0.62);
    ("GTX 1070", 0.55); ("GTX 1060", 0.42); ("GTX 1050 TI", 0.28);
    ("GTX 1050", 0.22) ].

(** Resolution multipliers, relative to 1080p. *)
Definition RESOLUTION_MULTIPLIERS : Py.dict float :=
  [ ("1280x720", 1.80); ("1600x900", 1.40); ("1920x1080", 1.00);
    ("2560x1080", 0.85); ("2560x1440", 0.65); ("3440x1440", 0.55);
    ("3840x2160", 0.35); ("5120x2160", 0.28) ].

(** Quality preset multipliers. *)
Definition QUALITY_MULTIPLIERS : Py.dict float :=
  [ ("low", 2.00); ("medium", 1.40); ("high", 1.00); ("ultra", 0.70);
    ("extreme", 0.50) ].

(** Base FPS of each game at 1080p, high settings, on an RTX 3060. *)
Definition GAME_BASE_FPS : Py.dict Z :=
  [ ("Cyberpunk 2077", 55%Z); ("Elden Ring", 58%Z);
    ("Red Dead Redemption 2", 52%Z); ("Hogwarts Legacy", 50%Z);
    ("God of War Ragnarok", 65%Z); ("Baldur's Gate 3", 60%Z);
    ("Starfield", 45%Z); ("Alan Wake 2", 40%Z);
    ("Call of Duty: Warzone", 95%Z); ("Fortnite", 120%Z);
    ("Counter-Strike 2", 180%Z); ("Valorant", 250%Z);
    ("The Witcher 3: Wild Hunt", 80%Z); ("GTA V", 100%Z);
    ("Minecraft", 150%Z) ].

(** ** fps_predictor.py: the records *)

Module FPSPrediction.
Record t : Type := mk {
  game_name : string;
  gpu_name : string;
  resolution : string;
  quality_preset : string;
  fps_min : Z;
  fps_max : Z;
  fps_average : Z;
  fps_1_percent_low : Z;
  confidence : string;   (* "high", "medium", "low" *)
  notes : list string
}.
End FPSPrediction.

(** The dictionary returned by [find_optimal_settings]; the key
    ["warning"] is present in the fallback result only. *)
Module Config.
Record t : Type := mk {
  resolution : string;
  quality_preset : string;
  prediction : FPSPrediction.t;
  warning : option string
}.
End Config.

(** The dictionary returned by [compare_gpus]. *)
Module Comparison.
Record t : Type := mk {
  gpu1_name : string;
  gpu1_fps : Z;
  gpu2_name : string;
  gpu2_fps : Z;
  fps_difference : Z;
  percentage_difference : Py.num;
  faster_gpu : string;
  game : string;
  resolution : string;
  quality : string
}.
End Comparison.

(** ** fps_predictor.py: class FPSPredictor *)

(** The [for model_name, index in ....items()] loop of
    [_get_gpu_performance_index], returning at the first hit. *)
Fixpoint gpu_index_loop (items : Py.dict float) (gpu_name_upper : string) : float :=
  match items with
  | [] => 0.50  (* Conservative estimate *)
  | (model_name, index) :: rest =>
      if Py.str_in (Py.upper model_name) gpu_name_upper then index
      else gpu_index_loop rest gpu_name_upper
  end.

Definition _get_gpu_performance_index (gpu_name : string) : float :=
  let gpu_name_upper := Py.upper gpu_name in
  gpu_index_loop GPU_PERFORMANCE_INDEX gpu_name_upper.

Definition _get_resolution_multiplier (resolution : string) : float :=
  Py.get_default RESOLUTION_MULTIPLIERS resolution 1.0.

Definition _get_quality_multiplier (quality : string) : float :=
  Py.get_default QUALITY_MULTIPLIERS (Py.lower quality) 1.0.

(** The partial-match loop of [_get_game_base_fps]. *)
Fixpoint game_base_loop (items : Py.dict Z) (game_name : string) : Z :=
  match items with
  | [] => 60%Z  (* Default for unknown games *)
  | (name, fps) :: rest =>
      if Py.str_in (Py.lower game_name) (Py.lower name)
         || Py.str_in (Py.lower name) (Py.lower game_name)
      then fps
      else game_base_loop rest game_name
  end.

Definition _get_game_base_fps (game_name : string) : Z :=
  match Py.get GAME_BASE_FPS game_name with
  | Some fps => fps                         (* exact match *)
  | None => game_base_loop GAME_BASE_FPS game_name
  end.

Definition predict (gpu_info : GPUInfo.t)
    (game_name resolution quality_preset : string) : option FPSPrediction.t :=
  (* Get multipliers *)
  let gpu_index := _get_gpu_performance_index (GPUInfo.name gpu_info) in
  let res_multiplier := _get_resolution_multiplier resolution in
  let quality_multiplier := _get_quality_multiplier quality_preset in
  let base_fps := _get_game_base_fps game_name in
  (* Calculate predicted FPS *)
  let predicted_fps :=
    Py.float_of_int base_fps * gpu_index * res_multiplier * quality_multiplier in
  (* Calculate FPS range *)
  fps_average <- Py.int predicted_fps ;;
  fps_min <- Py.int (predicted_fps * 0.75) ;;
  fps_max <- Py.int (predicted_fps * 1.15) ;;
  fps_1_percent_low <- Py.int (predicted_fps * 0.60) ;;
  (* Determine confidence level *)
  let gpu_in_db :=
    Py.any (fun model => Py.str_in (Py.upper model) (Py.upper (GPUInfo.name gpu_info)))
           (Py.keys GPU_PERFORMANCE_INDEX) in
  let game_in_db :=
    Py.contains GAME_BASE_FPS game_name
    || Py.any (fun name => Py.str_in (Py.lower game_name) (Py.lower name))
              (Py.keys GAME_BASE_FPS) in
  let confidence :=
    if gpu_in_db && game_in_db then "high"
    else if gpu_in_db || game_in_db then "medium"
    else "low" in
  (* Generate notes *)
  let notes : list string := [] in
  (* Check VRAM limitations *)
  let game_req := GameAnalyzer.get_game_requirements game_name in
  let notes :=
    match game_req with
    | Some game_req =>
        let notes :=
          if (GPUInfo.vram_total gpu_info <? GameAnalyzer.recommended_vram game_req)%Z
          then Py.append notes
                 ("VRAM (" ++ Py.str_of_int (GPUInfo.vram_total gpu_info)
                  ++ "MB) is below recommended ("
                  ++ Py.str_of_int (GameAnalyzer.recommended_vram game_req)
                  ++ "MB). May experience stuttering.")
          else notes in
        if GameAnalyzer.supports_dlss game_req
           && Py.str_in "RTX" (Py.upper (GPUInfo.name gpu_info))
        then Py.append notes "DLSS available - can boost FPS by 30-60%"
        else if GameAnalyzer.supports_fsr game_req
        then Py.append notes "FSR available - can boost FPS by 20-40%"
        else notes
    | None => notes
    end in
  (* Resolution-specific notes *)
  let notes :=
    if String.eqb resolution "3840x2160" || String.eqb resolution "5120x2160"
    then Py.append notes
           "4K gaming is very demanding. Consider DLSS/FSR for better performance."
    else notes in
  (* Quality-specific notes *)
  let notes :=
    if String.eqb (Py.lower quality_preset) "ultra" && (fps_average <? 60)%Z
    then Py.append notes "Consider reducing to High for smoother gameplay."
    else notes in
  Some {| FPSPrediction.game_name := game_name;
          FPSPrediction.gpu_name := GPUInfo.name gpu_info;
          FPSPrediction.resolution := resolution;
          FPSPrediction.quality_preset := quality_preset;
          FPSPrediction.fps_min := fps_min;
          FPSPrediction.fps_max := fps_max;
          FPSPrediction.fps_average := fps_average;
          FPSPrediction.fps_1_percent_low := fps_1_percent_low;
          FPSPrediction.confidence := confidence;
          FPSPrediction.notes := notes |}.

(** *** find_optimal_settings *)

(** The search is modelled in a monad that propagates exceptions and
    records, in call order, the [(resolution, preset)] arguments of every
    call of [self.predict] it makes, so that which combinations are
    evaluated can be stated. *)
Abbreviation PredictCall := (string * string)%type (only parsing).

Definition Traced (A : Type) : Type :=
  list PredictCall -> option (A * list PredictCall).

Definition ret {A : Type} (a : A) : Traced A :=
  fun calls => Some (a, calls).

Definition bind {A B : Type} (m : Traced A) (k : A -> Traced B) : Traced B :=
  fun calls =>
    match m calls with
    | Some (a, calls') => k a calls'
    | None => None
    end.

Notation "x <<- e ;; k" := (bind e (fun x => k))
  (at level 61, e at next level, right associativity, only parsing).

Definition call_predict (gpu_info : GPUInfo.t) (game_name res preset : string)
  : Traced FPSPrediction.t :=
  fun calls =>
    match predict gpu_info game_name res preset with
    | Some prediction => Some (prediction, (calls ++ [(res, preset)])%list)
    | None => None
    end.

Definition resolutions : list string :=
  [ "3840x2160"; "2560x1440"; "1920x1080"; "1280x720" ].

Definition presets : list string := [ "ultra"; "high"; "medium"; "low" ].

Section Search.
Variable gpu_info : GPUInfo.t.
Variable game_name : string.
Variable target_fps : Z.

Definition make_config (res preset : string) (prediction : FPSPrediction.t)
  : Config.t :=
  {| Config.resolution := res;
     Config.quality_preset := preset;
     Config.prediction := prediction;
     Config.warning := None |}.

(** [prefer_quality]: the loop over [presets]; it ends at the first
    preset that reaches the target ([break]). *)
Fixpoint quality_presets_loop (res : string) (todo : list string)
    (best_config : option Config.t) : Traced (option Config.t) :=
  match todo with
  | [] => ret best_config
  | preset :: todo' =>
      prediction <<- call_predict gpu_info game_name res preset ;;
      if (FPSPrediction.fps_average prediction >=? target_fps)%Z then
        ret (match best_config with
             | None => Some (make_config res preset prediction)
             | Some _ => best_config
             end)
      else quality_presets_loop res todo' best_config
  end.

(** [prefer_quality]: the loop over [resolutions]; it ends as soon as
    [best_config] is set ([if best_config: break]). *)
Fixpoint quality_resolutions_loop (todo : list string)
    (best_config : option Config.t) : Traced (option Config.t) :=
  match todo with
  | [] => ret best_config
  | res :: todo' =>
      best_config <<- quality_presets_loop res presets best_config ;;
      match best_config with
      | Some _ => ret best_config
      | None => quality_resolutions_loop todo' best_config
      end
  end.

(** Otherwise: both loops run to their end, and every hit overwrites
    [best_config]. *)
Fixpoint performance_presets_loop (res : string) (todo : list string)
    (best_config : option Config.t) : Traced (option Config.t) :=
  match todo with
  | [] => ret best_config
  | preset :: todo' =>
      prediction <<- call_predict gpu_info game_name res preset ;;
      let best_config :=
        if (FPSPrediction.fps_average prediction >=? target_fps)%Z
        then Some (make_config res preset prediction)
        else best_config in
      performance_presets_loop res todo' best_config
  end.

Fixpoint performance_resolutions_loop (todo : list string)
    (best_config : option Config.t) : Traced (option Config.t) :=
  match todo with
  | [] => ret best_config
  | res :: todo' =>
      best_config <<- performance_presets_loop res (rev presets) best_config ;;
      performance_resolutions_loop todo' best_config
  end.

Definition find_optimal_settings_traced (prefer_quality : bool)
  : Traced Config.t :=
  let best_config : option Config.t := None in
  best_config <<-
    (if prefer_quality
     then quality_resolutions_loop resolutions best_config
     else performance_resolutions_loop (rev resolutions) best_config) ;;
  match best_config with
  | None =>
      (* Can't reach target - return lowest settings *)
      prediction <<- call_predict gpu_info game_name "1280x720" "low" ;;
      ret {| Config.resolution := "1280x720";
             Config.quality_preset := "low";
             Config.prediction := prediction;
             Config.warning :=
               Some ("Cannot achieve " ++ Py.str_of_int target_fps
                     ++ " FPS even at lowest settings") |}
  | Some best_config => ret best_config
  end.

(** The value [find_optimal_settings] returns. *)
Definition find_optimal_settings (prefer_quality : bool) : option Config.t :=
  match find_optimal_settings_traced prefer_quality [] with
  | Some (best_config, _) => Some best_config
  | None => None
  end.

(** The calls of [predict] it makes, in order. *)
Definition find_optimal_settings_calls (prefer_quality : bool)
  : option (list PredictCall) :=
  match find_optimal_settings_traced prefer_quality [] with
  | Some (_, calls) => Some calls
  | None => None
  end.
End Search.

(** *** compare_gpus *)

Definition compare_gpus (gpu1_info : GPUInfo.t)
    (gpu2_name game_name resolution quality_preset : string)
  : option Comparison.t :=
  pred1 <- predict gpu1_info game_name resolution quality_preset ;;
  let gpu2_index := _get_gpu_performance_index gpu2_name in
  (* Calculate GPU2 prediction manually *)
  let base_fps := _get_game_base_fps game_name in
  let res_multiplier := _get_resolution_multiplier resolution in
  let quality_multiplier := _get_quality_multiplier quality_preset in
  gpu2_fps <-
    Py.int (Py.float_of_int base_fps * gpu2_index * res_multiplier
            * quality_multiplier) ;;
  let difference := (gpu2_fps - FPSPrediction.fps_average pred1)%Z in
  percentage <-
    (if (FPSPrediction.fps_average pred1 >? 0)%Z
     then (ratio <- Py.int_truediv difference (FPSPrediction.fps_average pred1) ;;
           Some (Py.Float (ratio * Py.float_of_int 100)))
     else Some (Py.Int 0)) ;;
  Some {| Comparison.gpu1_name := GPUInfo.name gpu1_info;
          Comparison.gpu1_fps := FPSPrediction.fps_average pred1;
          Comparison.gpu2_name := gpu2_name;
          Comparison.gpu2_fps := gpu2_fps;
          Comparison.fps_difference := difference;
          Comparison.percentage_difference := Py.round1_num percentage;
          Comparison.faster_gpu :=
            if (difference >? 0)%Z then gpu2_name else GPUInfo.name gpu1_info;
          Comparison.game := game_name;
          Comparison.resolution := resolution;
          Comparison.quality := quality_preset |}.

(** *** predict_all_presets and predict_all_resolutions *)

Definition predict_all_presets (gpu_info : GPUInfo.t)
    (game_name resolution : string) : option (Py.dict FPSPrediction.t) :=
  let presets := [ "low"; "medium"; "high"; "ultra" ] in
  Py.dict_comprehension
    (fun preset => predict gpu_info game_name resolution preset) presets.

Definition predict_all_resolutions (gpu_info : GPUInfo.t)
    (game_name quality_preset : string) : option (Py.dict FPSPrediction.t) :=
  let resolutions := [ "1920x1080"; "2560x1440"; "3840x2160" ] in
  Py.dict_comprehension
    (fun res => predict gpu_info game_name res quality_preset) resolutions.

(** ** game_analyzer.py: class GameAnalyzer in full *)

(** The analyzer with every field of its records, its database as a
    parameter ([self.games_db]) and its other methods.  An entry of the
    database is a record: every key of the entry is present, as in the
    built-in database. *)
Module GameAnalyzerDB.

Record game_data : Type := mk_data {
  minimum_vram : Z;
  recommended_vram : Z;
  minimum_gpu : string;
  recommended_gpu : string;
  supports_raytracing : bool;
  supports_dlss : bool;
  supports_fsr : bool;
  release_year : Z;
  engine : string;
  optimization_level : string;
  settings : list string
}.

Module GameRequirements.
Record t : Type := mk {
  name : string;
  minimum_vram : Z;
  recommended_vram : Z;
  minimum_gpu : string;
  recommended_gpu : string;
  supports_raytracing : bool;
  supports_dlss : bool;
  supports_fsr : bool;
  release_year : Z;
  engine : string;
  optimization_level : string
}.
End GameRequirements.

Definition GAMES_DATABASE : Py.dict game_data :=
  [
    ("Cyberpunk 2077",
     {| minimum_vram := 3072;
        recommended_vram := 8192;
        minimum_gpu := "GTX 970";
        recommended_gpu := "RTX 2060";
        supports_raytracing := true;
        supports_dlss := true;
        supports_fsr := true;
        release_year := 2020;
        engine := "REDengine 4";
        optimization_level := "good";
        settings :=
          [ "Quality Preset"; "Ray Tracing"; "DLSS"; "FSR";
            "Crowd Density"; "Shadow Quality"; "Reflection Quality";
            "Ambient Occlusion"; "Screen Space Reflections";
            "Volumetric Fog"; "Cascaded Shadows" ] |});
    ("Elden Ring",
     {| minimum_vram := 3072;
        recommended_vram := 8192;
        minimum_gpu := "GTX 1060";
        recommended_gpu := "RTX 3060";
        supports_raytracing := true;
        supports_dlss := false;
        supports_fsr := false;
        release_year := 2022;
        engine := "FromSoftware Engine";
        optimization_level := "average";
        settings :=
          [ "Quality Preset"; "Texture Quality"; "Antialiasing Quality";
            "SSAO"; "Depth of Field"; "Motion Blur"; "Shadow Quality";
            "Lighting Quality"; "Effects Quality"; "Volumetric Quality";
            "Reflection Quality"; "Water Surface Quality";
            "Shader Quality"; "Global Illumination Quality";
            "Grass Quality" ] |});
    ("Red Dead Redemption 2",
     {| minimum_vram := 2048;
        recommended_vram := 8192;
        minimum_gpu := "GTX 770";
        recommended_gpu := "RTX 2070";
        supports_raytracing := false;
        supports_dlss := true;
        supports_fsr := true;
        release_year := 2019;
        engine := "RAGE";
        optimization_level := "good";
        settings :=
          [ "Quality Preset"; "Texture Quality"; "Anisotropic Filtering";
            "Lighting Quality"; "Global Illumination Quality";
            "Shadow Quality"; "Far Shadow Quality";
            "Screen Space Ambient Occlusion"; "Reflection Quality";
            "Mirror Quality"; "Water Quality"; "Volumetrics Quality";
            "Particle Quality"; "Tessellation Quality"; "TAA"; "FXAA";
            "MSAA" ] |});
    ("Hogwarts Legacy",
     {| minimum_vram := 4096;
        recommended_vram := 8192;
        minimum_gpu := "GTX 960";
        recommended_gpu := "RTX 3070";
        supports_raytracing := true;
        supports_dlss := true;
        supports_fsr := true;
        release_year := 2023;
        engine := "Unreal Engine 4";
        optimization_level := "average";
        settings :=
          [ "Quality Preset"; "Ray Tracing Reflections";
            "Ray Tracing Shadows"; "Ray Tracing Ambient Occlusion"; "DLSS";
            "FSR"; "Effects Quality"; "Material Quality"; "Fog Quality";
            "Sky Quality"; "Foliage Quality"; "Post Process Quality";
            "Shadow Quality"; "Texture Quality"; "View Distance Quality";
            "Population Quality" ] |});
    ("God of War Ragnarok",
     {| minimum_vram := 4096;
        recommended_vram := 8192;
        minimum_gpu := "GTX 1070";
        recommended_gpu := "RTX 3070";
        supports_raytracing := false;
        supports_dlss := true;
        supports_fsr := true;
        release_year := 2024;
        engine := "Santa Monica Studio Engine";
        optimization_level := "excellent";
        settings :=
          [ "Graphics Preset"; "Texture Quality"; "Model Quality";
            "Anisotropic Filter"; "Shadows"; "Reflections"; "Atmospherics";
            "Ambient Occlusion"; "DLSS"; "FSR" ] |});
    ("Baldur's Gate 3",
     {| minimum_vram := 4096;
        recommended_vram := 8192;
        minimum_gpu := "GTX 970";
        recommended_gpu := "RTX 3060";
        supports_raytracing := false;
        supports_dlss := true;
        supports_fsr := true;
        release_year := 2023;
        engine := "Divinity Engine 4.0";
        optimization_level := "good";
        settings :=
          [ "Overall Preset"; "Model Quality"; "Detail Distance";
            "Instance Distance"; "Texture Quality"; "Texture Filtering";
            "Animation LOD Distance"; "Slow HDD Mode"; "Shadow Quality";
            "Cloud Quality"; "Fog Quality"; "God Rays"; "Bloom";
            "Depth of Field"; "DLSS"; "FSR"; "Antialiasing" ] |});
    ("Starfield",
     {| minimum_vram := 6144;
        recommended_vram := 8192;
        minimum_gpu := "GTX 1070 Ti";
        recommended_gpu := "RTX 2080";
        supports_raytracing := false;
        supports_dlss := true;
        supports_fsr := true;
        release_year := 2023;
        engine := "Creation Engine 2";
        optimization_level := "poor";
        settings :=
          [ "Render Resolution Scale"; "Shadow Quality";
            "Indirect Lighting"; "Reflections"; "Particle Quality";
            "Volumetric Lighting"; "Crowd Density"; "Motion Blur"; "GTAO";
            "Grass Quality"; "Contact Shadows"; "VSync"; "Upscaling";
            "Film Grain"; "Enable VRS" ] |});
    ("Alan Wake 2",
     {| minimum_vram := 6144;
        recommended_vram := 16384;
        minimum_gpu := "RTX 2060";
        recommended_gpu := "RTX 4070";
        supports_raytracing := true;
        supports_dlss := true;
        supports_fsr := true;
        release_year := 2023;
        engine := "Northlight Engine";
        optimization_level := "average";
        settings :=
          [ "Quality Preset"; "Texture Resolution"; "Shadow Resolution";
            "Global Reflections"; "Volumetric Lighting"; "Fog Quality";
            "Global Illumination"; "Post Process";
            "Ray Traced Reflections"; "DLSS"; "FSR"; "XeSS" ] |});
    ("Call of Duty: Warzone",
     {| minimum_vram := 4096;
        recommended_vram := 8192;
        minimum_gpu := "GTX 970";
        recommended_gpu := "RTX 3060";
        supports_raytracing := true;
        supports_dlss := true;
        supports_fsr := true;
        release_year := 2020;
        engine := "IW Engine";
        optimization_level := "good";
        settings :=
          [ "Render Resolution"; "Dynamic Resolution"; "Upscaling";
            "VRAM Scale Target"; "Texture Resolution"; "Texture Filter";
            "Nearby LOD"; "Distant LOD"; "Clutter Draw Distance";
            "Particle Quality"; "Bullet Impacts"; "Shader Quality";
            "Tessellation"; "On-Demand Texture Streaming";
            "Shadow Quality"; "Screen Space Shadows"; "Ambient Occlusion";
            "Screen Space Reflections"; "Static Reflection Quality";
            "Weather Grid Volumes"; "Water Quality" ] |});
    ("Fortnite",
     {| minimum_vram := 2048;
        recommended_vram := 4096;
        minimum_gpu := "GTX 660";
        recommended_gpu := "RTX 2060";
        supports_raytracing := true;
        supports_dlss := true;
        supports_fsr := true;
        release_year := 2017;
        engine := "Unreal Engine 5";
        optimization_level := "excellent";
        settings :=
          [ "Quality Preset"; "3D Resolution"; "View Distance"; "Shadows";
            "Anti-Aliasing"; "Textures"; "Effects"; "Post Processing";
            "Ray Tracing"; "DLSS"; "FSR" ] |});
    ("Counter-Strike 2",
     {| minimum_vram := 1024;
        recommended_vram := 4096;
        minimum_gpu := "GTX 650";
        recommended_gpu := "RTX 2060";
        supports_raytracing := false;
        supports_dlss := false;
        supports_fsr := false;
        release_year := 2023;
        engine := "Source 2";
        optimization_level := "excellent";
        settings :=
          [ "Global Shadow Quality"; "Model/Texture Detail";
            "Texture Filtering"; "Shader Detail"; "Particle Detail";
            "Ambient Occlusion"; "High Dynamic Range";
            "FidelityFX Super Resolution"; "NVIDIA Reflex" ] |});
    ("Valorant",
     {| minimum_vram := 1024;
        recommended_vram := 4096;
        minimum_gpu := "GT 730";
        recommended_gpu := "GTX 1050 Ti";
        supports_raytracing := false;
        supports_dlss := false;
        supports_fsr := false;
        release_year := 2020;
        engine := "Unreal Engine 4";
        optimization_level := "excellent";
        settings :=
          [ "Material Quality"; "Texture Quality"; "Detail Quality";
            "UI Quality"; "Vignette"; "VSync"; "Anti-Aliasing";
            "Anisotropic Filtering"; "Improve Clarity"; "Bloom";
            "Distortion"; "Cast Shadows" ] |});
    ("The Witcher 3: Wild Hunt",
     {| minimum_vram := 2048;
        recommended_vram := 8192;
        minimum_gpu := "GTX 660";
        recommended_gpu := "RTX 3070";
        supports_raytracing := true;
        supports_dlss := true;
        supports_fsr := true;
        release_year := 2015;
        engine := "REDengine 3";
        optimization_level := "excellent";
        settings :=
          [ "Graphics Preset"; "Post Processing"; "Motion Blur"; "Blur";
            "Anti-Aliasing"; "Bloom"; "Sharpening"; "Ambient Occlusion";
            "Depth of Field"; "Chromatic Aberration"; "Vignetting";
            "Light Shafts"; "Detail Level"; "Shadow Quality";
            "Terrain Quality"; "Water Quality"; "Foliage Visibility Range";
            "Grass Density"; "Texture Quality";
            "Number of Background Characters"; "Ray Tracing"; "DLSS" ] |});
    ("GTA V",
     {| minimum_vram := 1024;
        recommended_vram := 4096;
        minimum_gpu := "GTX 660";
        recommended_gpu := "GTX 1060";
        supports_raytracing := false;
        supports_dlss := false;
        supports_fsr := false;
        release_year := 2015;
        engine := "RAGE";
        optimization_level := "excellent";
        settings :=
          [ "FXAA"; "MSAA"; "TXAA"; "Population Density";
            "Population Variety"; "Distance Scaling"; "Texture Quality";
            "Shader Quality"; "Shadow Quality"; "Reflection Quality";
            "Reflection MSAA"; "Water Quality"; "Particles Quality";
            "Grass Quality"; "Post FX"; "Anisotropic Filtering";
            "Ambient Occlusion"; "Tessellation"; "Long Shadows";
            "High Resolution Shadows";
            "High Detail Streaming While Flying";
            "Extended Distance Scaling"; "Extended Shadows Distance" ] |});
    ("Minecraft",
     {| minimum_vram := 512;
        recommended_vram := 4096;
        minimum_gpu := "Intel HD 4000";
        recommended_gpu := "RTX 2060";
        supports_raytracing := true;
        supports_dlss := true;
        supports_fsr := false;
        release_year := 2011;
        engine := "Java/Bedrock Engine";
        optimization_level := "average";
        settings :=
          [ "Graphics"; "Render Distance"; "Simulation Distance";
            "Max Framerate"; "View Bobbing"; "GUI Scale"; "Brightness";
            "Clouds"; "Particles"; "Smooth Lighting"; "Biome Blend";
            "Entity Shadows"; "Entity Distance"; "FOV Effects";
            "Darkness Pulsing"; "Ray Tracing" ] |}) ].

Section Analyzer.
Variable games_db : Py.dict game_data.

Definition get_game_requirements (game_name : string)
  : option GameRequirements.t :=
  let found :=
    match Py.get games_db game_name with        (* exact match *)
    | Some data => Some (game_name, data)
    | None =>
        match find (fun '(name, _) =>
                      String.eqb (Py.lower name) (Py.lower game_name))
                   games_db with                (* case-insensitive match *)
        | Some (name, data) => Some (name, data)
        | None =>                               (* partial match *)
            find (fun '(name, _) =>
                    Py.str_in (Py.lower game_name) (Py.lower name))
                 games_db
        end
    end in
  match found with
  | None => None
  | Some (game_name, game_data) =>
      Some {| GameRequirements.name := game_name;
              GameRequirements.minimum_vram := minimum_vram game_data;
              GameRequirements.recommended_vram := recommended_vram game_data;
              GameRequirements.minimum_gpu := minimum_gpu game_data;
              GameRequirements.recommended_gpu := recommended_gpu game_data;
              GameRequirements.supports_raytracing :=
                supports_raytracing game_data;
              GameRequirements.supports_dlss := supports_dlss game_data;
              GameRequirements.supports_fsr := supports_fsr game_data;
              GameRequirements.release_year := release_year game_data;
              GameRequirements.engine := engine game_data;
              GameRequirements.optimization_level :=
                optimization_level game_data |}
  end.

Definition list_games : list string :=
  Py.sorted (Py.keys games_db).

Definition search_games (query : string) : list string :=
  let query_lower := Py.lower query in
  let matches :=
    filter (fun game_name => Py.str_in query_lower (Py.lower game_name))
           (Py.keys games_db) in
  Py.sorted matches.

Definition get_game_settings (game_name : string) : list string :=
  let game_data :=
    match Py.get games_db game_name with
    | Some data => Some data
    | None =>
        match find (fun '(name, _) =>
                      Py.str_in (Py.lower game_name) (Py.lower name))
                   games_db with
        | Some (_, data) => Some data
        | None => None
        end
    end in
  match game_data with
  | Some game_data => settings game_data
  | None => []
  end.

Definition feature_map : Py.dict (game_data -> bool) :=
  [ ("raytracing", supports_raytracing);
    ("ray_tracing", supports_raytracing);
    ("rt", supports_raytracing);
    ("dlss", supports_dlss);
    ("fsr", supports_fsr) ].

Definition get_games_by_feature (feature : string) : list string :=
  match Py.get feature_map (Py.lower feature) with
  | None => []
  | Some feature_key =>
      map fst (filter (fun '(name, data) => feature_key data) games_db)
  end.

(** The database after [add_game(name, requirements)]. *)
Definition add_game (name : string) (requirements : game_data)
  : Py.dict game_data :=
  Py.set games_db name requirements.

(** The two shapes of the dictionary [check_compatibility] returns. *)
Inductive Compatibility : Type :=
  | NotFound (game_name compatible message : string)
             (suggestions : list string)
  | Found (game_name compatible message : string)
          (your_vram_mb minimum_vram_mb recommended_vram_mb : Z)
          (minimum_gpu recommended_gpu engine optimization_level : string)
          (features : list string).

Definition check_compatibility (gpu_info : GPUInfo.t) (game_name : string)
  : Compatibility :=
  match get_game_requirements game_name with
  | None =>
      NotFound game_name "unknown"
        ("Game '" ++ game_name ++ "' not found in database")
        (firstn 5 (search_games game_name))
  | Some requirements =>
      let vram_mb := GPUInfo.vram_total gpu_info in
      (* Determine compatibility level *)
      let '(compatibility, message) :=
        if (vram_mb >=? GameRequirements.recommended_vram requirements)%Z
        then ("excellent", "Your GPU exceeds the recommended requirements")
        else if (vram_mb >=? GameRequirements.minimum_vram requirements)%Z
        then ("good",
              "Your GPU meets minimum requirements but is below recommended")
        else ("poor", "Your GPU does not meet minimum VRAM requirements") in
      (* Check feature support *)
      let features : list string := [] in
      let features :=
        if GameRequirements.supports_raytracing requirements
        then if Py.str_in "RTX" (Py.upper (GPUInfo.name gpu_info))
             then Py.append features "Ray Tracing supported ✓"
             else Py.append features "Ray Tracing not supported on your GPU"
        else features in
      let features :=
        if GameRequirements.supports_dlss requirements
        then if Py.str_in "RTX" (Py.upper (GPUInfo.name gpu_info))
             then Py.append features "DLSS supported ✓"
             else Py.append features "DLSS not supported on your GPU"
        else features in
      let features :=
        if GameRequirements.supports_fsr requirements
        then Py.append features "FSR supported ✓ (all GPUs)"
        else features in
      Found game_name compatibility message vram_mb
        (GameRequirements.minimum_vram requirements)
        (GameRequirements.recommended_vram requirements)
        (GameRequirements.minimum_gpu requirements)
        (GameRequirements.recommended_gpu requirements)
        (GameRequirements.engine requirements)
        (GameRequirements.optimization_level requirements)
        features
  end.

End Analyzer.

End GameAnalyzerDB.

(** ** gpu_detector.py: the specifications database *)

Module GPUDetector.

Record specs : Type := mk_specs {
  cuda_cores : Z;
  base_clock : Z;
  boost_clock : Z;
  architecture : string;
  tier : string
}.

Definition GPU_SPECS_DATABASE : Py.dict specs :=
  [
    ("RTX 4090", mk_specs 16384 2235 2520 "Ada Lovelace" "Enthusiast");
    ("RTX 4080 SUPER", mk_specs 10240 2290 2550 "Ada Lovelace" "Enthusiast");
    ("RTX 4080", mk_specs 9728 2205 2505 "Ada Lovelace" "Enthusiast");
    ("RTX 4070 TI SUPER", mk_specs 8448 2340 2610 "Ada Lovelace" "High-End");
    ("RTX 4070 TI", mk_specs 7680 2310 2610 "Ada Lovelace" "High-End");
    ("RTX 4070 SUPER", mk_specs 7168 1980 2475 "Ada Lovelace" "High-End");
    ("RTX 4070", mk_specs 5888 1920 2475 "Ada Lovelace" "High-End");
    ("RTX 4060 TI", mk_specs 4352 2310 2535 "Ada Lovelace" "Mid-Range");
    ("RTX 4060", mk_specs 3072 1830 2460 "Ada Lovelace" "Mid-Range");
    ("RTX 3090 TI", mk_specs 10752 1560 1860 "Ampere" "Enthusiast");
    ("RTX 3090", mk_specs 10496 1395 1695 "Ampere" "Enthusiast");
    ("RTX 3080 TI", mk_specs 10240 1365 1665 "Ampere" "Enthusiast");
    ("RTX 3080", mk_specs 8704 1440 1710 "Ampere" "High-End");
    ("RTX 3070 TI", mk_specs 6144 1575 1770 "Ampere" "High-End");
    ("RTX 3070", mk_specs 5888 1500 1725 "Ampere" "High-End");
    ("RTX 3060 TI", mk_specs 4864 1410 1670 "Ampere" "Mid-Range");
    ("RTX 3060", mk_specs 3584 1320 1777 "Ampere" "Mid-Range");
    ("RTX 3050", mk_specs 2560 1552 1777 "Ampere" "Entry");
    ("RTX 2080 TI", mk_specs 4352 1350 1545 "Turing" "High-End");
    ("RTX 2080 SUPER", mk_specs 3072 1650 1815 "Turing" "High-End");
    ("RTX 2080", mk_specs 2944 1515 1710 "Turing" "High-End");
    ("RTX 2070 SUPER", mk_specs 2560 1605 1770 "Turing" "Mid-Range");
    ("RTX 2070", mk_specs 2304 1410 1620 "Turing" "Mid-Range");
    ("RTX 2060 SUPER", mk_specs 2176 1470 1650 "Turing" "Mid-Range");
    ("RTX 2060", mk_specs 1920 1365 1680 "Turing" "Entry");
    ("GTX 1660 TI", mk_specs 1536 1500 1770 "Turing" "Entry");
    ("GTX 1660 SUPER", mk_specs 1408 1530 1785 "Turing" "Entry");
    ("GTX 1660", mk_specs 1408 1530 1785 "Turing" "Entry");
    ("GTX 1650 SUPER", mk_specs 1280 1530 1725 "Turing" "Entry");
    ("GTX 1650", mk_specs 896 1485 1665 "Turing" "Entry");
    ("GTX 1080 TI", mk_specs 3584 1480 1582 "Pascal" "High-End");
    ("GTX 1080", mk_specs 2560 1607 1733 "Pascal" "Mid-Range");
    ("GTX 1070 TI", mk_specs 2432 1607 1683 "Pascal" "Mid-Range");
    ("GTX 1070", mk_specs 1920 1506 1683 "Pascal" "Mid-Range");
    ("GTX 1060", mk_specs 1280 1506 1708 "Pascal" "Entry");
    ("GTX 1050 TI", mk_specs 768 1290 1392 "Pascal" "Entry");
    ("GTX 1050", mk_specs 640 1354 1455 "Pascal" "Entry") ].

(** The loop of [_lookup_gpu_specs]; the empty dictionary it returns for
    an unknown name is [None]. *)
Fixpoint lookup_loop (items : Py.dict specs) (gpu_name_upper : string)
  : option specs :=
  match items with
  | [] => None
  | (model_name, specs) :: rest =>
      if Py.str_in (Py.upper model_name) gpu_name_upper then Some specs
      else lookup_loop rest gpu_name_upper
  end.

Definition _lookup_gpu_specs (gpu_name : string) : option specs :=
  let gpu_name_upper := Py.upper gpu_name in
  lookup_loop GPU_SPECS_DATABASE gpu_name_upper.

End GPUDetector.

(** ** Processor names of any characters

    A Python [str] is a sequence of Unicode code points.  Here it is the
    [string] of its UTF-8 bytes: the bytes of an ASCII character are those
    of the conventions above, and a valid UTF-8 pattern occurs in a valid
    UTF-8 text at the byte level exactly where it occurs at the code-point
    level, so [Py.str_in] is [in] on these strings too.  [str.upper] maps
    every code point by itself, some onto several code points and some
    non-ASCII ones onto ASCII letters (U+0131 to I, U+017F to S, U+00DF to
    SS, the ligatures U+FB00 to U+FB06), which makes names match patterns
    that the 26 letters alone would not. *)

Module Unicode.

(** The code points that [str.upper] changes, with their images (Unicode
    character database 14.0, the mapping of CPython 3.11); every other code
    point is its own image. *)
Definition UPPERCASE : Py.dict string :=
  [ ("a", "A"); ("b", "B"); ("c", "C"); ("d", "D"); ("e", "E"); ("f", "F");
    ("g", "G"); ("h", "H"); ("i", "I"); ("j", "J"); ("k", "K"); ("l", "L");
    ("m", "M"); ("n", "N"); ("o", "O"); ("p", "P"); ("q", "Q"); ("r", "R");
    ("s", "S"); ("t", "T"); ("u", "U"); ("v", "V"); ("w", "W"); ("x", "X");
    ("y", "Y"); ("z", "Z"); ("µ", "Μ"); ("ß", "SS"); ("à", "À"); ("á", "Á");
    ("â", "Â"); ("ã", "Ã"); ("ä", "Ä"); ("å", "Å"); ("æ", "Æ"); ("ç", "Ç");
    ("è", "È"); ("é", "É"); ("ê", "Ê"); ("ë", "Ë"); ("ì", "Ì"); ("í", "Í");
    ("î", "Î"); ("ï", "Ï"); ("ð", "Ð"); ("ñ", "Ñ"); ("ò", "Ò"); ("ó", "Ó");
    ("ô", "Ô"); ("õ", "Õ"); ("ö", "Ö"); ("ø", "Ø"); ("ù", "Ù"); ("ú", "Ú");
    ("û", "Û"); ("ü", "Ü"); ("ý", "Ý"); ("þ", "Þ"); ("ÿ", "Ÿ"); ("ā", "Ā");
    ("ă", "Ă"); ("ą", "Ą"); ("ć", "Ć"); ("ĉ", "Ĉ"); ("ċ", "Ċ"); ("č", "Č");
    ("ď", "Ď"); ("đ", "Đ"); ("ē", "Ē"); ("ĕ", "Ĕ"); ("ė", "Ė"); ("ę", "Ę");
    ("ě", "Ě"); ("ĝ", "Ĝ"); ("ğ", "Ğ"); ("ġ", "Ġ"); ("ģ", "Ģ"); ("ĥ", "Ĥ");
    ("ħ", "Ħ"); ("ĩ", "Ĩ"); ("ī", "Ī"); ("ĭ", "Ĭ"); ("į", "Į"); ("ı", "I");
    ("ĳ", "Ĳ"); ("ĵ", "Ĵ"); ("ķ", "Ķ"); ("ĺ", "Ĺ"); ("ļ", "Ļ"); ("ľ", "Ľ");
    ("ŀ", "Ŀ"); ("ł", "Ł"); ("ń", "Ń"); ("ņ", "Ņ"); ("ň", "Ň"); ("ŉ", "ʼN");
    ("ŋ", "Ŋ"); ("ō", "Ō"); ("ŏ", "Ŏ"); ("ő", "Ő"); ("œ", "Œ"); ("ŕ", "Ŕ");
    ("ŗ", "Ŗ"); ("ř", "Ř"); ("ś", "Ś"); ("ŝ", "Ŝ"); ("ş", "Ş"); ("š", "Š");
    ("ţ", "Ţ"); ("ť", "Ť"); ("ŧ", "Ŧ"); ("ũ", "Ũ"); ("ū", "Ū"); ("ŭ", "Ŭ");
    ("ů", "Ů"); ("ű", "Ű"); ("ų", "Ų"); ("ŵ", "Ŵ"); ("ŷ", "Ŷ"); ("ź", "Ź");
    ("ż", "Ż"); ("ž", "Ž"); ("ſ", "S"); ("ƀ", "Ƀ"); ("ƃ", "Ƃ"); ("ƅ", "Ƅ");
    ("ƈ", "Ƈ"); ("ƌ", "Ƌ"); ("ƒ", "Ƒ"); ("ƕ", "Ƕ"); ("ƙ", "Ƙ"); ("ƚ", "Ƚ");
    ("ƞ", "Ƞ"); ("ơ", "Ơ"); ("ƣ", "Ƣ"); ("ƥ", "Ƥ"); ("ƨ", "Ƨ"); ("ƭ", "Ƭ");
    ("ư", "Ư"); ("ƴ", "Ƴ"); ("ƶ", "Ƶ"); ("ƹ", "Ƹ"); ("ƽ", "Ƽ"); ("ƿ", "Ƿ");
    ("ǅ", "Ǆ"); ("ǆ", "Ǆ"); ("ǈ", "Ǉ"); ("ǉ", "Ǉ"); ("ǋ", "Ǌ"); ("ǌ", "Ǌ");
    ("ǎ", "Ǎ"); ("ǐ", "Ǐ"); ("ǒ", "Ǒ"); ("ǔ", "Ǔ"); ("ǖ", "Ǖ"); ("ǘ", "Ǘ");
    ("ǚ", "Ǚ"); ("ǜ", "Ǜ"); ("ǝ", "Ǝ"); ("ǟ", "Ǟ"); ("ǡ", "Ǡ"); ("ǣ", "Ǣ");
    ("ǥ", "Ǥ"); ("ǧ", "Ǧ"); ("ǩ", "Ǩ"); ("ǫ", "Ǫ"); ("ǭ", "Ǭ"); ("ǯ", "Ǯ");
    ("ǰ", "J̌"); ("ǲ", "Ǳ"); ("ǳ", "Ǳ"); ("ǵ", "Ǵ"); ("ǹ", "Ǹ"); ("ǻ", "Ǻ");
    ("ǽ", "Ǽ"); ("ǿ", "Ǿ"); ("ȁ", "Ȁ"); ("ȃ", "Ȃ"); ("ȅ", "Ȅ"); ("ȇ", "Ȇ");
    ("ȉ", "Ȉ"); ("ȋ", "Ȋ"); ("ȍ", "Ȍ"); ("ȏ", "Ȏ"); ("ȑ", "Ȑ"); ("ȓ", "Ȓ");
    ("ȕ", "Ȕ"); ("ȗ", "Ȗ"); ("ș", "Ș"); ("ț", "Ț"); ("ȝ", "Ȝ"); ("ȟ", "Ȟ");
    ("ȣ", "Ȣ"); ("ȥ", "Ȥ"); ("ȧ", "Ȧ"); ("ȩ", "Ȩ"); ("ȫ", "Ȫ"); ("ȭ", "Ȭ");
    ("ȯ", "Ȯ"); ("ȱ", "Ȱ"); ("ȳ", "Ȳ"); ("ȼ", "Ȼ"); ("ȿ", "Ȿ"); ("ɀ", "Ɀ");
    ("ɂ", "Ɂ"); ("ɇ", "Ɇ"); ("ɉ", "Ɉ"); ("ɋ", "Ɋ"); ("ɍ", "Ɍ"); ("ɏ", "Ɏ");
    ("ɐ", "Ɐ"); ("ɑ", "Ɑ"); ("ɒ", "Ɒ"); ("ɓ", "Ɓ"); ("ɔ", "Ɔ"); ("ɖ", "Ɖ");
    ("ɗ", "Ɗ"); ("ə", "Ə"); ("ɛ", "Ɛ"); ("ɜ", "Ɜ"); ("ɠ", "Ɠ"); ("ɡ", "Ɡ");
    ("ɣ", "Ɣ"); ("ɥ", "Ɥ"); ("ɦ", "Ɦ"); ("ɨ", "Ɨ"); ("ɩ", "Ɩ"); ("ɪ", "Ɪ");
    ("ɫ", "Ɫ"); ("ɬ", "Ɬ"); ("ɯ", "Ɯ"); ("ɱ", "Ɱ"); ("ɲ", "Ɲ"); ("ɵ", "Ɵ");
    ("ɽ", "Ɽ"); ("ʀ", "Ʀ"); ("ʂ", "Ʂ"); ("ʃ", "Ʃ"); ("ʇ", "Ʇ"); ("ʈ", "Ʈ");
    ("ʉ", "Ʉ"); ("ʊ", "Ʊ"); ("ʋ", "Ʋ"); ("ʌ", "Ʌ"); ("ʒ", "Ʒ"); ("ʝ", "Ʝ");
    ("ʞ", "Ʞ"); ("ͅ", "Ι"); ("ͱ", "Ͱ"); ("ͳ", "Ͳ"); ("ͷ", "Ͷ"); ("ͻ", "Ͻ");
    ("ͼ", "Ͼ"); ("ͽ", "Ͽ"); ("ΐ", "Ϊ́"); ("ά", "Ά"); ("έ", "Έ"); ("ή", "Ή");
    ("ί", "Ί"); ("ΰ", "Ϋ́"); ("α", "Α"); ("β", "Β"); ("γ", "Γ"); ("δ", "Δ");
    ("ε", "Ε"); ("ζ", "Ζ"); ("η", "Η"); ("θ", "Θ"); ("ι", "Ι"); ("κ", "Κ");
    ("λ", "Λ"); ("μ", "Μ"); ("ν", "Ν"); ("ξ", "Ξ"); ("ο", "Ο"); ("π", "Π");
    ("ρ", "Ρ"); ("ς", "Σ"); ("σ", "Σ"); ("τ", "Τ"); ("υ", "Υ"); ("φ", "Φ");
    ("χ", "Χ"); ("ψ", "Ψ"); ("ω", "Ω"); ("ϊ", "Ϊ"); ("ϋ", "Ϋ"); ("ό", "Ό");
    ("ύ", "Ύ"); ("ώ", "Ώ"); ("ϐ", "Β"); ("ϑ", "Θ"); ("ϕ", "Φ"); ("ϖ", "Π");
    ("ϗ", "Ϗ"); ("ϙ", "Ϙ"); ("ϛ", "Ϛ"); ("ϝ", "Ϝ"); ("ϟ", "Ϟ"); ("ϡ", "Ϡ");
    ("ϣ", "Ϣ"); ("ϥ", "Ϥ"); ("ϧ", "Ϧ"); ("ϩ", "Ϩ"); ("ϫ", "Ϫ"); ("ϭ", "Ϭ");
    ("ϯ", "Ϯ"); ("ϰ", "Κ"); ("ϱ", "Ρ"); ("ϲ", "Ϲ"); ("ϳ", "Ϳ"); ("ϵ", "Ε");
    ("ϸ", "Ϸ"); ("ϻ", "Ϻ"); ("а", "А"); ("б", "Б"); ("в", "В"); ("г", "Г");
    ("д", "Д"); ("е", "Е"); ("ж", "Ж"); ("з", "З"); ("и", "И"); ("й", "Й");
    ("к", "К"); ("л", "Л"); ("м", "М"); ("н", "Н"); ("о", "О"); ("п", "П");
    ("р", "Р"); ("с", "С"); ("т", "Т"); ("у", "У"); ("ф", "Ф"); ("х", "Х");
    ("ц", "Ц"); ("ч", "Ч"); ("ш", "Ш"); ("щ", "Щ"); ("ъ", "Ъ"); ("ы", "Ы");
    ("ь", "Ь"); ("э", "Э"); ("ю", "Ю"); ("я", "Я"); ("ѐ", "Ѐ"); ("ё", "Ё");
    ("ђ", "Ђ"); ("ѓ", "Ѓ"); ("є", "Є"); ("ѕ", "Ѕ"); ("і", "І"); ("ї", "Ї");
    ("ј", "Ј"); ("љ", "Љ"); ("њ", "Њ"); ("ћ", "Ћ"); ("ќ", "Ќ"); ("ѝ", "Ѝ");
    ("ў", "Ў"); ("џ", "Џ"); ("ѡ", "Ѡ"); ("ѣ", "Ѣ"); ("ѥ", "Ѥ"); ("ѧ", "Ѧ");
    ("ѩ", "Ѩ"); ("ѫ", "Ѫ"); ("ѭ", "Ѭ"); ("ѯ", "Ѯ"); ("ѱ", "Ѱ"); ("ѳ", "Ѳ");
    ("ѵ", "Ѵ"); ("ѷ", "Ѷ"); ("ѹ", "Ѹ"); ("ѻ", "Ѻ"); ("ѽ", "Ѽ"); ("ѿ", "Ѿ");
    ("ҁ", "Ҁ"); ("ҋ", "Ҋ"); ("ҍ", "Ҍ"); ("ҏ", "Ҏ"); ("ґ", "Ґ"); ("ғ", "Ғ");
    ("ҕ", "Ҕ"); ("җ", "Җ"); ("ҙ", "Ҙ"); ("қ", "Қ"); ("ҝ", "Ҝ"); ("ҟ", "Ҟ");
    ("ҡ", "Ҡ"); ("ң", "Ң"); ("ҥ", "Ҥ"); ("ҧ", "Ҧ"); ("ҩ", "Ҩ"); ("ҫ", "Ҫ");
    ("ҭ", "Ҭ"); ("ү", "Ү"); ("ұ", "Ұ"); ("ҳ", "Ҳ"); ("ҵ", "Ҵ"); ("ҷ", "Ҷ");
    ("ҹ", "Ҹ"); ("һ", "Һ"); ("ҽ", "Ҽ"); ("ҿ", "Ҿ"); ("ӂ", "Ӂ"); ("ӄ", "Ӄ");
    ("ӆ", "Ӆ"); ("ӈ", "Ӈ"); ("ӊ", "Ӊ"); ("ӌ", "Ӌ"); ("ӎ", "Ӎ"); ("ӏ", "Ӏ");
    ("ӑ", "Ӑ"); ("ӓ", "Ӓ"); ("ӕ", "Ӕ"); ("ӗ", "Ӗ"); ("ә", "Ә"); ("ӛ", "Ӛ");
    ("ӝ", "Ӝ"); ("ӟ", "Ӟ"); ("ӡ", "Ӡ"); ("ӣ", "Ӣ"); ("ӥ", "Ӥ"); ("ӧ", "Ӧ");
    ("ө", "Ө"); ("ӫ", "Ӫ"); ("ӭ", "Ӭ"); ("ӯ", "Ӯ"); ("ӱ", "Ӱ"); ("ӳ", "Ӳ");
    ("ӵ", "Ӵ"); ("ӷ", "Ӷ"); ("ӹ", "Ӹ"); ("ӻ", "Ӻ"); ("ӽ", "Ӽ"); ("ӿ", "Ӿ");
    ("ԁ", "Ԁ"); ("ԃ", "Ԃ"); ("ԅ", "Ԅ"); ("ԇ", "Ԇ"); ("ԉ", "Ԉ"); ("ԋ", "Ԋ");
    ("ԍ", "Ԍ"); ("ԏ", "Ԏ"); ("ԑ", "Ԑ"); ("ԓ", "Ԓ"); ("ԕ", "Ԕ"); ("ԗ", "Ԗ");
    ("ԙ", "Ԙ"); ("ԛ", "Ԛ"); ("ԝ", "Ԝ"); ("ԟ", "Ԟ"); ("ԡ", "Ԡ"); ("ԣ", "Ԣ");
    ("ԥ", "Ԥ"); ("ԧ", "Ԧ"); ("ԩ", "Ԩ"); ("ԫ", "Ԫ"); ("ԭ", "Ԭ"); ("ԯ", "Ԯ");
    ("ա", "Ա"); ("բ", "Բ"); ("գ", "Գ"); ("դ", "Դ"); ("ե", "Ե"); ("զ", "Զ");
    ("է", "Է"); ("ը", "Ը"); ("թ", "Թ"); ("ժ", "Ժ"); ("ի", "Ի"); ("լ", "Լ");
    ("խ", "Խ"); ("ծ", "Ծ"); ("կ", "Կ"); ("հ", "Հ"); ("ձ", "Ձ"); ("ղ", "Ղ");
    ("ճ", "Ճ"); ("մ", "Մ"); ("յ", "Յ"); ("ն", "Ն"); ("շ", "Շ"); ("ո", "Ո");
    ("չ", "Չ"); ("պ", "Պ"); ("ջ", "Ջ"); ("ռ", "Ռ"); ("ս", "Ս"); ("վ", "Վ");
    ("տ", "Տ"); ("ր", "Ր"); ("ց", "Ց"); ("ւ", "Ւ"); ("փ", "Փ"); ("ք", "Ք");
    ("օ", "Օ"); ("ֆ", "Ֆ"); ("և", "ԵՒ"); ("ა", "Ა"); ("ბ", "Ბ"); ("გ", "Გ");
    ("დ", "Დ"); ("ე", "Ე"); ("ვ", "Ვ"); ("ზ", "Ზ"); ("თ", "Თ"); ("ი", "Ი");
    ("კ", "Კ"); ("ლ", "Ლ"); ("მ", "Მ"); ("ნ", "Ნ"); ("ო", "Ო"); ("პ", "Პ");
    ("ჟ", "Ჟ"); ("რ", "Რ"); ("ს", "Ს"); ("ტ", "Ტ"); ("უ", "Უ"); ("ფ", "Ფ");
    ("ქ", "Ქ"); ("ღ", "Ღ"); ("ყ", "Ყ"); ("შ", "Შ"); ("ჩ", "Ჩ"); ("ც", "Ც");
    ("ძ", "Ძ"); ("წ", "Წ"); ("ჭ", "Ჭ"); ("ხ", "Ხ"); ("ჯ", "Ჯ"); ("ჰ", "Ჰ");
    ("ჱ", "Ჱ"); ("ჲ", "Ჲ"); ("ჳ", "Ჳ"); ("ჴ", "Ჴ"); ("ჵ", "Ჵ"); ("ჶ", "Ჶ");
    ("ჷ", "Ჷ"); ("ჸ", "Ჸ"); ("ჹ", "Ჹ"); ("ჺ", "Ჺ"); ("ჽ", "Ჽ"); ("ჾ", "Ჾ");
    ("ჿ", "Ჿ"); ("ᏸ", "Ᏸ"); ("ᏹ", "Ᏹ"); ("ᏺ", "Ᏺ"); ("ᏻ", "Ᏻ"); ("ᏼ", "Ᏼ");
    ("ᏽ", "Ᏽ"); ("ᲀ", "В"); ("ᲁ", "Д"); ("ᲂ", "О"); ("ᲃ", "С"); ("ᲄ", "Т");
    ("ᲅ", "Т"); ("ᲆ", "Ъ"); ("ᲇ", "Ѣ"); ("ᲈ", "Ꙋ"); ("ᵹ", "Ᵹ"); ("ᵽ", "Ᵽ");
    ("ᶎ", "Ᶎ"); ("ḁ", "Ḁ"); ("ḃ", "Ḃ"); ("ḅ", "Ḅ"); ("ḇ", "Ḇ"); ("ḉ", "Ḉ");
    ("ḋ", "Ḋ"); ("ḍ", "Ḍ"); ("ḏ", "Ḏ"); ("ḑ", "Ḑ"); ("ḓ", "Ḓ"); ("ḕ", "Ḕ");
    ("ḗ", "Ḗ"); ("ḙ", "Ḙ"); ("ḛ", "Ḛ"); ("ḝ", "Ḝ"); ("ḟ", "Ḟ"); ("ḡ", "Ḡ");
    ("ḣ", "Ḣ"); ("ḥ", "Ḥ"); ("ḧ", "Ḧ"); ("ḩ", "Ḩ"); ("ḫ", "Ḫ"); ("ḭ", "Ḭ");
    ("ḯ", "Ḯ"); ("ḱ", "Ḱ"); ("ḳ", "Ḳ"); ("ḵ", "Ḵ"); ("ḷ", "Ḷ"); ("ḹ", "Ḹ");
    ("ḻ", "Ḻ"); ("ḽ", "Ḽ"); ("ḿ", "Ḿ"); ("ṁ", "Ṁ"); ("ṃ", "Ṃ"); ("ṅ", "Ṅ");
    ("ṇ", "Ṇ"); ("ṉ", "Ṉ"); ("ṋ", "Ṋ"); ("ṍ", "Ṍ"); ("ṏ", "Ṏ"); ("ṑ", "Ṑ");
    ("ṓ", "Ṓ"); ("ṕ", "Ṕ"); ("ṗ", "Ṗ"); ("ṙ", "Ṙ"); ("ṛ", "Ṛ"); ("ṝ", "Ṝ");
    ("ṟ", "Ṟ"); ("ṡ", "Ṡ"); ("ṣ", "Ṣ"); ("ṥ", "Ṥ"); ("ṧ", "Ṧ"); ("ṩ", "Ṩ");
    ("ṫ", "Ṫ"); ("ṭ", "Ṭ"); ("ṯ", "Ṯ"); ("ṱ", "Ṱ"); ("ṳ", "Ṳ"); ("ṵ", "Ṵ");
    ("ṷ", "Ṷ"); ("ṹ", "Ṹ"); ("ṻ", "Ṻ"); ("ṽ", "Ṽ"); ("ṿ", "Ṿ"); ("ẁ", "Ẁ");
    ("ẃ", "Ẃ"); ("ẅ", "Ẅ"); ("ẇ", "Ẇ"); ("ẉ", "Ẉ"); ("ẋ", "Ẋ"); ("ẍ", "Ẍ");
    ("ẏ", "Ẏ"); ("ẑ", "Ẑ"); ("ẓ", "Ẓ"); ("ẕ", "Ẕ"); ("ẖ", "H̱"); ("ẗ", "T̈");
    ("ẘ", "W̊"); ("ẙ", "Y̊"); ("ẚ", "Aʾ"); ("ẛ", "Ṡ"); ("ạ", "Ạ");
    ("ả", "Ả"); ("ấ", "Ấ"); ("ầ", "Ầ"); ("ẩ", "Ẩ"); ("ẫ", "Ẫ"); ("ậ", "Ậ");
    ("ắ", "Ắ"); ("ằ", "Ằ"); ("ẳ", "Ẳ"); ("ẵ", "Ẵ"); ("ặ", "Ặ"); ("ẹ", "Ẹ");
    ("ẻ", "Ẻ"); ("ẽ", "Ẽ"); ("ế", "Ế"); ("ề", "Ề"); ("ể", "Ể"); ("ễ", "Ễ");
    ("ệ", "Ệ"); ("ỉ", "Ỉ"); ("ị", "Ị"); ("ọ", "Ọ"); ("ỏ", "Ỏ"); ("ố", "Ố");
    ("ồ", "Ồ"); ("ổ", "Ổ"); ("ỗ", "Ỗ"); ("ộ", "Ộ"); ("ớ", "Ớ"); ("ờ", "Ờ");
    ("ở", "Ở"); ("ỡ", "Ỡ"); ("ợ", "Ợ"); ("ụ", "Ụ"); ("ủ", "Ủ"); ("ứ", "Ứ");
    ("ừ", "Ừ"); ("ử", "Ử"); ("ữ", "Ữ"); ("ự", "Ự"); ("ỳ", "Ỳ"); ("ỵ", "Ỵ");
    ("ỷ", "Ỷ"); ("ỹ", "Ỹ"); ("ỻ", "Ỻ"); ("ỽ", "Ỽ"); ("ỿ", "Ỿ"); ("ἀ", "Ἀ");
    ("ἁ", "Ἁ"); ("ἂ", "Ἂ"); ("ἃ", "Ἃ"); ("ἄ", "Ἄ"); ("ἅ", "Ἅ"); ("ἆ", "Ἆ");
    ("ἇ", "Ἇ"); ("ἐ", "Ἐ"); ("ἑ", "Ἑ"); ("ἒ", "Ἒ"); ("ἓ", "Ἓ"); ("ἔ", "Ἔ");
    ("ἕ", "Ἕ"); ("ἠ", "Ἠ"); ("ἡ", "Ἡ"); ("ἢ", "Ἢ"); ("ἣ", "Ἣ"); ("ἤ", "Ἤ");
    ("ἥ", "Ἥ"); ("ἦ", "Ἦ"); ("ἧ", "Ἧ"); ("ἰ", "Ἰ"); ("ἱ", "Ἱ"); ("ἲ", "Ἲ");
    ("ἳ", "Ἳ"); ("ἴ", "Ἴ"); ("ἵ", "Ἵ"); ("ἶ", "Ἶ"); ("ἷ", "Ἷ"); ("ὀ", "Ὀ");
    ("ὁ", "Ὁ"); ("ὂ", "Ὂ"); ("ὃ", "Ὃ"); ("ὄ", "Ὄ"); ("ὅ", "Ὅ"); ("ὐ", "Υ̓");
    ("ὑ", "Ὑ"); ("ὒ", "Υ̓̀"); ("ὓ", "Ὓ"); ("ὔ", "Υ̓́"); ("ὕ", "Ὕ");
    ("ὖ", "Υ̓͂"); ("ὗ", "Ὗ"); ("ὠ", "Ὠ"); ("ὡ", "Ὡ"); ("ὢ", "Ὢ"); ("ὣ", "Ὣ");
    ("ὤ", "Ὤ"); ("ὥ", "Ὥ"); ("ὦ", "Ὦ"); ("ὧ", "Ὧ"); ("ὰ", "Ὰ"); ("ά", "Ά");
    ("ὲ", "Ὲ"); ("έ", "Έ"); ("ὴ", "Ὴ"); ("ή", "Ή"); ("ὶ", "Ὶ"); ("ί", "Ί");
    ("ὸ", "Ὸ"); ("ό", "Ό"); ("ὺ", "Ὺ"); ("ύ", "Ύ"); ("ὼ", "Ὼ"); ("ώ", "Ώ");
    ("ᾀ", "ἈΙ"); ("ᾁ", "ἉΙ"); ("ᾂ", "ἊΙ"); ("ᾃ", "ἋΙ"); ("ᾄ", "ἌΙ");
    ("ᾅ", "ἍΙ"); ("ᾆ", "ἎΙ"); ("ᾇ", "ἏΙ"); ("ᾈ", "ἈΙ"); ("ᾉ", "ἉΙ");
    ("ᾊ", "ἊΙ"); ("ᾋ", "ἋΙ"); ("ᾌ", "ἌΙ"); ("ᾍ", "ἍΙ"); ("ᾎ", "ἎΙ");
    ("ᾏ", "ἏΙ"); ("ᾐ", "ἨΙ"); ("ᾑ", "ἩΙ"); ("ᾒ", "ἪΙ"); ("ᾓ", "ἫΙ");
    ("ᾔ", "ἬΙ"); ("ᾕ", "ἭΙ"); ("ᾖ", "ἮΙ"); ("ᾗ", "ἯΙ"); ("ᾘ", "ἨΙ");
    ("ᾙ", "ἩΙ"); ("ᾚ", "ἪΙ"); ("ᾛ", "ἫΙ"); ("ᾜ", "ἬΙ"); ("ᾝ", "ἭΙ");
    ("ᾞ", "ἮΙ"); ("ᾟ", "ἯΙ"); ("ᾠ", "ὨΙ"); ("ᾡ", "ὩΙ"); ("ᾢ", "ὪΙ");
    ("ᾣ", "ὫΙ"); ("ᾤ", "ὬΙ"); ("ᾥ", "ὭΙ"); ("ᾦ", "ὮΙ"); ("ᾧ", "ὯΙ");
    ("ᾨ", "ὨΙ"); ("ᾩ", "ὩΙ"); ("ᾪ", "ὪΙ"); ("ᾫ", "ὫΙ"); ("ᾬ", "ὬΙ");
    ("ᾭ", "ὭΙ"); ("ᾮ", "ὮΙ"); ("ᾯ", "ὯΙ"); ("ᾰ", "Ᾰ"); ("ᾱ", "Ᾱ");
    ("ᾲ", "ᾺΙ"); ("ᾳ", "ΑΙ"); ("ᾴ", "ΆΙ"); ("ᾶ", "Α͂"); ("ᾷ", "Α͂Ι");
    ("ᾼ", "ΑΙ"); ("ι", "Ι"); ("ῂ", "ῊΙ"); ("ῃ", "ΗΙ"); ("ῄ", "ΉΙ");
    ("ῆ", "Η͂"); ("ῇ", "Η͂Ι"); ("ῌ", "ΗΙ"); ("ῐ", "Ῐ"); ("ῑ", "Ῑ");
    ("ῒ", "Ϊ̀"); ("ΐ", "Ϊ́"); ("ῖ", "Ι͂"); ("ῗ", "Ϊ͂"); ("ῠ", "Ῠ");
    ("ῡ", "Ῡ"); ("ῢ", "Ϋ̀"); ("ΰ", "Ϋ́"); ("ῤ", "Ρ̓"); ("ῥ", "Ῥ");
    ("ῦ", "Υ͂"); ("ῧ", "Ϋ͂"); ("ῲ", "ῺΙ"); ("ῳ", "ΩΙ"); ("ῴ", "ΏΙ");
    ("ῶ", "Ω͂"); ("ῷ", "Ω͂Ι"); ("ῼ", "ΩΙ"); ("ⅎ", "Ⅎ"); ("ⅰ", "Ⅰ");
    ("ⅱ", "Ⅱ"); ("ⅲ", "Ⅲ"); ("ⅳ", "Ⅳ"); ("ⅴ", "Ⅴ"); ("ⅵ", "Ⅵ"); ("ⅶ", "Ⅶ");
    ("ⅷ", "Ⅷ"); ("ⅸ", "Ⅸ"); ("ⅹ", "Ⅹ"); ("ⅺ", "Ⅺ"); ("ⅻ", "Ⅻ"); ("ⅼ", "Ⅼ");
    ("ⅽ", "Ⅽ"); ("ⅾ", "Ⅾ"); ("ⅿ", "Ⅿ"); ("ↄ", "Ↄ"); ("ⓐ", "Ⓐ"); ("ⓑ", "Ⓑ");
    ("ⓒ", "Ⓒ"); ("ⓓ", "Ⓓ"); ("ⓔ", "Ⓔ"); ("ⓕ", "Ⓕ"); ("ⓖ", "Ⓖ"); ("ⓗ", "Ⓗ");
    ("ⓘ", "Ⓘ"); ("ⓙ", "Ⓙ"); ("ⓚ", "Ⓚ"); ("ⓛ", "Ⓛ"); ("ⓜ", "Ⓜ"); ("ⓝ", "Ⓝ");
    ("ⓞ", "Ⓞ"); ("ⓟ", "Ⓟ"); ("ⓠ", "Ⓠ"); ("ⓡ", "Ⓡ"); ("ⓢ", "Ⓢ"); ("ⓣ", "Ⓣ");
    ("ⓤ", "Ⓤ"); ("ⓥ", "Ⓥ"); ("ⓦ", "Ⓦ"); ("ⓧ", "Ⓧ"); ("ⓨ", "Ⓨ"); ("ⓩ", "Ⓩ");
    ("ⰰ", "Ⰰ"); ("ⰱ", "Ⰱ"); ("ⰲ", "Ⰲ"); ("ⰳ", "Ⰳ"); ("ⰴ", "Ⰴ"); ("ⰵ", "Ⰵ");
    ("ⰶ", "Ⰶ"); ("ⰷ", "Ⰷ"); ("ⰸ", "Ⰸ"); ("ⰹ", "Ⰹ"); ("ⰺ", "Ⰺ"); ("ⰻ", "Ⰻ");
    ("ⰼ", "Ⰼ"); ("ⰽ", "Ⰽ"); ("ⰾ", "Ⰾ"); ("ⰿ", "Ⰿ"); ("ⱀ", "Ⱀ"); ("ⱁ", "Ⱁ");
    ("ⱂ", "Ⱂ"); ("ⱃ", "Ⱃ"); ("ⱄ", "Ⱄ"); ("ⱅ", "Ⱅ"); ("ⱆ", "Ⱆ"); ("ⱇ", "Ⱇ");
    ("ⱈ", "Ⱈ"); ("ⱉ", "Ⱉ"); ("ⱊ", "Ⱊ"); ("ⱋ", "Ⱋ"); ("ⱌ", "Ⱌ"); ("ⱍ", "Ⱍ");
    ("ⱎ", "Ⱎ"); ("ⱏ", "Ⱏ"); ("ⱐ", "Ⱐ"); ("ⱑ", "Ⱑ"); ("ⱒ", "Ⱒ"); ("ⱓ", "Ⱓ");
    ("ⱔ", "Ⱔ"); ("ⱕ", "Ⱕ"); ("ⱖ", "Ⱖ"); ("ⱗ", "Ⱗ"); ("ⱘ", "Ⱘ"); ("ⱙ", "Ⱙ");
    ("ⱚ", "Ⱚ"); ("ⱛ", "Ⱛ"); ("ⱜ", "Ⱜ"); ("ⱝ", "Ⱝ"); ("ⱞ", "Ⱞ"); ("ⱟ", "Ⱟ");
    ("ⱡ", "Ⱡ"); ("ⱥ", "Ⱥ"); ("ⱦ", "Ⱦ"); ("ⱨ", "Ⱨ"); ("ⱪ", "Ⱪ"); ("ⱬ", "Ⱬ");
    ("ⱳ", "Ⱳ"); ("ⱶ", "Ⱶ"); ("ⲁ", "Ⲁ"); ("ⲃ", "Ⲃ"); ("ⲅ", "Ⲅ"); ("ⲇ", "Ⲇ");
    ("ⲉ", "Ⲉ"); ("ⲋ", "Ⲋ"); ("ⲍ", "Ⲍ"); ("ⲏ", "Ⲏ"); ("ⲑ", "Ⲑ"); ("ⲓ", "Ⲓ");
    ("ⲕ", "Ⲕ"); ("ⲗ", "Ⲗ"); ("ⲙ", "Ⲙ"); ("ⲛ", "Ⲛ"); ("ⲝ", "Ⲝ"); ("ⲟ", "Ⲟ");
    ("ⲡ", "Ⲡ"); ("ⲣ", "Ⲣ"); ("ⲥ", "Ⲥ"); ("ⲧ", "Ⲧ"); ("ⲩ", "Ⲩ"); ("ⲫ", "Ⲫ");
    ("ⲭ", "Ⲭ"); ("ⲯ", "Ⲯ"); ("ⲱ", "Ⲱ"); ("ⲳ", "Ⲳ"); ("ⲵ", "Ⲵ"); ("ⲷ", "Ⲷ");
    ("ⲹ", "Ⲹ"); ("ⲻ", "Ⲻ"); ("ⲽ", "Ⲽ"); ("ⲿ", "Ⲿ"); ("ⳁ", "Ⳁ"); ("ⳃ", "Ⳃ");
    ("ⳅ", "Ⳅ"); ("ⳇ", "Ⳇ"); ("ⳉ", "Ⳉ"); ("ⳋ", "Ⳋ"); ("ⳍ", "Ⳍ"); ("ⳏ", "Ⳏ");
    ("ⳑ", "Ⳑ"); ("ⳓ", "Ⳓ"); ("ⳕ", "Ⳕ"); ("ⳗ", "Ⳗ"); ("ⳙ", "Ⳙ"); ("ⳛ", "Ⳛ");
    ("ⳝ", "Ⳝ"); ("ⳟ", "Ⳟ"); ("ⳡ", "Ⳡ"); ("ⳣ", "Ⳣ"); ("ⳬ", "Ⳬ"); ("ⳮ", "Ⳮ");
    ("ⳳ", "Ⳳ"); ("ⴀ", "Ⴀ"); ("ⴁ", "Ⴁ"); ("ⴂ", "Ⴂ"); ("ⴃ", "Ⴃ"); ("ⴄ", "Ⴄ");
    ("ⴅ", "Ⴅ"); ("ⴆ", "Ⴆ"); ("ⴇ", "Ⴇ"); ("ⴈ", "Ⴈ"); ("ⴉ", "Ⴉ"); ("ⴊ", "Ⴊ");
    ("ⴋ", "Ⴋ"); ("ⴌ", "Ⴌ"); ("ⴍ", "Ⴍ"); ("ⴎ", "Ⴎ"); ("ⴏ", "Ⴏ"); ("ⴐ", "Ⴐ");
    ("ⴑ", "Ⴑ"); ("ⴒ", "Ⴒ"); ("ⴓ", "Ⴓ"); ("ⴔ", "Ⴔ"); ("ⴕ", "Ⴕ"); ("ⴖ", "Ⴖ");
    ("ⴗ", "Ⴗ"); ("ⴘ", "Ⴘ"); ("ⴙ", "Ⴙ"); ("ⴚ", "Ⴚ"); ("ⴛ", "Ⴛ"); ("ⴜ", "Ⴜ");
    ("ⴝ", "Ⴝ"); ("ⴞ", "Ⴞ"); ("ⴟ", "Ⴟ"); ("ⴠ", "Ⴠ"); ("ⴡ", "Ⴡ"); ("ⴢ", "Ⴢ");
    ("ⴣ", "Ⴣ"); ("ⴤ", "Ⴤ"); ("ⴥ", "Ⴥ"); ("ⴧ", "Ⴧ"); ("ⴭ", "Ⴭ"); ("ꙁ", "Ꙁ");
    ("ꙃ", "Ꙃ"); ("ꙅ", "Ꙅ"); ("ꙇ", "Ꙇ"); ("ꙉ", "Ꙉ"); ("ꙋ", "Ꙋ"); ("ꙍ", "Ꙍ");
    ("ꙏ", "Ꙏ"); ("ꙑ", "Ꙑ"); ("ꙓ", "Ꙓ"); ("ꙕ", "Ꙕ"); ("ꙗ", "Ꙗ"); ("ꙙ", "Ꙙ");
    ("ꙛ", "Ꙛ"); ("ꙝ", "Ꙝ"); ("ꙟ", "Ꙟ"); ("ꙡ", "Ꙡ"); ("ꙣ", "Ꙣ"); ("ꙥ", "Ꙥ");
    ("ꙧ", "Ꙧ"); ("ꙩ", "Ꙩ"); ("ꙫ", "Ꙫ"); ("ꙭ", "Ꙭ"); ("ꚁ", "Ꚁ"); ("ꚃ", "Ꚃ");
    ("ꚅ", "Ꚅ"); ("ꚇ", "Ꚇ"); ("ꚉ", "Ꚉ"); ("ꚋ", "Ꚋ"); ("ꚍ", "Ꚍ"); ("ꚏ", "Ꚏ");
    ("ꚑ", "Ꚑ"); ("ꚓ", "Ꚓ"); ("ꚕ", "Ꚕ"); ("ꚗ", "Ꚗ"); ("ꚙ", "Ꚙ"); ("ꚛ", "Ꚛ");
    ("ꜣ", "Ꜣ"); ("ꜥ", "Ꜥ"); ("ꜧ", "Ꜧ"); ("ꜩ", "Ꜩ"); ("ꜫ", "Ꜫ"); ("ꜭ", "Ꜭ");
    ("ꜯ", "Ꜯ"); ("ꜳ", "Ꜳ"); ("ꜵ", "Ꜵ"); ("ꜷ", "Ꜷ"); ("ꜹ", "Ꜹ"); ("ꜻ", "Ꜻ");
    ("ꜽ", "Ꜽ"); ("ꜿ", "Ꜿ"); ("ꝁ", "Ꝁ"); ("ꝃ", "Ꝃ"); ("ꝅ", "Ꝅ"); ("ꝇ", "Ꝇ");
    ("ꝉ", "Ꝉ"); ("ꝋ", "Ꝋ"); ("ꝍ", "Ꝍ"); ("ꝏ", "Ꝏ"); ("ꝑ", "Ꝑ"); ("ꝓ", "Ꝓ");
    ("ꝕ", "Ꝕ"); ("ꝗ", "Ꝗ"); ("ꝙ", "Ꝙ"); ("ꝛ", "Ꝛ"); ("ꝝ", "Ꝝ"); ("ꝟ", "Ꝟ");
    ("ꝡ", "Ꝡ"); ("ꝣ", "Ꝣ"); ("ꝥ", "Ꝥ"); ("ꝧ", "Ꝧ"); ("ꝩ", "Ꝩ"); ("ꝫ", "Ꝫ");
    ("ꝭ", "Ꝭ"); ("ꝯ", "Ꝯ"); ("ꝺ", "Ꝺ"); ("ꝼ", "Ꝼ"); ("ꝿ", "Ꝿ"); ("ꞁ", "Ꞁ");
    ("ꞃ", "Ꞃ"); ("ꞅ", "Ꞅ"); ("ꞇ", "Ꞇ"); ("ꞌ", "Ꞌ"); ("ꞑ", "Ꞑ"); ("ꞓ", "Ꞓ");
    ("ꞔ", "Ꞔ"); ("ꞗ", "Ꞗ"); ("ꞙ", "Ꞙ"); ("ꞛ", "Ꞛ"); ("ꞝ", "Ꞝ"); ("ꞟ", "Ꞟ");
    ("ꞡ", "Ꞡ"); ("ꞣ", "Ꞣ"); ("ꞥ", "Ꞥ"); ("ꞧ", "Ꞧ"); ("ꞩ", "Ꞩ"); ("ꞵ", "Ꞵ");
    ("ꞷ", "Ꞷ"); ("ꞹ", "Ꞹ"); ("ꞻ", "Ꞻ"); ("ꞽ", "Ꞽ"); ("ꞿ", "Ꞿ"); ("ꟁ", "Ꟁ");
    ("ꟃ", "Ꟃ"); ("ꟈ", "Ꟈ"); ("ꟊ", "Ꟊ"); ("ꟑ", "Ꟑ"); ("ꟗ", "Ꟗ"); ("ꟙ", "Ꟙ");
    ("ꟶ", "Ꟶ"); ("ꭓ", "Ꭓ"); ("ꭰ", "Ꭰ"); ("ꭱ", "Ꭱ"); ("ꭲ", "Ꭲ"); ("ꭳ", "Ꭳ");
    ("ꭴ", "Ꭴ"); ("ꭵ", "Ꭵ"); ("ꭶ", "Ꭶ"); ("ꭷ", "Ꭷ"); ("ꭸ", "Ꭸ"); ("ꭹ", "Ꭹ");
    ("ꭺ", "Ꭺ"); ("ꭻ", "Ꭻ"); ("ꭼ", "Ꭼ"); ("ꭽ", "Ꭽ"); ("ꭾ", "Ꭾ"); ("ꭿ", "Ꭿ");
    ("ꮀ", "Ꮀ"); ("ꮁ", "Ꮁ"); ("ꮂ", "Ꮂ"); ("ꮃ", "Ꮃ"); ("ꮄ", "Ꮄ"); ("ꮅ", "Ꮅ");
    ("ꮆ", "Ꮆ"); ("ꮇ", "Ꮇ"); ("ꮈ", "Ꮈ"); ("ꮉ", "Ꮉ"); ("ꮊ", "Ꮊ"); ("ꮋ", "Ꮋ");
    ("ꮌ", "Ꮌ"); ("ꮍ", "Ꮍ"); ("ꮎ", "Ꮎ"); ("ꮏ", "Ꮏ"); ("ꮐ", "Ꮐ"); ("ꮑ", "Ꮑ");
    ("ꮒ", "Ꮒ"); ("ꮓ", "Ꮓ"); ("ꮔ", "Ꮔ"); ("ꮕ", "Ꮕ"); ("ꮖ", "Ꮖ"); ("ꮗ", "Ꮗ");
    ("ꮘ", "Ꮘ"); ("ꮙ", "Ꮙ"); ("ꮚ", "Ꮚ"); ("ꮛ", "Ꮛ"); ("ꮜ", "Ꮜ"); ("ꮝ", "Ꮝ");
    ("ꮞ", "Ꮞ"); ("ꮟ", "Ꮟ"); ("ꮠ", "Ꮠ"); ("ꮡ", "Ꮡ"); ("ꮢ", "Ꮢ"); ("ꮣ", "Ꮣ");
    ("ꮤ", "Ꮤ"); ("ꮥ", "Ꮥ"); ("ꮦ", "Ꮦ"); ("ꮧ", "Ꮧ"); ("ꮨ", "Ꮨ"); ("ꮩ", "Ꮩ");
    ("ꮪ", "Ꮪ"); ("ꮫ", "Ꮫ"); ("ꮬ", "Ꮬ"); ("ꮭ", "Ꮭ"); ("ꮮ", "Ꮮ"); ("ꮯ", "Ꮯ");
    ("ꮰ", "Ꮰ"); ("ꮱ", "Ꮱ"); ("ꮲ", "Ꮲ"); ("ꮳ", "Ꮳ"); ("ꮴ", "Ꮴ"); ("ꮵ", "Ꮵ");
    ("ꮶ", "Ꮶ"); ("ꮷ", "Ꮷ"); ("ꮸ", "Ꮸ"); ("ꮹ", "Ꮹ"); ("ꮺ", "Ꮺ"); ("ꮻ", "Ꮻ");
    ("ꮼ", "Ꮼ"); ("ꮽ", "Ꮽ"); ("ꮾ", "Ꮾ"); ("ꮿ", "Ꮿ"); ("ﬀ", "FF"); ("ﬁ", "FI");
    ("ﬂ", "FL"); ("ﬃ", "FFI"); ("ﬄ", "FFL"); ("ﬅ", "ST"); ("ﬆ", "ST");
    ("ﬓ", "ՄՆ"); ("ﬔ", "ՄԵ"); ("ﬕ", "ՄԻ"); ("ﬖ", "ՎՆ"); ("ﬗ", "ՄԽ");
    ("ａ", "Ａ"); ("ｂ", "Ｂ"); ("ｃ", "Ｃ"); ("ｄ", "Ｄ"); ("ｅ", "Ｅ"); ("ｆ", "Ｆ");
    ("ｇ", "Ｇ"); ("ｈ", "Ｈ"); ("ｉ", "Ｉ"); ("ｊ", "Ｊ"); ("ｋ", "Ｋ"); ("ｌ", "Ｌ");
    ("ｍ", "Ｍ"); ("ｎ", "Ｎ"); ("ｏ", "Ｏ"); ("ｐ", "Ｐ"); ("ｑ", "Ｑ"); ("ｒ", "Ｒ");
    ("ｓ", "Ｓ"); ("ｔ", "Ｔ"); ("ｕ", "Ｕ"); ("ｖ", "Ｖ"); ("ｗ", "Ｗ"); ("ｘ", "Ｘ");
    ("ｙ", "Ｙ"); ("ｚ", "Ｚ"); ("𐐨", "𐐀"); ("𐐩", "𐐁"); ("𐐪", "𐐂"); ("𐐫", "𐐃");
    ("𐐬", "𐐄"); ("𐐭", "𐐅"); ("𐐮", "𐐆"); ("𐐯", "𐐇"); ("𐐰", "𐐈"); ("𐐱", "𐐉");
    ("𐐲", "𐐊"); ("𐐳", "𐐋"); ("𐐴", "𐐌"); ("𐐵", "𐐍"); ("𐐶", "𐐎"); ("𐐷", "𐐏");
    ("𐐸", "𐐐"); ("𐐹", "𐐑"); ("𐐺", "𐐒"); ("𐐻", "𐐓"); ("𐐼", "𐐔"); ("𐐽", "𐐕");
    ("𐐾", "𐐖"); ("𐐿", "𐐗"); ("𐑀", "𐐘"); ("𐑁", "𐐙"); ("𐑂", "𐐚"); ("𐑃", "𐐛");
    ("𐑄", "𐐜"); ("𐑅", "𐐝"); ("𐑆", "𐐞"); ("𐑇", "𐐟"); ("𐑈", "𐐠"); ("𐑉", "𐐡");
    ("𐑊", "𐐢"); ("𐑋", "𐐣"); ("𐑌", "𐐤"); ("𐑍", "𐐥"); ("𐑎", "𐐦"); ("𐑏", "𐐧");
    ("𐓘", "𐒰"); ("𐓙", "𐒱"); ("𐓚", "𐒲"); ("𐓛", "𐒳"); ("𐓜", "𐒴"); ("𐓝", "𐒵");
    ("𐓞", "𐒶"); ("𐓟", "𐒷"); ("𐓠", "𐒸"); ("𐓡", "𐒹"); ("𐓢", "𐒺"); ("𐓣", "𐒻");
    ("𐓤", "𐒼"); ("𐓥", "𐒽"); ("𐓦", "𐒾"); ("𐓧", "𐒿"); ("𐓨", "𐓀"); ("𐓩", "𐓁");
    ("𐓪", "𐓂"); ("𐓫", "𐓃"); ("𐓬", "𐓄"); ("𐓭", "𐓅"); ("𐓮", "𐓆"); ("𐓯", "𐓇");
    ("𐓰", "𐓈"); ("𐓱", "𐓉"); ("𐓲", "𐓊"); ("𐓳", "𐓋"); ("𐓴", "𐓌"); ("𐓵", "𐓍");
    ("𐓶", "𐓎"); ("𐓷", "𐓏"); ("𐓸", "𐓐"); ("𐓹", "𐓑"); ("𐓺", "𐓒"); ("𐓻", "𐓓");
    ("𐖗", "𐕰"); ("𐖘", "𐕱"); ("𐖙", "𐕲"); ("𐖚", "𐕳"); ("𐖛", "𐕴"); ("𐖜", "𐕵");
    ("𐖝", "𐕶"); ("𐖞", "𐕷"); ("𐖟", "𐕸"); ("𐖠", "𐕹"); ("𐖡", "𐕺"); ("𐖣", "𐕼");
    ("𐖤", "𐕽"); ("𐖥", "𐕾"); ("𐖦", "𐕿"); ("𐖧", "𐖀"); ("𐖨", "𐖁"); ("𐖩", "𐖂");
    ("𐖪", "𐖃"); ("𐖫", "𐖄"); ("𐖬", "𐖅"); ("𐖭", "𐖆"); ("𐖮", "𐖇"); ("𐖯", "𐖈");
    ("𐖰", "𐖉"); ("𐖱", "𐖊"); ("𐖳", "𐖌"); ("𐖴", "𐖍"); ("𐖵", "𐖎"); ("𐖶", "𐖏");
    ("𐖷", "𐖐"); ("𐖸", "𐖑"); ("𐖹", "𐖒"); ("𐖻", "𐖔"); ("𐖼", "𐖕"); ("𐳀", "𐲀");
    ("𐳁", "𐲁"); ("𐳂", "𐲂"); ("𐳃", "𐲃"); ("𐳄", "𐲄"); ("𐳅", "𐲅"); ("𐳆", "𐲆");
    ("𐳇", "𐲇"); ("𐳈", "𐲈"); ("𐳉", "𐲉"); ("𐳊", "𐲊"); ("𐳋", "𐲋"); ("𐳌", "𐲌");
    ("𐳍", "𐲍"); ("𐳎", "𐲎"); ("𐳏", "𐲏"); ("𐳐", "𐲐"); ("𐳑", "𐲑"); ("𐳒", "𐲒");
    ("𐳓", "𐲓"); ("𐳔", "𐲔"); ("𐳕", "𐲕"); ("𐳖", "𐲖"); ("𐳗", "𐲗"); ("𐳘", "𐲘");
    ("𐳙", "𐲙"); ("𐳚", "𐲚"); ("𐳛", "𐲛"); ("𐳜", "𐲜"); ("𐳝", "𐲝"); ("𐳞", "𐲞");
    ("𐳟", "𐲟"); ("𐳠", "𐲠"); ("𐳡", "𐲡"); ("𐳢", "𐲢"); ("𐳣", "𐲣"); ("𐳤", "𐲤");
    ("𐳥", "𐲥"); ("𐳦", "𐲦"); ("𐳧", "𐲧"); ("𐳨", "𐲨"); ("𐳩", "𐲩"); ("𐳪", "𐲪");
    ("𐳫", "𐲫"); ("𐳬", "𐲬"); ("𐳭", "𐲭"); ("𐳮", "𐲮"); ("𐳯", "𐲯"); ("𐳰", "𐲰");
    ("𐳱", "𐲱"); ("𐳲", "𐲲"); ("𑣀", "𑢠"); ("𑣁", "𑢡"); ("𑣂", "𑢢"); ("𑣃", "𑢣");
    ("𑣄", "𑢤"); ("𑣅", "𑢥"); ("𑣆", "𑢦"); ("𑣇", "𑢧"); ("𑣈", "𑢨"); ("𑣉", "𑢩");
    ("𑣊", "𑢪"); ("𑣋", "𑢫"); ("𑣌", "𑢬"); ("𑣍", "𑢭"); ("𑣎", "𑢮"); ("𑣏", "𑢯");
    ("𑣐", "𑢰"); ("𑣑", "𑢱"); ("𑣒", "𑢲"); ("𑣓", "𑢳"); ("𑣔", "𑢴"); ("𑣕", "𑢵");
    ("𑣖", "𑢶"); ("𑣗", "𑢷"); ("𑣘", "𑢸"); ("𑣙", "𑢹"); ("𑣚", "𑢺"); ("𑣛", "𑢻");
    ("𑣜", "𑢼"); ("𑣝", "𑢽"); ("𑣞", "𑢾"); ("𑣟", "𑢿"); ("𖹠", "𖹀"); ("𖹡", "𖹁");
    ("𖹢", "𖹂"); ("𖹣", "𖹃"); ("𖹤", "𖹄"); ("𖹥", "𖹅"); ("𖹦", "𖹆"); ("𖹧", "𖹇");
    ("𖹨", "𖹈"); ("𖹩", "𖹉"); ("𖹪", "𖹊"); ("𖹫", "𖹋"); ("𖹬", "𖹌"); ("𖹭", "𖹍");
    ("𖹮", "𖹎"); ("𖹯", "𖹏"); ("𖹰", "𖹐"); ("𖹱", "𖹑"); ("𖹲", "𖹒"); ("𖹳", "𖹓");
    ("𖹴", "𖹔"); ("𖹵", "𖹕"); ("𖹶", "𖹖"); ("𖹷", "𖹗"); ("𖹸", "𖹘"); ("𖹹", "𖹙");
    ("𖹺", "𖹚"); ("𖹻", "𖹛"); ("𖹼", "𖹜"); ("𖹽", "𖹝"); ("𖹾", "𖹞"); ("𖹿", "𖹟");
    ("𞤢", "𞤀"); ("𞤣", "𞤁"); ("𞤤", "𞤂"); ("𞤥", "𞤃"); ("𞤦", "𞤄"); ("𞤧", "𞤅");
    ("𞤨", "𞤆"); ("𞤩", "𞤇"); ("𞤪", "𞤈"); ("𞤫", "𞤉"); ("𞤬", "𞤊"); ("𞤭", "𞤋");
    ("𞤮", "𞤌"); ("𞤯", "𞤍"); ("𞤰", "𞤎"); ("𞤱", "𞤏"); ("𞤲", "𞤐"); ("𞤳", "𞤑");
    ("𞤴", "𞤒"); ("𞤵", "𞤓"); ("𞤶", "𞤔"); ("𞤷", "𞤕"); ("𞤸", "𞤖"); ("𞤹", "𞤗");
    ("𞤺", "𞤘"); ("𞤻", "𞤙"); ("𞤼", "𞤚"); ("𞤽", "𞤛"); ("𞤾", "𞤜"); ("𞤿", "𞤝");
    ("𞥀", "𞤞"); ("𞥁", "𞤟"); ("𞥂", "𞤠"); ("𞥃", "𞤡") ].

(** Number of bytes of the UTF-8 character that starts with byte [b]. *)
Definition utf8_width (b : ascii) : nat :=
  let n := nat_of_ascii b in
  if Nat.ltb n 192 then 1%nat
  else if Nat.ltb n 224 then 2%nat
  else if Nat.ltb n 240 then 3%nat
  else 4%nat.

(** [c.upper()] on one character, given by its UTF-8 bytes. *)
Definition upper_char (c : string) : string := Py.get_default UPPERCASE c c.

(** [s.upper()]: character by character. *)
Fixpoint upper (s : string) : string :=
  match s with
  | EmptyString => EmptyString
  | String b1 s1 =>
      match utf8_width b1, s1 with
      | 2%nat, String b2 s2 =>
          upper_char (String b1 (String b2 "")) ++ upper s2
      | 3%nat, String b2 (String b3 s3) =>
          upper_char (String b1 (String b2 (String b3 ""))) ++ upper s3
      | 4%nat, String b2 (String b3 (String b4 s4)) =>
          upper_char (String b1 (String b2 (String b3 (String b4 ""))))
          ++ upper s4
      | _, _ => upper_char (String b1 "") ++ upper s1
      end
  end.


(** [FPSPredictor._get_gpu_performance_index] on these strings: the loop
    and the function as above, with this [upper] for [str.upper]. *)
Fixpoint gpu_index_loop (items : Py.dict float) (gpu_name_upper : string)
  : float :=
  match items with
  | [] => 0.50  (* Conservative estimate *)
  | (model_name, index) :: rest =>
      if Py.str_in (upper model_name) gpu_name_upper then index
      else gpu_index_loop rest gpu_name_upper
  end.

Definition _get_gpu_performance_index (gpu_name : string) : float :=
  let gpu_name_upper := upper gpu_name in
  gpu_index_loop GPU_PERFORMANCE_INDEX gpu_name_upper.

End Unicode.

(** * Vocabulary of the properties *)

(** ** The finitely many raw frame rates *)

(** Whatever the four strings are, each factor of the product is one of
    finitely many table values or the default, so a decidable property of
    the raw frame rate is settled by evaluating it on every combination. *)

Definition base_values : list Z := 60%Z :: map snd GAME_BASE_FPS.
Definition gpu_values : list float := 0.50 :: map snd GPU_PERFORMANCE_INDEX.
Definition res_values : list float := 1.0 :: map snd RESOLUTION_MULTIPLIERS.
Definition quality_values : list float := 1.0 :: map snd QUALITY_MULTIPLIERS.

Definition raw_fps (base : Z) (g r q : float) : float :=
  Py.float_of_int base * g * r * q.

(** The value of [predicted_fps] inside [predict] (and of the inline
    product of [compare_gpus]) for a processor name. *)
Definition predicted_fps (gpu_name game_name resolution quality_preset : string)
  : float :=
  raw_fps (_get_game_base_fps game_name)
          (_get_gpu_performance_index gpu_name)
          (_get_resolution_multiplier resolution)
          (_get_quality_multiplier quality_preset).

Definition forall_raw (check : float -> bool) : bool :=
  forallb (fun b =>
    forallb (fun g =>
      forallb (fun r =>
        forallb (fun q => check (raw_fps b g r q)) quality_values)
      res_values)
    gpu_values)
  base_values.

(** What is checked of every raw frame rate [x]: the four truncations are
    defined, each equals the floor, they are ordered, and the average lies
    between 1 and 2520. *)
Definition bands_ok (x : float) : bool :=
  match Py.int x, Py.int (x * 0.75), Py.int (x * 1.15), Py.int (x * 0.60),
        Py.floor x, Py.floor (x * 0.75), Py.floor (x * 1.15),
        Py.floor (x * 0.60) with
  | Some a, Some mn, Some mx, Some lo, Some a', Some mn', Some mx', Some lo' =>
      (a =? a')%Z && (mn =? mn')%Z && (mx =? mx')%Z && (lo =? lo')%Z
      && (lo <=? mn)%Z && (mn <=? a)%Z && (a <=? mx)%Z
      && (1 <=? a)%Z && (a <=? 2520)%Z
  | _, _, _, _, _, _, _, _ => false
  end.

Record bands (x : float) (a mn mx lo : Z) : Prop := {
  band_average : Py.int x = Some a;
  band_min : Py.int (x * 0.75) = Some mn;
  band_max : Py.int (x * 1.15) = Some mx;
  band_low : Py.int (x * 0.60) = Some lo;
  band_average_floor : Py.floor x = Some a;
  band_min_floor : Py.floor (x * 0.75) = Some mn;
  band_max_floor : Py.floor (x * 1.15) = Some mx;
  band_low_floor : Py.floor (x * 0.60) = Some lo;
  band_order : (lo <= mn <= a)%Z /\ (a <= mx)%Z;
  band_bounds : (1 <= a <= 2520)%Z
}.

(** ** Factors and inputs of the statements *)

(** The table factors as the specification words them: the entry under
    the given key, and the neutral 1.0 for a key that is not in the table. *)
Definition spec_resolution_factor (resolution : string) : float :=
  match Py.get RESOLUTION_MULTIPLIERS resolution with
  | Some factor => factor
  | None => 1.0
  end.

Definition spec_quality_factor (quality : string) : float :=
  match Py.get QUALITY_MULTIPLIERS quality with
  | Some factor => factor
  | None => 1.0
  end.

(** rawFps = gameBaseline x processorIndex x resolutionFactor x qualityFactor,
    for a quality key [quality_key]. *)
Definition spec_raw_fps (gpu_name game_name resolution quality_key : string)
  : float :=
  Py.float_of_int (_get_game_base_fps game_name)
  * _get_gpu_performance_index gpu_name
  * spec_resolution_factor resolution
  * spec_quality_factor quality_key.

Definition rtx_3070 : GPUInfo.t :=
  GPUInfo.mk "NVIDIA GeForce RTX 3070" 8192 "Ampere".

Definition gtx_1060 : GPUInfo.t :=
  GPUInfo.mk "NVIDIA GeForce GTX 1060" 6144 "Pascal".






(** A processor name with the dotless i (U+0131) that [str.upper] maps
    onto I. *)
Definition rtx_3060_dotless : string := "rtx 3060 tı".

(** The two tests of [predict] that decide the confidence. *)
Definition gpu_in_db (gpu_name : string) : bool :=
  Py.any (fun model => Py.str_in (Py.upper model) (Py.upper gpu_name))
         (Py.keys GPU_PERFORMANCE_INDEX).

Definition game_in_db (game_name : string) : bool :=
  Py.contains GAME_BASE_FPS game_name
  || Py.any (fun name => Py.str_in (Py.lower game_name) (Py.lower name))
            (Py.keys GAME_BASE_FPS).

(** The game name resolves to a table entry in [_get_game_base_fps]: it is
    a key, or it is contained in a key or contains one, case-insensitively
    (case-insensitive equality is a containment). *)
Definition game_resolves (game_name : string) : bool :=
  Py.contains GAME_BASE_FPS game_name
  || Py.any (fun name =>
               Py.str_in (Py.lower game_name) (Py.lower name)
               || Py.str_in (Py.lower name) (Py.lower game_name))
            (Py.keys GAME_BASE_FPS).

(** The four quality presets give strictly ordered average frame rates
    for the baseline [b], the processor index [g] and the resolution
    factor [r]. *)
Definition quality_ordered (b : Z) (g r : float) : bool :=
  match Py.int (raw_fps b g r 2.00), Py.int (raw_fps b g r 1.40),
        Py.int (raw_fps b g r 1.00), Py.int (raw_fps b g r 0.70) with
  | Some low, Some medium, Some high, Some ultra =>
      (ultra <? high)%Z && (high <? medium)%Z && (medium <? low)%Z
  | _, _, _, _ => false
  end.

(** (difference / fps1) x 100 in floats, for [fps1 <> 0]. *)
Definition percentage_of (difference fps1 : Z) : float :=
  PrimFloat.div (Py.float_of_int difference) (Py.float_of_int fps1)
  * Py.float_of_int 100.

(** ** Scan orders of the search *)

(** The combinations in scan order: resolutions in the outer loop,
    qualities in the inner loop. *)
Definition scan (rs qs : list string) : list PredictCall :=
  flat_map (fun r => map (pair r) qs) rs.

(** 4K, 1440p, 1080p, 720p, and within each ultra, high, medium, low. *)
Definition quality_scan : list PredictCall :=
  scan [ "3840x2160"; "2560x1440"; "1920x1080"; "1280x720" ]
       [ "ultra"; "high"; "medium"; "low" ].

(** 720p, 1080p, 1440p, 4K, and within each low, medium, high, ultra. *)
Definition performance_scan : list PredictCall :=
  scan [ "1280x720"; "1920x1080"; "2560x1440"; "3840x2160" ]
       [ "low"; "medium"; "high"; "ultra" ].

(** The prediction of a combination has fps_average >= target_fps. *)
Definition meets_target (gpu_info : GPUInfo.t) (game_name : string)
    (target_fps : Z) (c : PredictCall) : bool :=
  match predict gpu_info game_name (fst c) (snd c) with
  | Some prediction => (FPSPrediction.fps_average prediction >=? target_fps)%Z
  | None => false
  end.

(** ** Checks of the further properties *)

(** The three resolutions of [predict_all_resolutions] give strictly
    ordered average frame rates for the baseline [b], the processor index
    [g] and the quality factor [q]. *)
Definition resolution_ordered (b : Z) (g q : float) : bool :=
  match Py.int (raw_fps b g 1.00 q), Py.int (raw_fps b g 0.65 q),
        Py.int (raw_fps b g 0.35 q) with
  | Some full_hd, Some quad_hd, Some ultra_hd =>
      (ultra_hd <? quad_hd)%Z && (quad_hd <? full_hd)%Z
  | _, _, _ => false
  end.

(** For the baseline [b], the resolution factor [r] and the quality factor
    [q], a processor index that is not larger never gives a larger average
    frame rate. *)
Definition tier_monotone (b : Z) (r q : float) : bool :=
  let fps := map (fun g => (g, Py.int (raw_fps b g r q))) gpu_values in
  forallb (fun '(g1, a1) =>
    forallb (fun '(g2, a2) =>
      if PrimFloat.leb g1 g2
      then match a1, a2 with
           | Some a1, Some a2 => (a1 <=? a2)%Z
           | _, _ => false
           end
      else true) fps) fps.

(** The integers [lo], [lo + 1], ..., [lo + n - 1]. *)
Definition Z_range (lo : Z) (n : nat) : list Z :=
  map (fun i => (lo + Z.of_nat i)%Z) (seq 0 n).

(** The percentage of a zero difference is the float +0.0 after rounding. *)
Definition zero_percentage (fps1 : Z) : bool :=
  match Prim2SF (Py.round1 (percentage_of 0 fps1)) with
  | S754_zero false => true
  | _ => false
  end.

(** The first model name of a list, in order, that occurs in the
    processor name as a case-insensitive substring. *)
Definition first_matching_model (models : list string) (gpu_name : string)
  : option string :=
  find (fun model => Py.str_in (Py.upper model) (Py.upper gpu_name)) models.

(** The vendor prefix of the names the driver reports. *)
Definition vendor_name (model : string) : string :=
  "NVIDIA GeForce " ++ model.

(** The requirements record of a database entry under a name. *)
Definition requirements_of (name : string) (data : GameAnalyzerDB.game_data)
  : GameAnalyzerDB.GameRequirements.t :=
  {| GameAnalyzerDB.GameRequirements.name := name;
     GameAnalyzerDB.GameRequirements.minimum_vram :=
       GameAnalyzerDB.minimum_vram data;
     GameAnalyzerDB.GameRequirements.recommended_vram :=
       GameAnalyzerDB.recommended_vram data;
     GameAnalyzerDB.GameRequirements.minimum_gpu :=
       GameAnalyzerDB.minimum_gpu data;
     GameAnalyzerDB.GameRequirements.recommended_gpu :=
       GameAnalyzerDB.recommended_gpu data;
     GameAnalyzerDB.GameRequirements.supports_raytracing :=
       GameAnalyzerDB.supports_raytracing data;
     GameAnalyzerDB.GameRequirements.supports_dlss :=
       GameAnalyzerDB.supports_dlss data;
     GameAnalyzerDB.GameRequirements.supports_fsr :=
       GameAnalyzerDB.supports_fsr data;
     GameAnalyzerDB.GameRequirements.release_year :=
       GameAnalyzerDB.release_year data;
     GameAnalyzerDB.GameRequirements.engine := GameAnalyzerDB.engine data;
     GameAnalyzerDB.GameRequirements.optimization_level :=
       GameAnalyzerDB.optimization_level data |}.

(** The query occurs in the name, case-insensitively. *)
Definition name_contains (query name : string) : bool :=
  Py.str_in (Py.lower query) (Py.lower name).

(** The order of [sorted] on strings. *)
Definition string_le (a b : string) : Prop := String.leb a b = true.

(** The part of a database entry that [predict] reads. *)
Definition predictor_view (data : GameAnalyzerDB.game_data)
  : GameAnalyzer.game_data :=
  GameAnalyzer.mk_data (GameAnalyzerDB.recommended_vram data)
    (GameAnalyzerDB.supports_dlss data) (GameAnalyzerDB.supports_fsr data).

(** The notes of [predict]. *)
Definition vram_note (vram_total recommended_vram : Z) : string :=
  "VRAM (" ++ Py.str_of_int vram_total ++ "MB) is below recommended ("
  ++ Py.str_of_int recommended_vram ++ "MB). May experience stuttering.".

Definition dlss_note : string := "DLSS available - can boost FPS by 30-60%".

Definition fsr_note : string := "FSR available - can boost FPS by 20-40%".

Definition resolution_note : string :=
  "4K gaming is very demanding. Consider DLSS/FSR for better performance.".

Definition quality_note : string :=
  "Consider reducing to High for smoother gameplay.".

(** * Properties *)

(** ** The primitives *)

(** [int] and [floor], written with shifts, are the truncation and the
    floor of the exact value of the float. *)

Lemma shiftl_neg_div a p : Z.shiftl a (Zneg p) = (a / Z.shiftl 1 (Zpos p))%Z.
Proof.
  change (Z.shiftl a (Zneg p)) with (Z.shiftr a (Zpos p)).
  rewrite Z.shiftr_div_pow2, Z.shiftl_1_l by lia. reflexivity.
Qed.

Lemma int_truncates x n d :
  Py.float_ratio x = Some (n, d) -> Py.int x = Some (Z.quot n d).
Proof.
  unfold Py.float_ratio, Py.int.
  destruct (Prim2SF x) as [s|s| |s m e]; try discriminate.
  - intros [= <- <-]. reflexivity.
  - intros [= <- <-]. f_equal.
    destruct e as [|p|p].
    + rewrite Z.quot_1_r. reflexivity.
    + rewrite Z.quot_1_r. reflexivity.
    + rewrite shiftl_neg_div.
      change (Pos.iter (Z.mul 2) 1%Z p) with (Z.shiftl 1 (Zpos p)).
      assert (Hd : (0 < Z.shiftl 1 (Zpos p))%Z)
        by (rewrite Z.shiftl_1_l; apply Z.pow_pos_nonneg; lia).
      generalize dependent (Z.shiftl 1 (Zpos p)). intros d Hd.
      destruct s.
      * rewrite Z.quot_opp_l by lia.
        rewrite Z.quot_div_nonneg by lia. reflexivity.
      * rewrite Z.quot_div_nonneg by lia. reflexivity.
Qed.

Lemma floor_rounds_down x n d :
  Py.float_ratio x = Some (n, d) -> Py.floor x = Some (n / d)%Z.
Proof.
  unfold Py.float_ratio, Py.floor.
  destruct (Prim2SF x) as [s|s| |s m e]; try discriminate.
  - intros [= <- <-]. reflexivity.
  - intros [= <- <-]. f_equal.
    destruct e as [|p|p].
    + rewrite Z.div_1_r. destruct s; reflexivity.
    + rewrite Z.div_1_r. destruct s; [|reflexivity].
      change (Zneg m) with (- Zpos m)%Z.
      change (Pos.iter (Z.mul 2) (Zpos m) p) with (Z.shiftl (Zpos m) (Zpos p)).
      rewrite !Z.shiftl_mul_pow2 by lia. lia.
    + rewrite shiftl_neg_div.
      change (Pos.iter (Z.mul 2) 1%Z p) with (Z.shiftl 1 (Zpos p)).
      destruct s; reflexivity.
Qed.

(** [round(x, 1)] on inputs whose results in Python are known: ties of the
    exact binary value go to the even digit, and a decimal literal that is
    not a binary64 number is rounded according to its binary value. *)
Example round1_examples :
  Py.round1 0.25 = 0.2 /\ Py.round1 0.75 = 0.8 /\ Py.round1 0.35 = 0.3
  /\ Py.round1 2.675 = 2.7 /\ Py.round1 133.33333333333331 = 133.3
  /\ Py.round1 (-12.25) = (-12.2).
Proof. repeat split; vm_compute; reflexivity. Qed.

(** ** The finitely many raw frame rates *)

Lemma forall_raw_true check :
  forall_raw check = true ->
  forall b g r q,
    In b base_values -> In g gpu_values -> In r res_values ->
    In q quality_values -> check (raw_fps b g r q) = true.
Proof.
  unfold forall_raw. intros H b g r q Hb Hg Hr Hq.
  rewrite forallb_forall in H. specialize (H b Hb).
  rewrite forallb_forall in H. specialize (H g Hg).
  rewrite forallb_forall in H. specialize (H r Hr).
  rewrite forallb_forall in H. exact (H q Hq).
Qed.

Lemma get_In {V : Type} (d : Py.dict V) k v :
  Py.get d k = Some v -> In v (map snd d).
Proof.
  induction d as [|[k' v'] d IH]; simpl; [discriminate|].
  destruct (String.eqb k' k); [intros [= ->]; now left | auto].
Qed.

Lemma get_default_In {V : Type} (d : Py.dict V) k default :
  In (Py.get_default d k default) (default :: map snd d).
Proof.
  unfold Py.get_default. destruct (Py.get d k) eqn:E.
  - right. eapply get_In; eauto.
  - now left.
Qed.

Lemma gpu_index_loop_In items n :
  In (gpu_index_loop items n) (0.50 :: map snd items).
Proof.
  induction items as [|[m i] items IH]; simpl gpu_index_loop.
  - now left.
  - destruct (Py.str_in (Py.upper m) n).
    + right; now left.
    + destruct IH as [IH|IH]; [now left | right; now right].
Qed.

Lemma game_base_loop_In items g :
  In (game_base_loop items g) (60%Z :: map snd items).
Proof.
  induction items as [|[m i] items IH]; simpl game_base_loop.
  - now left.
  - destruct (_ || _)%bool.
    + right; now left.
    + destruct IH as [IH|IH]; [now left | right; now right].
Qed.

Lemma game_base_fps_In g : In (_get_game_base_fps g) base_values.
Proof.
  unfold _get_game_base_fps, base_values.
  destruct (Py.get GAME_BASE_FPS g) eqn:E.
  - right. eapply get_In; eauto.
  - apply game_base_loop_In.
Qed.

(** Case analysis on the raw frame rate of an arbitrary input. *)
Lemma predicted_fps_ind (check : float -> bool) :
  forall_raw check = true ->
  forall gpu_name game_name resolution quality_preset,
    check (predicted_fps gpu_name game_name resolution quality_preset) = true.
Proof.
  intros H gpu_name game_name resolution quality_preset.
  apply forall_raw_true; trivial.
  - apply game_base_fps_In.
  - apply gpu_index_loop_In.
  - apply get_default_In.
  - apply get_default_In.
Qed.

Lemma bands_ok_all : forall_raw bands_ok = true.
Proof. vm_cast_no_check (eq_refl true). Qed.

Lemma bands_ok_bands x :
  bands_ok x = true -> exists a mn mx lo, bands x a mn mx lo.
Proof.
  unfold bands_ok.
  destruct (Py.int x) as [a|] eqn:Ea; [|discriminate].
  destruct (Py.int (x * 0.75)) as [mn|] eqn:Emn; [|discriminate].
  destruct (Py.int (x * 1.15)) as [mx|] eqn:Emx; [|discriminate].
  destruct (Py.int (x * 0.60)) as [lo|] eqn:Elo; [|discriminate].
  destruct (Py.floor x) as [a'|] eqn:Fa; [|discriminate].
  destruct (Py.floor (x * 0.75)) as [mn'|] eqn:Fmn; [|discriminate].
  destruct (Py.floor (x * 1.15)) as [mx'|] eqn:Fmx; [|discriminate].
  destruct (Py.floor (x * 0.60)) as [lo'|] eqn:Flo; [|discriminate].
  rewrite !andb_true_iff, !Z.eqb_eq, !Z.leb_le.
  intros [[[[[[[[<- <-] <-] <-] ?] ?] ?] ?] ?].
  exists a, mn, mx, lo. split; auto; lia.
Qed.

Lemma predicted_fps_bands gpu_name game_name resolution quality_preset :
  exists a mn mx lo,
    bands (predicted_fps gpu_name game_name resolution quality_preset) a mn mx lo.
Proof. apply bands_ok_bands, predicted_fps_ind, bands_ok_all. Qed.

(** [predict] never raises, and its four frame rates are the truncations
    of the raw frame rate and of its three scaled copies. *)
Lemma predict_bands gpu_info game_name resolution quality_preset :
  exists p,
    predict gpu_info game_name resolution quality_preset = Some p
    /\ bands (predicted_fps (GPUInfo.name gpu_info) game_name resolution
                quality_preset)
         (FPSPrediction.fps_average p) (FPSPrediction.fps_min p)
         (FPSPrediction.fps_max p) (FPSPrediction.fps_1_percent_low p).
Proof.
  destruct (predicted_fps_bands (GPUInfo.name gpu_info) game_name resolution
              quality_preset) as (a & mn & mx & lo & B).
  pose proof B as [Ha Hmn Hmx Hlo _ _ _ _ _ _].
  unfold predicted_fps, raw_fps in Ha, Hmn, Hmx, Hlo.
  unfold predict. cbv zeta. rewrite Ha, Hmn, Hmx, Hlo.
  eexists. split; [reflexivity|]. exact B.
Qed.

Lemma predict_total gpu_info game_name resolution quality_preset :
  exists p, predict gpu_info game_name resolution quality_preset = Some p.
Proof.
  destruct (predict_bands gpu_info game_name resolution quality_preset)
    as (p & Hp & _). eauto.
Qed.

(** ** The prediction *)

(** C1, as stated, fails: with the quality string taken as the table key,
    the quality ["ULTRA"] is not a key of the quality table and the raw
    frame rate would be 55 x 1.20 x 1.00 x 1.0 with floor 66, but [predict]
    answers 46: it looks the quality up in lower case and finds 0.70. *)
Lemma predict_raw_formula_exact_key_fails :
  exists p,
    predict rtx_3070 "Cyberpunk 2077" "1920x1080" "ULTRA" = Some p
    /\ Py.get QUALITY_MULTIPLIERS "ULTRA" = None
    /\ Py.floor (spec_raw_fps (GPUInfo.name rtx_3070) "Cyberpunk 2077"
                   "1920x1080" "ULTRA") = Some 66%Z
    /\ FPSPrediction.fps_average p = 46%Z
    /\ Py.floor (spec_raw_fps (GPUInfo.name rtx_3070) "Cyberpunk 2077"
                   "1920x1080" "ULTRA")
       <> Some (FPSPrediction.fps_average p).
Proof.
  eexists. split; [vm_compute; reflexivity|].
  repeat split; try (vm_compute; reflexivity).
  vm_compute. discriminate.
Qed.

(** C1, amended: for every processor descriptor, game name, resolution
    string and quality string, [predict] returns a prediction whose raw
    frame rate is the product of the game baseline, the processor index,
    the resolution factor (1.0 when the resolution is not a key of its
    table) and the quality factor found under the lower-cased quality
    string (1.0 when that is not a key of its table), and
    fps_average = floor(raw), fps_min = floor(raw x 0.75),
    fps_max = floor(raw x 1.15), fps_1_percent_low = floor(raw x 0.60). *)
Theorem predict_raw_formula :
  forall (gpu_info : GPUInfo.t) (game_name resolution quality_preset : string),
  exists p,
    predict gpu_info game_name resolution quality_preset = Some p
    /\ let raw := spec_raw_fps (GPUInfo.name gpu_info) game_name resolution
                    (Py.lower quality_preset) in
       Py.floor raw = Some (FPSPrediction.fps_average p)
       /\ Py.floor (raw * 0.75) = Some (FPSPrediction.fps_min p)
       /\ Py.floor (raw * 1.15) = Some (FPSPrediction.fps_max p)
       /\ Py.floor (raw * 0.60) = Some (FPSPrediction.fps_1_percent_low p).
Proof.
  intros gpu_info game_name resolution quality_preset.
  destruct (predict_bands gpu_info game_name resolution quality_preset)
    as (p & Hp & B).
  exists p. split; [exact Hp|].
  destruct B. cbv zeta. repeat split; assumption.
Qed.

(** C2: every prediction satisfies
    fps_1_percent_low <= fps_min <= fps_average <= fps_max. *)
Theorem predict_range_invariant :
  forall (gpu_info : GPUInfo.t) (game_name resolution quality_preset : string),
  exists p,
    predict gpu_info game_name resolution quality_preset = Some p
    /\ (FPSPrediction.fps_1_percent_low p <= FPSPrediction.fps_min p)%Z
    /\ (FPSPrediction.fps_min p <= FPSPrediction.fps_average p)%Z
    /\ (FPSPrediction.fps_average p <= FPSPrediction.fps_max p)%Z.
Proof.
  intros gpu_info game_name resolution quality_preset.
  destruct (predict_bands gpu_info game_name resolution quality_preset)
    as (p & Hp & B).
  exists p. split; [exact Hp|].
  destruct B as [_ _ _ _ _ _ _ _ [[? ?] ?] _]. auto.
Qed.

(** The average frame rate is never below 1 nor above 2520: the extreme
    raw frame rates of the tables are 40 x 0.22 x 0.28 x 0.50 and
    250 x 2.80 x 1.80 x 2.00. *)
Lemma predict_fps_average_bounds gpu_info game_name resolution quality_preset p :
  predict gpu_info game_name resolution quality_preset = Some p ->
  (1 <= FPSPrediction.fps_average p <= 2520)%Z.
Proof.
  destruct (predict_bands gpu_info game_name resolution quality_preset)
    as (p' & Hp & B).
  rewrite Hp. intros [= <-]. apply B.
Qed.

(** The products are binary64 products: 100 x 0.58 is a float just below
    58, so GTA V on a GTX 1660 Ti at 1080p high is predicted at 57. *)
Example predict_binary64_product :
  option_map FPSPrediction.fps_average
    (predict (GPUInfo.mk "NVIDIA GeForce GTX 1660 Ti" 6144 "Turing") "GTA V"
       "1920x1080" "high")
  = Some 57%Z.
Proof. vm_compute. reflexivity. Qed.

(** ** Processor index resolution *)

(** *** Substrings *)




(** *** The loop *)


(** *** ASCII names *)







(** *** The case of ASCII letters *)









(** [str.upper] beyond the 26 letters: one code point onto two, a ligature
    onto its letters, the long s onto S, an accented letter onto its
    capital; and a name that reaches the RTX 4080 SUPER entry through the
    long s. *)
Example unicode_upper_examples :
  Unicode.upper "straße ﬁn ſuper é" = "STRASSE FIN SUPER É"
  /\ Unicode.upper rtx_3060_dotless = "RTX 3060 TI"
  /\ Unicode._get_gpu_performance_index "GeForce rtx 4080 ſuper" = 2.30.
Proof. vm_compute. repeat split. Qed.

(** ** Monotonicity by quality *)

Lemma quality_ordered_all :
  forallb (fun b =>
    forallb (fun g => forallb (quality_ordered b g) res_values) gpu_values)
  base_values = true.
Proof. vm_cast_no_check (eq_refl true). Qed.

Lemma quality_ordered_inputs gpu_name game_name resolution :
  quality_ordered (_get_game_base_fps game_name)
                  (_get_gpu_performance_index gpu_name)
                  (_get_resolution_multiplier resolution) = true.
Proof.
  pose proof quality_ordered_all as H.
  rewrite forallb_forall in H.
  specialize (H _ (game_base_fps_In game_name)).
  rewrite forallb_forall in H.
  specialize (H _ (gpu_index_loop_In GPU_PERFORMANCE_INDEX (Py.upper gpu_name))).
  rewrite forallb_forall in H.
  exact (H _ (get_default_In RESOLUTION_MULTIPLIERS resolution 1.0)).
Qed.

(** C9: for a fixed processor descriptor, game name and resolution string,
    the average frame rates at the four quality presets are strictly
    ordered: low > medium > high > ultra. *)
Theorem predict_quality_strictly_monotone :
  forall (gpu_info : GPUInfo.t) (game_name resolution : string),
  exists p_low p_medium p_high p_ultra,
    predict gpu_info game_name resolution "low" = Some p_low
    /\ predict gpu_info game_name resolution "medium" = Some p_medium
    /\ predict gpu_info game_name resolution "high" = Some p_high
    /\ predict gpu_info game_name resolution "ultra" = Some p_ultra
    /\ (FPSPrediction.fps_average p_low > FPSPrediction.fps_average p_medium)%Z
    /\ (FPSPrediction.fps_average p_medium > FPSPrediction.fps_average p_high)%Z
    /\ (FPSPrediction.fps_average p_high > FPSPrediction.fps_average p_ultra)%Z.
Proof.
  intros gpu_info game_name resolution.
  destruct (predict_bands gpu_info game_name resolution "low")
    as (pl & Hl & [Al _ _ _ _ _ _ _ _ _]).
  destruct (predict_bands gpu_info game_name resolution "medium")
    as (pm & Hm & [Am _ _ _ _ _ _ _ _ _]).
  destruct (predict_bands gpu_info game_name resolution "high")
    as (ph & Hh & [Ah _ _ _ _ _ _ _ _ _]).
  destruct (predict_bands gpu_info game_name resolution "ultra")
    as (pu & Hu & [Au _ _ _ _ _ _ _ _ _]).
  exists pl, pm, ph, pu. repeat (split; [assumption|]).
  pose proof (quality_ordered_inputs (GPUInfo.name gpu_info) game_name
                resolution) as H.
  unfold quality_ordered in H. unfold predicted_fps in Al, Am, Ah, Au.
  change (_get_quality_multiplier "low") with 2.00 in Al.
  change (_get_quality_multiplier "medium") with 1.40 in Am.
  change (_get_quality_multiplier "high") with 1.00 in Ah.
  change (_get_quality_multiplier "ultra") with 0.70 in Au.
  rewrite Al, Am, Ah, Au in H.
  rewrite !andb_true_iff, !Z.ltb_lt in H. lia.
Qed.

(** ** Confidence *)

(** What [predict] computes: the confidence is decided by its own two
    tests. *)
Lemma predict_confidence gpu_info game_name resolution quality_preset :
  exists p,
    predict gpu_info game_name resolution quality_preset = Some p
    /\ FPSPrediction.confidence p
       = if gpu_in_db (GPUInfo.name gpu_info) && game_in_db game_name
         then "high"
         else if gpu_in_db (GPUInfo.name gpu_info) || game_in_db game_name
              then "medium"
              else "low".
Proof.
  destruct (predicted_fps_bands (GPUInfo.name gpu_info) game_name resolution
              quality_preset) as (a & mn & mx & lo & [Ha Hmn Hmx Hlo _ _ _ _ _ _]).
  unfold predicted_fps, raw_fps in Ha, Hmn, Hmx, Hlo.
  unfold predict. cbv zeta. rewrite Ha, Hmn, Hmx, Hlo.
  eexists. split; reflexivity.
Qed.

(** A name that does not resolve gets the default baseline, and a name
    that resolves gets the baseline of a table entry. *)
Lemma game_base_loop_resolves items game_name :
  Py.any (fun name =>
            Py.str_in (Py.lower game_name) (Py.lower name)
            || Py.str_in (Py.lower name) (Py.lower game_name))
         (Py.keys items) = false ->
  game_base_loop items game_name = 60%Z.
Proof.
  induction items as [|[name fps] items IH]; cbn; [reflexivity|].
  destruct (Py.str_in (Py.lower game_name) (Py.lower name)
            || Py.str_in (Py.lower name) (Py.lower game_name))%bool;
    [discriminate|]. exact IH.
Qed.

Lemma game_base_fps_default game_name :
  game_resolves game_name = false -> _get_game_base_fps game_name = 60%Z.
Proof.
  unfold game_resolves, _get_game_base_fps, Py.contains.
  destruct (Py.get GAME_BASE_FPS game_name); [discriminate|].
  apply game_base_loop_resolves.
Qed.

Lemma game_base_loop_entry items game_name :
  Py.any (fun name =>
            Py.str_in (Py.lower game_name) (Py.lower name)
            || Py.str_in (Py.lower name) (Py.lower game_name))
         (Py.keys items) = true ->
  exists name, In (name, game_base_loop items game_name) items.
Proof.
  induction items as [|[name fps] items IH]; cbn; [discriminate|].
  destruct (Py.str_in (Py.lower game_name) (Py.lower name)
            || Py.str_in (Py.lower name) (Py.lower game_name))%bool.
  - intros _. exists name. now left.
  - intros H. destruct (IH H) as [name' Hin]. exists name'. now right.
Qed.

Lemma get_entry {V : Type} (d : Py.dict V) k v :
  Py.get d k = Some v -> In (k, v) d.
Proof.
  induction d as [|[k' v'] d IH]; cbn; [discriminate|].
  destruct (String.eqb_spec k' k) as [->|_].
  - intros [= ->]. now left.
  - intros H. right. exact (IH H).
Qed.

Lemma game_base_fps_entry game_name :
  game_resolves game_name = true ->
  exists name, In (name, _get_game_base_fps game_name) GAME_BASE_FPS.
Proof.
  unfold game_resolves, _get_game_base_fps, Py.contains.
  destruct (Py.get GAME_BASE_FPS game_name) eqn:E.
  - intros _. exists game_name. now apply get_entry.
  - cbn [orb]. apply game_base_loop_entry.
Qed.

(** C3 fails on a game name that contains a table name without being
    contained in one: the processor matches ["RTX 3070"] and the baseline
    of ["Cyberpunk 2077 Phantom Liberty"] is resolved from the entry
    ["Cyberpunk 2077"] by the reverse containment test of
    [_get_game_base_fps], yet the confidence is ["medium"]: the
    confidence test of [predict] only looks for the game name inside a
    table name. *)
Lemma predict_confidence_reverse_containment :
  let game_name := "Cyberpunk 2077 Phantom Liberty" in
  gpu_in_db (GPUInfo.name rtx_3070) = true
  /\ game_resolves game_name = true
  /\ Py.str_in (Py.lower "Cyberpunk 2077") (Py.lower game_name) = true
  /\ _get_game_base_fps game_name = 55%Z
  /\ game_in_db game_name = false
  /\ exists p,
       predict rtx_3070 game_name "1920x1080" "high" = Some p
       /\ FPSPrediction.confidence p = "medium".
Proof.
  cbv zeta. repeat split; try (vm_compute; reflexivity).
  eexists. split; vm_compute; reflexivity.
Qed.

(** ** Comparison *)

(** [compare_gpus] never raises; its result, field by field. *)
Lemma compare_gpus_result gpu1_info gpu2_name game_name resolution quality_preset :
  exists pred1 gpu2_fps,
    predict gpu1_info game_name resolution quality_preset = Some pred1
    /\ Py.int (predicted_fps gpu2_name game_name resolution quality_preset)
       = Some gpu2_fps
    /\ (1 <= FPSPrediction.fps_average pred1 <= 2520)%Z
    /\ compare_gpus gpu1_info gpu2_name game_name resolution quality_preset
       = Some
           {| Comparison.gpu1_name := GPUInfo.name gpu1_info;
              Comparison.gpu1_fps := FPSPrediction.fps_average pred1;
              Comparison.gpu2_name := gpu2_name;
              Comparison.gpu2_fps := gpu2_fps;
              Comparison.fps_difference :=
                (gpu2_fps - FPSPrediction.fps_average pred1)%Z;
              Comparison.percentage_difference :=
                Py.Float
                  (Py.round1
                     (percentage_of
                        (gpu2_fps - FPSPrediction.fps_average pred1)
                        (FPSPrediction.fps_average pred1)));
              Comparison.faster_gpu :=
                if (gpu2_fps - FPSPrediction.fps_average pred1 >? 0)%Z
                then gpu2_name else GPUInfo.name gpu1_info;
              Comparison.game := game_name;
              Comparison.resolution := resolution;
              Comparison.quality := quality_preset |}.
Proof.
  destruct (predict_bands gpu1_info game_name resolution quality_preset)
    as (pred1 & H1 & B1).
  destruct (predicted_fps_bands gpu2_name game_name resolution quality_preset)
    as (gpu2_fps & mn & mx & lo & B2).
  pose proof (band_bounds _ _ _ _ _ B1) as Hpos.
  pose proof (band_average _ _ _ _ _ B2) as H2.
  exists pred1, gpu2_fps. repeat (split; [assumption|]).
  unfold compare_gpus. rewrite H1. cbv zeta.
  unfold predicted_fps, raw_fps in H2. rewrite H2.
  assert (Hgt : (FPSPrediction.fps_average pred1 >? 0)%Z = true)
    by (apply Z.gtb_lt; lia).
  rewrite Hgt. unfold Py.int_truediv.
  assert (Hne : (FPSPrediction.fps_average pred1 =? 0)%Z = false)
    by (apply Z.eqb_neq; lia).
  rewrite Hne. reflexivity.
Qed.

(** C7, as stated, fails: for the RTX 3070 against the RTX 4090 in
    Cyberpunk 2077 the frame rates are 66 and 154, and the percentage
    returned is not (88 / 66) x 100 = 133.33333333333331 but that number
    rounded to one decimal, 133.3. *)
Lemma compare_gpus_percentage_is_rounded :
  exists r,
    compare_gpus rtx_3070 "RTX 4090" "Cyberpunk 2077" "1920x1080" "high" = Some r
    /\ Comparison.gpu1_fps r = 66%Z
    /\ Comparison.fps_difference r = 88%Z
    /\ Comparison.percentage_difference r = Py.Float 133.3
    /\ Comparison.percentage_difference r
       <> Py.Float (percentage_of (Comparison.fps_difference r)
                      (Comparison.gpu1_fps r)).
Proof.
  eexists. split; [vm_compute; reflexivity|].
  repeat split; try (vm_compute; reflexivity).
  intros H. apply (f_equal (fun v => match v with
                                     | Py.Float x => Prim2SF x
                                     | Py.Int _ => S754_nan
                                     end)) in H.
  vm_compute in H. discriminate H.
Qed.

(** C7, amended: [compare_gpus] returns
    fps_difference = gpu2_fps - pred1.fps_average;
    percentage_difference = (fps_difference / pred1.fps_average) x 100
    rounded to one decimal digit, and 0 when pred1.fps_average is 0;
    faster_gpu = gpu2_name exactly when fps_difference > 0 and the name of
    the first processor otherwise, so a tie favours the first processor. *)
Theorem compare_gpus_difference_percentage_faster :
  forall (gpu1_info : GPUInfo.t)
         (gpu2_name game_name resolution quality_preset : string),
  exists pred1 r,
    predict gpu1_info game_name resolution quality_preset = Some pred1
    /\ compare_gpus gpu1_info gpu2_name game_name resolution quality_preset
       = Some r
    /\ Comparison.fps_difference r
       = (Comparison.gpu2_fps r - FPSPrediction.fps_average pred1)%Z
    /\ Comparison.percentage_difference r
       = (if (FPSPrediction.fps_average pred1 =? 0)%Z then Py.Int 0
          else Py.Float
                 (Py.round1
                    (percentage_of (Comparison.fps_difference r)
                       (FPSPrediction.fps_average pred1))))
    /\ Comparison.faster_gpu r
       = (if (0 <? Comparison.fps_difference r)%Z then gpu2_name
          else GPUInfo.name gpu1_info).
Proof.
  intros gpu1_info gpu2_name game_name resolution quality_preset.
  destruct (compare_gpus_result gpu1_info gpu2_name game_name resolution
              quality_preset) as (pred1 & gpu2_fps & H1 & _ & Hpos & Hr).
  exists pred1. eexists. split; [exact H1|]. split; [exact Hr|].
  cbn [Comparison.fps_difference Comparison.gpu2_fps
       Comparison.percentage_difference Comparison.faster_gpu].
  split; [reflexivity|].
  assert (Hne : (FPSPrediction.fps_average pred1 =? 0)%Z = false)
    by (apply Z.eqb_neq; lia).
  rewrite Hne. split; [reflexivity|].
  rewrite Z.gtb_ltb. reflexivity.
Qed.

(** C10: the frame rate [compare_gpus] computes inline for the second
    processor is the average frame rate [predict] gives for any
    descriptor that carries that name, whatever its memory size and
    architecture, with the same game, resolution and quality. *)
Theorem compare_gpus_second_fps_is_predict :
  forall (gpu1_info : GPUInfo.t)
         (gpu2_name game_name resolution quality_preset : string)
         (vram_total : Z) (architecture : string),
  exists r pred2,
    compare_gpus gpu1_info gpu2_name game_name resolution quality_preset
    = Some r
    /\ predict (GPUInfo.mk gpu2_name vram_total architecture) game_name
         resolution quality_preset = Some pred2
    /\ Comparison.gpu2_fps r = FPSPrediction.fps_average pred2.
Proof.
  intros gpu1_info gpu2_name game_name resolution quality_preset
         vram_total architecture.
  destruct (compare_gpus_result gpu1_info gpu2_name game_name resolution
              quality_preset) as (pred1 & gpu2_fps & _ & H2 & _ & Hr).
  destruct (predict_bands (GPUInfo.mk gpu2_name vram_total architecture)
              game_name resolution quality_preset) as (pred2 & Hp2 & B2).
  eexists. exists pred2. split; [exact Hr|]. split; [exact Hp2|].
  pose proof (band_average _ _ _ _ _ B2) as A2.
  cbn [GPUInfo.name] in A2. rewrite H2 in A2.
  cbn [Comparison.gpu2_fps]. congruence.
Qed.

(** ** The search for settings *)

(** A position in a scan is a position in both loops. *)
Lemma scan_split rs qs before r q after :
  scan rs qs = (before ++ (r, q) :: after)%list ->
  exists rpre rpost qpre qpost,
    rs = (rpre ++ r :: rpost)%list
    /\ qs = (qpre ++ q :: qpost)%list
    /\ before = (scan rpre qs ++ map (pair r) qpre)%list
    /\ after = (map (pair r) qpost ++ scan rpost qs)%list.
Proof.
  revert before. induction rs as [|r0 rs IH]; intros before H.
  - destruct before; discriminate H.
  - change (scan (r0 :: rs) qs)
      with (map (pair r0) qs ++ scan rs qs)%list in H.
    apply app_eq_app in H as [l [[H1 H2]|[H1 H2]]].
    + destruct l as [|x l].
      * rewrite app_nil_r in H1. simpl in H2.
        destruct (IH [] (eq_sym H2))
          as (rpre & rpost & qpre & qpost & -> & Hq & Hb & ->).
        exists (r0 :: rpre), rpost, qpre, qpost.
        repeat split; trivial.
        change (scan (r0 :: rpre) qs)
          with (map (pair r0) qs ++ scan rpre qs)%list.
        rewrite <- app_assoc, <- Hb, app_nil_r. symmetry. exact H1.
      * injection H2 as <- ->.
        apply map_eq_app in H1 as (q1 & q2 & -> & <- & H1).
        apply map_eq_cons in H1 as (q' & q2' & -> & [= -> ->] & <-).
        exists [], rs, q1, q2'. repeat split; reflexivity.
    + destruct (IH l H2)
        as (rpre & rpost & qpre & qpost & -> & Hq & -> & ->).
      exists (r0 :: rpre), rpost, qpre, qpost.
      repeat split; trivial.
      change (scan (r0 :: rpre) qs)
        with (map (pair r0) qs ++ scan rpre qs)%list.
      rewrite <- app_assoc. exact H1.
Qed.

Lemma in_scan rs qs r q : In r rs -> In q qs -> In (r, q) (scan rs qs).
Proof.
  intros Hr Hq. apply in_flat_map. exists r. split; [exact Hr|].
  apply in_map. exact Hq.
Qed.

Section SearchProperties.
Variable gpu_info : GPUInfo.t.
Variable game_name : string.
Variable target_fps : Z.

#[local] Abbreviation meets := (meets_target gpu_info game_name target_fps).

Lemma call_predict_total res preset calls :
  exists prediction,
    predict gpu_info game_name res preset = Some prediction
    /\ call_predict gpu_info game_name res preset calls
       = Some (prediction, (calls ++ [(res, preset)])%list).
Proof.
  destruct (predict_total gpu_info game_name res preset) as [p Hp].
  exists p. split; [exact Hp|]. unfold call_predict. now rewrite Hp.
Qed.

Lemma meets_predict res preset prediction :
  predict gpu_info game_name res preset = Some prediction ->
  meets (res, preset)
  = (FPSPrediction.fps_average prediction >=? target_fps)%Z.
Proof.
  intros H. unfold meets_target. cbn [fst snd]. now rewrite H.
Qed.

(** One turn of each loop. *)
Lemma quality_presets_loop_cons res preset todo best_config calls :
  quality_presets_loop gpu_info game_name target_fps res (preset :: todo)
    best_config calls
  = match call_predict gpu_info game_name res preset calls with
    | Some (prediction, calls') =>
        if (FPSPrediction.fps_average prediction >=? target_fps)%Z
        then Some (match best_config with
                   | None => Some (make_config res preset prediction)
                   | Some _ => best_config
                   end, calls')
        else quality_presets_loop gpu_info game_name target_fps res todo
               best_config calls'
    | None => None
    end.
Proof.
  cbn [quality_presets_loop]. unfold bind.
  destruct (call_predict gpu_info game_name res preset calls)
    as [[prediction calls']|]; [|reflexivity].
  destruct (_ >=? _)%Z; reflexivity.
Qed.

Lemma quality_resolutions_loop_cons res todo best_config calls :
  quality_resolutions_loop gpu_info game_name target_fps (res :: todo)
    best_config calls
  = match quality_presets_loop gpu_info game_name target_fps res presets
            best_config calls with
    | Some (Some c, calls') => Some (Some c, calls')
    | Some (None, calls') =>
        quality_resolutions_loop gpu_info game_name target_fps todo None
          calls'
    | None => None
    end.
Proof.
  cbn [quality_resolutions_loop]. unfold bind.
  destruct (quality_presets_loop _ _ _ _ _ _ _) as [[[c|] calls']|];
    reflexivity.
Qed.

Lemma performance_presets_loop_cons res preset todo best_config calls :
  performance_presets_loop gpu_info game_name target_fps res (preset :: todo)
    best_config calls
  = match call_predict gpu_info game_name res preset calls with
    | Some (prediction, calls') =>
        performance_presets_loop gpu_info game_name target_fps res todo
          (if (FPSPrediction.fps_average prediction >=? target_fps)%Z
           then Some (make_config res preset prediction)
           else best_config)
          calls'
    | None => None
    end.
Proof.
  cbn [performance_presets_loop]. unfold bind.
  destruct (call_predict gpu_info game_name res preset calls)
    as [[prediction calls']|]; reflexivity.
Qed.

Lemma performance_resolutions_loop_cons res todo best_config calls :
  performance_resolutions_loop gpu_info game_name target_fps (res :: todo)
    best_config calls
  = match performance_presets_loop gpu_info game_name target_fps res
            (rev presets) best_config calls with
    | Some (best_config', calls') =>
        performance_resolutions_loop gpu_info game_name target_fps todo
          best_config' calls'
    | None => None
    end.
Proof.
  cbn [performance_resolutions_loop]. unfold bind.
  destruct (performance_presets_loop _ _ _ _ _ _ _) as [[c calls']|];
    reflexivity.
Qed.

(** *** Quality priority *)

Lemma quality_presets_loop_miss res todo calls :
  (forall q, In q todo -> meets (res, q) = false) ->
  quality_presets_loop gpu_info game_name target_fps res todo None calls
  = Some (None, (calls ++ map (pair res) todo)%list).
Proof.
  revert calls. induction todo as [|q todo IH]; intros calls H.
  - cbn. unfold ret. now rewrite app_nil_r.
  - rewrite quality_presets_loop_cons.
    destruct (call_predict_total res q calls) as (p & Hp & ->).
    rewrite <- (meets_predict _ _ _ Hp), (H q (or_introl eq_refl)).
    rewrite IH by (intros; apply H; now right).
    now rewrite <- app_assoc.
Qed.

Lemma quality_presets_loop_hit res pre q post calls p :
  (forall q', In q' pre -> meets (res, q') = false) ->
  predict gpu_info game_name res q = Some p ->
  meets (res, q) = true ->
  quality_presets_loop gpu_info game_name target_fps res
    (pre ++ q :: post) None calls
  = Some (Some (make_config res q p),
          (calls ++ map (pair res) pre ++ [(res, q)])%list).
Proof.
  intros Hpre Hp Hq. revert calls.
  induction pre as [|q0 pre IH]; intros calls.
  - cbn [app map]. rewrite quality_presets_loop_cons.
    destruct (call_predict_total res q calls) as (p' & Hp' & ->).
    rewrite Hp in Hp'. injection Hp' as <-.
    now rewrite <- (meets_predict _ _ _ Hp), Hq.
  - cbn [app map]. rewrite quality_presets_loop_cons.
    destruct (call_predict_total res q0 calls) as (p0 & Hp0 & ->).
    rewrite <- (meets_predict _ _ _ Hp0), (Hpre q0 (or_introl eq_refl)).
    rewrite IH by (intros; apply Hpre; now right).
    now rewrite <- app_assoc.
Qed.

Lemma quality_resolutions_loop_miss rs calls :
  (forall r q, In r rs -> In q presets -> meets (r, q) = false) ->
  quality_resolutions_loop gpu_info game_name target_fps rs None calls
  = Some (None, (calls ++ scan rs presets)%list).
Proof.
  revert calls. induction rs as [|r rs IH]; intros calls H.
  - cbn. unfold ret. now rewrite app_nil_r.
  - rewrite quality_resolutions_loop_cons.
    rewrite quality_presets_loop_miss
      by (intros; apply H; [now left | assumption]).
    rewrite IH by (intros; apply H; [now right | assumption]).
    change (scan (r :: rs) presets)
      with (map (pair r) presets ++ scan rs presets)%list.
    now rewrite <- app_assoc.
Qed.

Lemma quality_resolutions_loop_hit rpre r rpost qpre q qpost calls p :
  presets = (qpre ++ q :: qpost)%list ->
  (forall r' q', In r' rpre -> In q' presets -> meets (r', q') = false) ->
  (forall q', In q' qpre -> meets (r, q') = false) ->
  predict gpu_info game_name r q = Some p ->
  meets (r, q) = true ->
  quality_resolutions_loop gpu_info game_name target_fps
    (rpre ++ r :: rpost) None calls
  = Some (Some (make_config r q p),
          (calls ++ (scan rpre presets ++ map (pair r) qpre)
                 ++ [(r, q)])%list).
Proof.
  intros Hqs Hrpre Hqpre Hp Hq. revert calls.
  induction rpre as [|r0 rpre IH]; intros calls.
  - cbn [app]. rewrite quality_resolutions_loop_cons.
    assert (E : quality_presets_loop gpu_info game_name target_fps r
                  presets None calls
                = Some (Some (make_config r q p),
                        (calls ++ map (pair r) qpre ++ [(r, q)])%list))
      by (rewrite Hqs; now apply quality_presets_loop_hit).
    rewrite E. reflexivity.
  - cbn [app]. rewrite quality_resolutions_loop_cons.
    rewrite quality_presets_loop_miss
      by (intros; apply Hrpre; [now left | assumption]).
    rewrite IH by (intros; apply Hrpre; [now right | assumption]).
    change (scan (r0 :: rpre) presets)
      with (map (pair r0) presets ++ scan rpre presets)%list.
    now rewrite <- !app_assoc.
Qed.

(** *** Performance priority *)

Lemma performance_presets_loop_total res todo best_config calls :
  exists best_config',
    performance_presets_loop gpu_info game_name target_fps res todo
      best_config calls
    = Some (best_config', (calls ++ map (pair res) todo)%list).
Proof.
  revert best_config calls.
  induction todo as [|q todo IH]; intros best_config calls.
  - exists best_config. cbn. unfold ret. now rewrite app_nil_r.
  - rewrite performance_presets_loop_cons.
    destruct (call_predict_total res q calls) as (p & Hp & ->).
    destruct (IH (if (FPSPrediction.fps_average p >=? target_fps)%Z
                  then Some (make_config res q p) else best_config)
                 (calls ++ [(res, q)])%list) as [b ->].
    exists b. cbn [map]. now rewrite <- app_assoc.
Qed.

Lemma performance_presets_loop_miss res todo best_config calls :
  (forall q, In q todo -> meets (res, q) = false) ->
  performance_presets_loop gpu_info game_name target_fps res todo
    best_config calls
  = Some (best_config, (calls ++ map (pair res) todo)%list).
Proof.
  revert calls. induction todo as [|q todo IH]; intros calls H.
  - cbn. unfold ret. now rewrite app_nil_r.
  - rewrite performance_presets_loop_cons.
    destruct (call_predict_total res q calls) as (p & Hp & ->).
    rewrite <- (meets_predict _ _ _ Hp), (H q (or_introl eq_refl)).
    rewrite IH by (intros; apply H; now right).
    cbn [map]. now rewrite <- app_assoc.
Qed.

Lemma performance_presets_loop_hit res pre q post best_config calls p :
  predict gpu_info game_name res q = Some p ->
  meets (res, q) = true ->
  (forall q', In q' post -> meets (res, q') = false) ->
  performance_presets_loop gpu_info game_name target_fps res
    (pre ++ q :: post) best_config calls
  = Some (Some (make_config res q p),
          (calls ++ map (pair res) (pre ++ q :: post))%list).
Proof.
  intros Hp Hq Hpost. revert best_config calls.
  induction pre as [|q0 pre IH]; intros best_config calls.
  - cbn [app map]. rewrite performance_presets_loop_cons.
    destruct (call_predict_total res q calls) as (p' & Hp' & ->).
    rewrite Hp in Hp'. injection Hp' as <-.
    rewrite <- (meets_predict _ _ _ Hp), Hq.
    rewrite performance_presets_loop_miss by assumption.
    now rewrite <- app_assoc.
  - cbn [app map]. rewrite performance_presets_loop_cons.
    destruct (call_predict_total res q0 calls) as (p0 & Hp0 & ->).
    rewrite IH. now rewrite <- app_assoc.
Qed.

Lemma performance_resolutions_loop_miss rs best_config calls :
  (forall r q, In r rs -> In q (rev presets) -> meets (r, q) = false) ->
  performance_resolutions_loop gpu_info game_name target_fps rs
    best_config calls
  = Some (best_config, (calls ++ scan rs (rev presets))%list).
Proof.
  revert calls. induction rs as [|r rs IH]; intros calls H.
  - cbn. unfold ret. now rewrite app_nil_r.
  - rewrite performance_resolutions_loop_cons.
    rewrite performance_presets_loop_miss
      by (intros; apply H; [now left | assumption]).
    rewrite IH by (intros; apply H; [now right | assumption]).
    change (scan (r :: rs) (rev presets))
      with (map (pair r) (rev presets) ++ scan rs (rev presets))%list.
    now rewrite <- app_assoc.
Qed.

Lemma performance_resolutions_loop_hit
    rpre r rpost qpre q qpost best_config calls p :
  rev presets = (qpre ++ q :: qpost)%list ->
  predict gpu_info game_name r q = Some p ->
  meets (r, q) = true ->
  (forall q', In q' qpost -> meets (r, q') = false) ->
  (forall r' q', In r' rpost -> In q' (rev presets) ->
                 meets (r', q') = false) ->
  performance_resolutions_loop gpu_info game_name target_fps
    (rpre ++ r :: rpost) best_config calls
  = Some (Some (make_config r q p),
          (calls ++ scan (rpre ++ r :: rpost) (rev presets))%list).
Proof.
  intros Hqs Hp Hq Hqpost Hrpost. revert best_config calls.
  induction rpre as [|r0 rpre IH]; intros best_config calls.
  - cbn [app]. rewrite performance_resolutions_loop_cons.
    assert (E : performance_presets_loop gpu_info game_name target_fps r
                  (rev presets) best_config calls
                = Some (Some (make_config r q p),
                        (calls ++ map (pair r) (rev presets))%list)).
    { rewrite Hqs. now apply performance_presets_loop_hit. }
    rewrite E, performance_resolutions_loop_miss by assumption.
    change (scan (r :: rpost) (rev presets))
      with (map (pair r) (rev presets) ++ scan rpost (rev presets))%list.
    now rewrite <- app_assoc.
  - cbn [app]. rewrite performance_resolutions_loop_cons.
    destruct (performance_presets_loop_total r0 (rev presets) best_config
                calls) as [b ->].
    rewrite IH.
    change (scan (r0 :: rpre ++ r :: rpost) (rev presets))
      with (map (pair r0) (rev presets)
            ++ scan (rpre ++ r :: rpost) (rev presets))%list.
    now rewrite <- app_assoc.
Qed.

(** *** The search never raises *)

Lemma quality_presets_loop_total res todo best_config calls :
  exists best_config' calls',
    quality_presets_loop gpu_info game_name target_fps res todo best_config
      calls
    = Some (best_config', calls').
Proof.
  revert calls. induction todo as [|q todo IH]; intros calls.
  - cbn. unfold ret. eauto.
  - rewrite quality_presets_loop_cons.
    destruct (call_predict_total res q calls) as (p & _ & ->).
    destruct (_ >=? _)%Z; eauto.
Qed.

Lemma quality_resolutions_loop_total rs best_config calls :
  exists best_config' calls',
    quality_resolutions_loop gpu_info game_name target_fps rs best_config
      calls
    = Some (best_config', calls').
Proof.
  revert best_config calls.
  induction rs as [|r rs IH]; intros best_config calls.
  - cbn. unfold ret. eauto.
  - rewrite quality_resolutions_loop_cons.
    destruct (quality_presets_loop_total r presets best_config calls)
      as (b & calls' & ->).
    destruct b; eauto.
Qed.

Lemma performance_resolutions_loop_total rs best_config calls :
  exists best_config' calls',
    performance_resolutions_loop gpu_info game_name target_fps rs
      best_config calls
    = Some (best_config', calls').
Proof.
  revert best_config calls.
  induction rs as [|r rs IH]; intros best_config calls.
  - cbn. unfold ret. eauto.
  - rewrite performance_resolutions_loop_cons.
    destruct (performance_presets_loop_total r (rev presets) best_config
                calls) as (b & ->).
    eauto.
Qed.

Lemma find_optimal_settings_total prefer_quality :
  exists best_config,
    find_optimal_settings gpu_info game_name target_fps prefer_quality
    = Some best_config.
Proof.
  unfold find_optimal_settings, find_optimal_settings_traced, bind.
  assert (H : exists b calls,
             (if prefer_quality
              then quality_resolutions_loop gpu_info game_name target_fps
                     resolutions None
              else performance_resolutions_loop gpu_info game_name target_fps
                     (rev resolutions) None) [] = Some (b, calls)).
  { destruct prefer_quality.
    - apply quality_resolutions_loop_total.
    - apply performance_resolutions_loop_total. }
  destruct H as (b & calls & ->).
  destruct b as [c|].
  - cbn. eauto.
  - destruct (call_predict_total "1280x720" "low" calls) as (p & _ & ->).
    cbn. eauto.
Qed.

End SearchProperties.

(** The two scans run over the loops of the source. *)
Lemma quality_scan_loops : quality_scan = scan resolutions presets.
Proof. reflexivity. Qed.

Lemma performance_scan_loops :
  performance_scan = scan (rev resolutions) (rev presets).
Proof. reflexivity. Qed.

(** C4: with [prefer_quality = True], the result is the first combination,
    scanning resolutions 4K, 1440p, 1080p, 720p and within each the
    qualities ultra, high, medium, low, whose prediction has
    fps_average >= target_fps, and no combination after it is evaluated:
    the calls of [predict] are exactly the scan up to and including it. *)
Theorem find_optimal_settings_quality_first_hit :
  forall (gpu_info : GPUInfo.t) (game_name : string) (target_fps : Z)
         (before after : list PredictCall) (res preset : string),
    quality_scan = (before ++ (res, preset) :: after)%list ->
    (forall c, In c before ->
               meets_target gpu_info game_name target_fps c = false) ->
    meets_target gpu_info game_name target_fps (res, preset) = true ->
    exists prediction,
      predict gpu_info game_name res preset = Some prediction
      /\ find_optimal_settings gpu_info game_name target_fps true
         = Some {| Config.resolution := res;
                   Config.quality_preset := preset;
                   Config.prediction := prediction;
                   Config.warning := None |}
      /\ find_optimal_settings_calls gpu_info game_name target_fps true
         = Some (before ++ [(res, preset)])%list.
Proof.
  intros gpu_info game_name target_fps before after res preset Hscan Hmiss Hhit.
  rewrite quality_scan_loops in Hscan.
  apply scan_split in Hscan
    as (rpre & rpost & qpre & qpost & Hrs & Hqs & -> & _).
  destruct (predict_total gpu_info game_name res preset) as [p Hp].
  exists p. split; [exact Hp|].
  assert (E : quality_resolutions_loop gpu_info game_name target_fps
                resolutions None []
              = Some (Some (make_config res preset p),
                      ([] ++ (scan rpre presets ++ map (pair res) qpre)
                          ++ [(res, preset)])%list)).
  { rewrite Hrs.
    apply quality_resolutions_loop_hit with (qpost := qpost); trivial.
    - intros r' q' Hr' Hq'. apply Hmiss, in_or_app. left.
      now apply in_scan.
    - intros q' Hq'. apply Hmiss, in_or_app. right.
      now apply in_map. }
  unfold find_optimal_settings, find_optimal_settings_calls,
    find_optimal_settings_traced, bind.
  rewrite E. split; reflexivity.
Qed.


(** C6: in either mode, if no combination of the grid has
    fps_average >= target_fps, the result is resolution "1280x720" and
    quality "low" with their prediction and a non-empty warning; the call
    returns a result, it does not raise. *)
Theorem find_optimal_settings_unattainable :
  forall (gpu_info : GPUInfo.t) (game_name : string) (target_fps : Z)
         (prefer_quality : bool),
    (forall res preset, In res resolutions -> In preset presets ->
       meets_target gpu_info game_name target_fps (res, preset) = false) ->
    exists prediction warning,
      predict gpu_info game_name "1280x720" "low" = Some prediction
      /\ find_optimal_settings gpu_info game_name target_fps prefer_quality
         = Some {| Config.resolution := "1280x720";
                   Config.quality_preset := "low";
                   Config.prediction := prediction;
                   Config.warning := Some warning |}
      /\ warning <> "".
Proof.
  intros gpu_info game_name target_fps prefer_quality Hmiss.
  destruct (predict_total gpu_info game_name "1280x720" "low") as [p Hp].
  exists p, ("Cannot achieve " ++ Py.str_of_int target_fps
             ++ " FPS even at lowest settings").
  split; [exact Hp|]. split; [|discriminate].
  unfold find_optimal_settings, find_optimal_settings_traced, bind.
  destruct prefer_quality.
  - rewrite quality_resolutions_loop_miss by assumption.
    unfold call_predict. rewrite Hp. reflexivity.
  - rewrite performance_resolutions_loop_miss
      by (intros r q Hr Hq; apply Hmiss; now apply in_rev).
    unfold call_predict. rewrite Hp. reflexivity.
Qed.

(** *** The theorems at concrete inputs *)

(** An RTX 3070 in Fortnite at 60 FPS, quality first: 4K ultra (35) and
    4K high (50) miss, 4K medium (70) is taken, and nothing else is
    evaluated. *)
Lemma find_optimal_settings_quality_first_hit_witness :
  exists prediction,
    predict rtx_3070 "Fortnite" "3840x2160" "medium" = Some prediction
    /\ find_optimal_settings rtx_3070 "Fortnite" 60 true
       = Some {| Config.resolution := "3840x2160";
                 Config.quality_preset := "medium";
                 Config.prediction := prediction;
                 Config.warning := None |}
    /\ find_optimal_settings_calls rtx_3070 "Fortnite" 60 true
       = Some ([ ("3840x2160", "ultra"); ("3840x2160", "high") ]
               ++ [ ("3840x2160", "medium") ])%list.
Proof.
  apply (find_optimal_settings_quality_first_hit rtx_3070 "Fortnite" 60
           [ ("3840x2160", "ultra"); ("3840x2160", "high") ]
           (skipn 3 quality_scan)).
  - reflexivity.
  - intros c [<-|[<-|[]]]; vm_compute; reflexivity.
  - vm_compute; reflexivity.
Defined.


(** A GTX 1060 in Cyberpunk 2077 cannot reach 240 FPS: its best
    combination, 720p low, gives 83. *)
Lemma find_optimal_settings_unattainable_witness :
  exists prediction warning,
    predict gtx_1060 "Cyberpunk 2077" "1280x720" "low" = Some prediction
    /\ find_optimal_settings gtx_1060 "Cyberpunk 2077" 240 true
       = Some {| Config.resolution := "1280x720";
                 Config.quality_preset := "low";
                 Config.prediction := prediction;
                 Config.warning := Some warning |}
    /\ warning <> "".
Proof.
  apply (find_optimal_settings_unattainable gtx_1060 "Cyberpunk 2077" 240 true).
  intros res preset Hres Hpreset.
  cbv [resolutions presets In] in Hres, Hpreset.
  destruct Hres as [<-|[<-|[<-|[<-|[]]]]];
    destruct Hpreset as [<-|[<-|[<-|[<-|[]]]]];
    vm_compute; reflexivity.
Defined.


(** ** The checks of the repository's test suite, on the model *)

Example test_get_gpu_performance_index_exact :
  _get_gpu_performance_index "NVIDIA GeForce RTX 3070" = 1.20.
Proof. vm_compute. reflexivity. Qed.

Example test_get_gpu_performance_index_unknown :
  _get_gpu_performance_index "Unknown GPU XYZ" = 0.50.
Proof. vm_compute. reflexivity. Qed.

Example test_predict_basic :
  option_map
    (fun p => (FPSPrediction.fps_1_percent_low p, FPSPrediction.fps_min p,
               FPSPrediction.fps_average p, FPSPrediction.fps_max p))
    (predict rtx_3070 "Cyberpunk 2077" "1920x1080" "high")
  = Some (39, 49, 66, 75)%Z.
Proof. vm_compute. reflexivity. Qed.

Example test_predict_confidence_levels :
  option_map FPSPrediction.confidence
    (predict rtx_3070 "Cyberpunk 2077" "1920x1080" "high") = Some "high"
  /\ option_map FPSPrediction.confidence
       (predict rtx_3070 "Unknown Game 2099" "1920x1080" "high")
     = Some "medium"
  /\ option_map FPSPrediction.confidence
       (predict (GPUInfo.mk "Unknown Card 9000" 0 "Unknown")
          "Unknown Title 2099" "1920x1080" "high")
     = Some "low".
Proof. repeat split; vm_compute; reflexivity. Qed.

Example test_compare_gpus_4090_faster :
  option_map
    (fun r => (Comparison.gpu1_fps r, Comparison.gpu2_fps r,
               Comparison.faster_gpu r))
    (compare_gpus rtx_3070 "RTX 4090" "Cyberpunk 2077" "1920x1080" "high")
  = Some (66%Z, 154%Z, "RTX 4090").
Proof. vm_compute. reflexivity. Qed.

Example test_vram_warning_in_notes :
  option_map FPSPrediction.notes
    (predict (GPUInfo.mk "GTX 1650" 4096 "Unknown") "Alan Wake 2"
       "1920x1080" "high")
  = Some [ "VRAM (4096MB) is below recommended (16384MB). May experience stuttering.";
           "FSR available - can boost FPS by 20-40%" ].
Proof. vm_compute. reflexivity. Qed.

(** * Further properties *)

(** ** Sweeps *)

Lemma resolution_ordered_all :
  forallb (fun b =>
    forallb (fun g => forallb (resolution_ordered b g) quality_values)
            gpu_values)
  base_values = true.
Proof. vm_cast_no_check (eq_refl true). Qed.

Lemma resolution_ordered_inputs gpu_name game_name quality_preset :
  resolution_ordered (_get_game_base_fps game_name)
                     (_get_gpu_performance_index gpu_name)
                     (_get_quality_multiplier quality_preset) = true.
Proof.
  pose proof resolution_ordered_all as H.
  rewrite forallb_forall in H.
  specialize (H _ (game_base_fps_In game_name)).
  rewrite forallb_forall in H.
  specialize (H _ (gpu_index_loop_In GPU_PERFORMANCE_INDEX (Py.upper gpu_name))).
  rewrite forallb_forall in H.
  exact (H _ (get_default_In QUALITY_MULTIPLIERS (Py.lower quality_preset) 1.0)).
Qed.

(** [predict_all_resolutions] returns the predictions of 1080p, 1440p and
    4K in that order, and their average frame rates strictly decrease, for
    every processor, game and quality string. *)
Theorem predict_all_resolutions_strictly_decreasing :
  forall (gpu_info : GPUInfo.t) (game_name quality_preset : string),
  exists p1 p2 p3,
    predict_all_resolutions gpu_info game_name quality_preset
    = Some [ ("1920x1080", p1); ("2560x1440", p2); ("3840x2160", p3) ]
    /\ predict gpu_info game_name "1920x1080" quality_preset = Some p1
    /\ predict gpu_info game_name "2560x1440" quality_preset = Some p2
    /\ predict gpu_info game_name "3840x2160" quality_preset = Some p3
    /\ (FPSPrediction.fps_average p1 > FPSPrediction.fps_average p2)%Z
    /\ (FPSPrediction.fps_average p2 > FPSPrediction.fps_average p3)%Z.
Proof.
  intros gpu_info game_name quality_preset.
  destruct (predict_bands gpu_info game_name "1920x1080" quality_preset)
    as (p1 & H1 & [A1 _ _ _ _ _ _ _ _ _]).
  destruct (predict_bands gpu_info game_name "2560x1440" quality_preset)
    as (p2 & H2 & [A2 _ _ _ _ _ _ _ _ _]).
  destruct (predict_bands gpu_info game_name "3840x2160" quality_preset)
    as (p3 & H3 & [A3 _ _ _ _ _ _ _ _ _]).
  exists p1, p2, p3.
  split. { unfold predict_all_resolutions. cbn. now rewrite H1, H2, H3. }
  repeat (split; [assumption|]).
  pose proof (resolution_ordered_inputs (GPUInfo.name gpu_info) game_name
                quality_preset) as H.
  unfold resolution_ordered in H. unfold predicted_fps in A1, A2, A3.
  change (_get_resolution_multiplier "1920x1080") with 1.00 in A1.
  change (_get_resolution_multiplier "2560x1440") with 0.65 in A2.
  change (_get_resolution_multiplier "3840x2160") with 0.35 in A3.
  rewrite A1, A2, A3 in H.
  rewrite !andb_true_iff, !Z.ltb_lt in H. lia.
Qed.

(** [predict_all_presets] returns the predictions of low, medium, high and
    ultra in that order, and their average frame rates strictly decrease,
    for every processor, game and resolution string. *)
Theorem predict_all_presets_strictly_decreasing :
  forall (gpu_info : GPUInfo.t) (game_name resolution : string),
  exists p_low p_medium p_high p_ultra,
    predict_all_presets gpu_info game_name resolution
    = Some [ ("low", p_low); ("medium", p_medium); ("high", p_high);
             ("ultra", p_ultra) ]
    /\ predict gpu_info game_name resolution "low" = Some p_low
    /\ predict gpu_info game_name resolution "medium" = Some p_medium
    /\ predict gpu_info game_name resolution "high" = Some p_high
    /\ predict gpu_info game_name resolution "ultra" = Some p_ultra
    /\ (FPSPrediction.fps_average p_low > FPSPrediction.fps_average p_medium)%Z
    /\ (FPSPrediction.fps_average p_medium > FPSPrediction.fps_average p_high)%Z
    /\ (FPSPrediction.fps_average p_high > FPSPrediction.fps_average p_ultra)%Z.
Proof.
  intros gpu_info game_name resolution.
  destruct (predict_bands gpu_info game_name resolution "low")
    as (pl & Hl & [Al _ _ _ _ _ _ _ _ _]).
  destruct (predict_bands gpu_info game_name resolution "medium")
    as (pm & Hm & [Am _ _ _ _ _ _ _ _ _]).
  destruct (predict_bands gpu_info game_name resolution "high")
    as (ph & Hh & [Ah _ _ _ _ _ _ _ _ _]).
  destruct (predict_bands gpu_info game_name resolution "ultra")
    as (pu & Hu & [Au _ _ _ _ _ _ _ _ _]).
  exists pl, pm, ph, pu.
  split. { unfold predict_all_presets. cbn. now rewrite Hl, Hm, Hh, Hu. }
  repeat (split; [assumption|]).
  pose proof (quality_ordered_inputs (GPUInfo.name gpu_info) game_name
                resolution) as H.
  unfold quality_ordered in H. unfold predicted_fps in Al, Am, Ah, Au.
  change (_get_quality_multiplier "low") with 2.00 in Al.
  change (_get_quality_multiplier "medium") with 1.40 in Am.
  change (_get_quality_multiplier "high") with 1.00 in Ah.
  change (_get_quality_multiplier "ultra") with 0.70 in Au.
  rewrite Al, Am, Ah, Au in H.
  rewrite !andb_true_iff, !Z.ltb_lt in H. lia.
Qed.

(** ** Monotonicity by processor tier *)

Lemma tier_monotone_all :
  forallb (fun b =>
    forallb (fun r => forallb (tier_monotone b r) quality_values) res_values)
  base_values = true.
Proof. vm_cast_no_check (eq_refl true). Qed.

Lemma tier_monotone_pair b r q g1 g2 a1 a2 :
  tier_monotone b r q = true ->
  In g1 gpu_values -> In g2 gpu_values ->
  PrimFloat.leb g1 g2 = true ->
  Py.int (raw_fps b g1 r q) = Some a1 ->
  Py.int (raw_fps b g2 r q) = Some a2 ->
  (a1 <= a2)%Z.
Proof.
  unfold tier_monotone. intros H Hg1 Hg2 Hle E1 E2.
  set (fps := map (fun g => (g, Py.int (raw_fps b g r q))) gpu_values) in H.
  assert (In1 : In (g1, Py.int (raw_fps b g1 r q)) fps)
    by (apply (in_map (fun g => (g, Py.int (raw_fps b g r q)))); exact Hg1).
  assert (In2 : In (g2, Py.int (raw_fps b g2 r q)) fps)
    by (apply (in_map (fun g => (g, Py.int (raw_fps b g r q)))); exact Hg2).
  rewrite forallb_forall in H. specialize (H _ In1). cbv beta iota in H.
  rewrite forallb_forall in H. specialize (H _ In2). cbv beta iota in H.
  rewrite Hle, E1, E2 in H. apply Z.leb_le. exact H.
Qed.

(** A processor whose performance index is not larger never gets a larger
    average frame rate, for the same game, resolution and quality. *)
Theorem predict_monotone_in_gpu_index :
  forall (gpu1 gpu2 : GPUInfo.t) (game_name resolution quality_preset : string),
    PrimFloat.leb (_get_gpu_performance_index (GPUInfo.name gpu1))
                  (_get_gpu_performance_index (GPUInfo.name gpu2)) = true ->
    exists p1 p2,
      predict gpu1 game_name resolution quality_preset = Some p1
      /\ predict gpu2 game_name resolution quality_preset = Some p2
      /\ (FPSPrediction.fps_average p1 <= FPSPrediction.fps_average p2)%Z.
Proof.
  intros gpu1 gpu2 game_name resolution quality_preset Hle.
  destruct (predict_bands gpu1 game_name resolution quality_preset)
    as (p1 & H1 & [A1 _ _ _ _ _ _ _ _ _]).
  destruct (predict_bands gpu2 game_name resolution quality_preset)
    as (p2 & H2 & [A2 _ _ _ _ _ _ _ _ _]).
  exists p1, p2. repeat (split; [assumption|]).
  pose proof tier_monotone_all as H.
  rewrite forallb_forall in H.
  specialize (H _ (game_base_fps_In game_name)).
  rewrite forallb_forall in H.
  specialize (H _ (get_default_In RESOLUTION_MULTIPLIERS resolution 1.0)).
  rewrite forallb_forall in H.
  specialize (H _ (get_default_In QUALITY_MULTIPLIERS
                     (Py.lower quality_preset) 1.0)).
  eapply tier_monotone_pair; [exact H| | |exact Hle|exact A1|exact A2];
    apply gpu_index_loop_In.
Qed.

Lemma predict_monotone_in_gpu_index_witness :
  exists p1 p2,
    predict gtx_1060 "Cyberpunk 2077" "1920x1080" "high" = Some p1
    /\ predict rtx_3070 "Cyberpunk 2077" "1920x1080" "high" = Some p2
    /\ (FPSPrediction.fps_average p1 <= FPSPrediction.fps_average p2)%Z.
Proof.
  apply (predict_monotone_in_gpu_index gtx_1060 rtx_3070).
  vm_compute. reflexivity.
Defined.

(** ** The search, in both modes *)

Lemma find_first {A : Type} (f : A -> bool) (l : list A) :
  (forall x, In x l -> f x = false)
  \/ exists l1 x l2,
       l = (l1 ++ x :: l2)%list /\ f x = true
       /\ forall y, In y l1 -> f y = false.
Proof.
  induction l as [|a l IH].
  - left. intros x [].
  - destruct (f a) eqn:Ea.
    + right. exists [], a, l. repeat split; trivial. intros y [].
    + destruct IH as [IH|(l1 & x & l2 & -> & Hx & Hl1)].
      * left. intros x [<-|Hx]; auto.
      * right. exists (a :: l1), x, l2. repeat split; trivial.
        intros y [<-|Hy]; auto.
Qed.

Lemma performance_scan_rev : performance_scan = rev quality_scan.
Proof. reflexivity. Qed.

Lemma meets_target_predict gpu_info game_name target_fps res preset p :
  predict gpu_info game_name res preset = Some p ->
  meets_target gpu_info game_name target_fps (res, preset)
  = (FPSPrediction.fps_average p >=? target_fps)%Z.
Proof. intros H. unfold meets_target. cbn [fst snd]. now rewrite H. Qed.

(** The run of the search when [l1 ++ (res, preset) :: l2] is the scan of
    the quality mode and [(res, preset)] is its first hit. *)
Lemma search_first_hit gpu_info game_name target_fps prefer_quality
    l1 res preset l2 p :
  quality_scan = (l1 ++ (res, preset) :: l2)%list ->
  (forall c, In c l1 -> meets_target gpu_info game_name target_fps c = false) ->
  predict gpu_info game_name res preset = Some p ->
  meets_target gpu_info game_name target_fps (res, preset) = true ->
  find_optimal_settings_traced gpu_info game_name target_fps prefer_quality []
  = Some (make_config res preset p,
          if prefer_quality then (l1 ++ [(res, preset)])%list
          else performance_scan).
Proof.
  intros Hscan Hmiss Hp Hhit.
  unfold find_optimal_settings_traced, bind.
  destruct prefer_quality.
  - rewrite quality_scan_loops in Hscan.
    apply scan_split in Hscan
      as (rpre & rpost & qpre & qpost & Hrs & Hqs & -> & _).
    assert (E : quality_resolutions_loop gpu_info game_name target_fps
                  resolutions None []
                = Some (Some (make_config res preset p),
                        ([] ++ (scan rpre presets ++ map (pair res) qpre)
                            ++ [(res, preset)])%list)).
    { rewrite Hrs.
      apply quality_resolutions_loop_hit with (qpost := qpost); trivial.
      - intros r' q' Hr' Hq'. apply Hmiss, in_or_app. left.
        now apply in_scan.
      - intros q' Hq'. apply Hmiss, in_or_app. right. now apply in_map. }
    rewrite E. reflexivity.
  - assert (Hperf : performance_scan
                    = (rev l2 ++ (res, preset) :: rev l1)%list).
    { rewrite performance_scan_rev, Hscan, rev_app_distr. cbn [rev].
      now rewrite <- app_assoc. }
    pose proof Hperf as Hsplit.
    rewrite performance_scan_loops in Hsplit.
    apply scan_split in Hsplit
      as (rpre & rpost & qpre & qpost & Hrs & Hqs & _ & Hafter).
    assert (E : performance_resolutions_loop gpu_info game_name target_fps
                  (rev resolutions) None []
                = Some (Some (make_config res preset p),
                        ([] ++ scan (rev resolutions) (rev presets))%list)).
    { rewrite Hrs at 1. rewrite Hrs at 1.
      apply performance_resolutions_loop_hit
        with (qpre := qpre) (qpost := qpost); trivial.
      - intros q' Hq'. apply Hmiss, in_rev. rewrite Hafter.
        apply in_or_app. left. now apply in_map.
      - intros r' q' Hr' Hq'. apply Hmiss, in_rev. rewrite Hafter.
        apply in_or_app. right. now apply in_scan. }
    rewrite E. reflexivity.
Qed.

(** The run of the search when no combination reaches the target. *)
Lemma search_no_hit gpu_info game_name target_fps prefer_quality :
  (forall c, In c quality_scan ->
             meets_target gpu_info game_name target_fps c = false) ->
  exists p,
    predict gpu_info game_name "1280x720" "low" = Some p
    /\ find_optimal_settings_traced gpu_info game_name target_fps
         prefer_quality []
       = Some ({| Config.resolution := "1280x720";
                  Config.quality_preset := "low";
                  Config.prediction := p;
                  Config.warning :=
                    Some ("Cannot achieve " ++ Py.str_of_int target_fps
                          ++ " FPS even at lowest settings") |},
               ((if prefer_quality then quality_scan else performance_scan)
                ++ [("1280x720", "low")])%list).
Proof.
  intros Hmiss.
  assert (Hgrid : forall r q, In r resolutions -> In q presets ->
            meets_target gpu_info game_name target_fps (r, q) = false).
  { intros r q Hr Hq. apply Hmiss. rewrite quality_scan_loops.
    now apply in_scan. }
  destruct (predict_total gpu_info game_name "1280x720" "low") as [p Hp].
  exists p. split; [exact Hp|].
  unfold find_optimal_settings_traced, bind.
  destruct prefer_quality.
  - rewrite quality_resolutions_loop_miss by assumption.
    unfold call_predict. rewrite Hp. reflexivity.
  - rewrite performance_resolutions_loop_miss
      by (intros r q Hr Hq; apply Hgrid; now apply in_rev).
    unfold call_predict. rewrite Hp. reflexivity.
Qed.

(** The preference does not change the result: [find_optimal_settings]
    returns the same configuration, prediction and warning with
    [prefer_quality = True] and with [prefer_quality = False], for every
    processor, game and target. *)
Theorem find_optimal_settings_mode_independent :
  forall (gpu_info : GPUInfo.t) (game_name : string) (target_fps : Z),
    find_optimal_settings gpu_info game_name target_fps true
    = find_optimal_settings gpu_info game_name target_fps false.
Proof.
  intros gpu_info game_name target_fps.
  unfold find_optimal_settings.
  destruct (find_first (meets_target gpu_info game_name target_fps)
              quality_scan)
    as [Hmiss|(l1 & [res preset] & l2 & Hscan & Hhit & Hmiss)].
  - destruct (search_no_hit gpu_info game_name target_fps true Hmiss)
      as (p & Hp & ->).
    destruct (search_no_hit gpu_info game_name target_fps false Hmiss)
      as (p' & Hp' & ->).
    congruence.
  - destruct (predict_total gpu_info game_name res preset) as [p Hp].
    rewrite (search_first_hit _ _ _ true _ _ _ _ _ Hscan Hmiss Hp Hhit).
    rewrite (search_first_hit _ _ _ false _ _ _ _ _ Hscan Hmiss Hp Hhit).
    reflexivity.
Qed.

(** The quality mode never calls [predict] more often than the
    performance mode, which returns the same result: the performance mode
    makes 16 calls, or 17 with the fallback, and the quality mode stops at
    its first hit. *)
Theorem find_optimal_settings_call_counts :
  forall (gpu_info : GPUInfo.t) (game_name : string) (target_fps : Z),
  exists calls_quality calls_performance,
    find_optimal_settings_calls gpu_info game_name target_fps true
    = Some calls_quality
    /\ find_optimal_settings_calls gpu_info game_name target_fps false
       = Some calls_performance
    /\ (1 <= List.length calls_quality <= List.length calls_performance)%nat
    /\ (16 <= List.length calls_performance <= 17)%nat.
Proof.
  intros gpu_info game_name target_fps.
  unfold find_optimal_settings_calls.
  destruct (find_first (meets_target gpu_info game_name target_fps)
              quality_scan)
    as [Hmiss|(l1 & [res preset] & l2 & Hscan & Hhit & Hmiss)].
  - destruct (search_no_hit gpu_info game_name target_fps true Hmiss)
      as (p & Hp & ->).
    destruct (search_no_hit gpu_info game_name target_fps false Hmiss)
      as (p' & Hp' & ->).
    eexists. eexists. split; [reflexivity|]. split; [reflexivity|].
    cbn. lia.
  - destruct (predict_total gpu_info game_name res preset) as [p Hp].
    rewrite (search_first_hit _ _ _ true _ _ _ _ _ Hscan Hmiss Hp Hhit).
    rewrite (search_first_hit _ _ _ false _ _ _ _ _ Hscan Hmiss Hp Hhit).
    eexists. eexists. split; [reflexivity|]. split; [reflexivity|].
    apply (f_equal (@List.length _)) in Hscan.
    rewrite length_app in Hscan. cbn in Hscan.
    rewrite length_app. cbn. lia.
Qed.

(** What [find_optimal_settings] returns, in either mode: a combination
    of the grid with its own prediction; without a warning the prediction
    reaches the target, and with a warning the combination is 720p low and
    no combination of the grid reaches the target. *)
Theorem find_optimal_settings_sound :
  forall (gpu_info : GPUInfo.t) (game_name : string) (target_fps : Z)
         (prefer_quality : bool),
  exists c,
    find_optimal_settings gpu_info game_name target_fps prefer_quality = Some c
    /\ In (Config.resolution c) resolutions
    /\ In (Config.quality_preset c) presets
    /\ predict gpu_info game_name (Config.resolution c)
         (Config.quality_preset c) = Some (Config.prediction c)
    /\ match Config.warning c with
       | None =>
           (FPSPrediction.fps_average (Config.prediction c) >= target_fps)%Z
       | Some _ =>
           Config.resolution c = "1280x720"
           /\ Config.quality_preset c = "low"
           /\ forall res preset, In res resolutions -> In preset presets ->
                meets_target gpu_info game_name target_fps (res, preset)
                = false
       end.
Proof.
  intros gpu_info game_name target_fps prefer_quality.
  unfold find_optimal_settings.
  destruct (find_first (meets_target gpu_info game_name target_fps)
              quality_scan)
    as [Hmiss|(l1 & [res preset] & l2 & Hscan & Hhit & Hmiss)].
  - destruct (search_no_hit gpu_info game_name target_fps prefer_quality
                Hmiss) as (p & Hp & ->).
    eexists. split; [reflexivity|]. cbn.
    split; [tauto|]. split; [tauto|]. split; [exact Hp|].
    repeat split. intros r q Hr Hq. apply Hmiss.
    rewrite quality_scan_loops. now apply in_scan.
  - destruct (predict_total gpu_info game_name res preset) as [p Hp].
    rewrite (search_first_hit _ _ _ prefer_quality _ _ _ _ _ Hscan Hmiss Hp
               Hhit).
    eexists. split; [reflexivity|]. cbn.
    assert (Hin : In (res, preset) (scan resolutions presets)).
    { rewrite <- quality_scan_loops, Hscan. apply in_or_app. right.
      now left. }
    apply in_flat_map in Hin as (r & Hr & Hin).
    apply in_map_iff in Hin as (q & [= <- <-] & Hq).
    repeat (split; [assumption|]).
    rewrite (meets_target_predict _ _ _ _ _ _ Hp) in Hhit.
    apply Z.geb_le in Hhit. lia.
Qed.

(** A target of at most 1 FPS is met by the highest combination: the
    result is 4K ultra without a warning, in either mode. *)
Theorem find_optimal_settings_trivial_target :
  forall (gpu_info : GPUInfo.t) (game_name : string) (target_fps : Z)
         (prefer_quality : bool),
    (target_fps <= 1)%Z ->
    exists p,
      predict gpu_info game_name "3840x2160" "ultra" = Some p
      /\ find_optimal_settings gpu_info game_name target_fps prefer_quality
         = Some {| Config.resolution := "3840x2160";
                   Config.quality_preset := "ultra";
                   Config.prediction := p;
                   Config.warning := None |}.
Proof.
  intros gpu_info game_name target_fps prefer_quality Htarget.
  destruct (predict_bands gpu_info game_name "3840x2160" "ultra")
    as (p & Hp & B).
  exists p. split; [exact Hp|].
  unfold find_optimal_settings.
  rewrite (search_first_hit gpu_info game_name target_fps prefer_quality
             [] "3840x2160" "ultra" (skipn 1 quality_scan) p).
  - reflexivity.
  - reflexivity.
  - intros c [].
  - exact Hp.
  - rewrite (meets_target_predict _ _ _ _ _ _ Hp).
    apply Z.geb_le. pose proof (band_bounds _ _ _ _ _ B). lia.
Qed.

Lemma find_optimal_settings_trivial_target_witness :
  exists p,
    predict gtx_1060 "Cyberpunk 2077" "3840x2160" "ultra" = Some p
    /\ find_optimal_settings gtx_1060 "Cyberpunk 2077" 0 false
       = Some {| Config.resolution := "3840x2160";
                 Config.quality_preset := "ultra";
                 Config.prediction := p;
                 Config.warning := None |}.
Proof.
  apply (find_optimal_settings_trivial_target gtx_1060 "Cyberpunk 2077" 0 false).
  lia.
Defined.

(** A target above 2520 FPS is out of reach of every processor in every
    game: the result is 720p low with a warning, in either mode. *)
Theorem find_optimal_settings_impossible_target :
  forall (gpu_info : GPUInfo.t) (game_name : string) (target_fps : Z)
         (prefer_quality : bool),
    (2520 < target_fps)%Z ->
    exists p,
      predict gpu_info game_name "1280x720" "low" = Some p
      /\ find_optimal_settings gpu_info game_name target_fps prefer_quality
         = Some {| Config.resolution := "1280x720";
                   Config.quality_preset := "low";
                   Config.prediction := p;
                   Config.warning :=
                     Some ("Cannot achieve " ++ Py.str_of_int target_fps
                           ++ " FPS even at lowest settings") |}.
Proof.
  intros gpu_info game_name target_fps prefer_quality Htarget.
  destruct (search_no_hit gpu_info game_name target_fps prefer_quality)
    as (p & Hp & E).
  - intros [res preset] _.
    destruct (predict_bands gpu_info game_name res preset) as (q & Hq & B).
    rewrite (meets_target_predict _ _ _ _ _ _ Hq).
    pose proof (band_bounds _ _ _ _ _ B).
    destruct (Z.geb_spec (FPSPrediction.fps_average q) target_fps); [lia|].
    reflexivity.
  - exists p. split; [exact Hp|].
    unfold find_optimal_settings. rewrite E. reflexivity.
Qed.

Lemma find_optimal_settings_impossible_target_witness :
  exists p,
    predict rtx_3070 "Valorant" "1280x720" "low" = Some p
    /\ find_optimal_settings rtx_3070 "Valorant" 2521 true
       = Some {| Config.resolution := "1280x720";
                 Config.quality_preset := "low";
                 Config.prediction := p;
                 Config.warning :=
                   Some ("Cannot achieve " ++ Py.str_of_int 2521
                         ++ " FPS even at lowest settings") |}.
Proof.
  apply (find_optimal_settings_impossible_target rtx_3070 "Valorant" 2521 true).
  lia.
Defined.

(** ** Bounds of the prediction *)

(** The average frame rate of every prediction lies between 1 and 2520,
    so no prediction is 0 FPS and the zero guard of [compare_gpus] is never
    taken. *)
Theorem predict_fps_average_range :
  forall (gpu_info : GPUInfo.t) (game_name resolution quality_preset : string),
  exists p,
    predict gpu_info game_name resolution quality_preset = Some p
    /\ (1 <= FPSPrediction.fps_average p <= 2520)%Z
    /\ (1 <= FPSPrediction.fps_max p)%Z.
Proof.
  intros gpu_info game_name resolution quality_preset.
  destruct (predict_bands gpu_info game_name resolution quality_preset)
    as (p & Hp & B).
  exists p. split; [exact Hp|].
  pose proof (band_bounds _ _ _ _ _ B).
  pose proof (band_order _ _ _ _ _ B). lia.
Qed.

(** ** Comparison, continued *)

(** Swapping the two processors negates the difference: comparing [gpu1]
    with the name of [gpu2] and [gpu2] with the name of [gpu1] gives
    exchanged frame rates and opposite differences. *)
Theorem compare_gpus_antisymmetric :
  forall (gpu1 gpu2 : GPUInfo.t) (game_name resolution quality_preset : string),
  exists r12 r21,
    compare_gpus gpu1 (GPUInfo.name gpu2) game_name resolution quality_preset
    = Some r12
    /\ compare_gpus gpu2 (GPUInfo.name gpu1) game_name resolution
         quality_preset = Some r21
    /\ Comparison.gpu1_fps r21 = Comparison.gpu2_fps r12
    /\ Comparison.gpu2_fps r21 = Comparison.gpu1_fps r12
    /\ Comparison.fps_difference r21 = (- Comparison.fps_difference r12)%Z.
Proof.
  intros gpu1 gpu2 game_name resolution quality_preset.
  destruct (compare_gpus_result gpu1 (GPUInfo.name gpu2) game_name resolution
              quality_preset) as (p1 & a2 & Hp1 & Ha2 & _ & E12).
  destruct (compare_gpus_result gpu2 (GPUInfo.name gpu1) game_name resolution
              quality_preset) as (p2 & a1 & Hp2 & Ha1 & _ & E21).
  destruct (predict_bands gpu1 game_name resolution quality_preset)
    as (p1' & Hp1' & B1).
  destruct (predict_bands gpu2 game_name resolution quality_preset)
    as (p2' & Hp2' & B2).
  rewrite Hp1 in Hp1'. injection Hp1' as <-.
  rewrite Hp2 in Hp2'. injection Hp2' as <-.
  pose proof (band_average _ _ _ _ _ B1) as A1.
  pose proof (band_average _ _ _ _ _ B2) as A2.
  rewrite Ha1 in A1. injection A1 as ->.
  rewrite Ha2 in A2. injection A2 as ->.
  eexists. eexists. split; [exact E12|]. split; [exact E21|].
  cbn. repeat split. lia.
Qed.

Lemma zero_percentage_all : forallb zero_percentage (Z_range 1 2520) = true.
Proof. vm_cast_no_check (eq_refl true). Qed.

Lemma Z_range_In lo n z :
  (lo <= z < lo + Z.of_nat n)%Z -> In z (Z_range lo n).
Proof.
  intros H. unfold Z_range. apply in_map_iff.
  exists (Z.to_nat (z - lo)). split; [lia|]. apply in_seq. lia.
Qed.

(** A tie is a zero difference, a percentage of +0.0 and the first
    processor as the faster one: this is what [compare_gpus] returns
    whenever the second name resolves to the performance index of the
    first processor. *)
Theorem compare_gpus_tie :
  forall (gpu1_info : GPUInfo.t)
         (gpu2_name game_name resolution quality_preset : string),
    _get_gpu_performance_index gpu2_name
    = _get_gpu_performance_index (GPUInfo.name gpu1_info) ->
    exists r x,
      compare_gpus gpu1_info gpu2_name game_name resolution quality_preset
      = Some r
      /\ Comparison.gpu2_fps r = Comparison.gpu1_fps r
      /\ Comparison.fps_difference r = 0%Z
      /\ Comparison.percentage_difference r = Py.Float x
      /\ Prim2SF x = S754_zero false
      /\ Comparison.faster_gpu r = GPUInfo.name gpu1_info.
Proof.
  intros gpu1_info gpu2_name game_name resolution quality_preset Hindex.
  destruct (compare_gpus_result gpu1_info gpu2_name game_name resolution
              quality_preset) as (p1 & a2 & Hp1 & Ha2 & Hb & E).
  destruct (predict_bands gpu1_info game_name resolution quality_preset)
    as (p1' & Hp1' & B1).
  rewrite Hp1 in Hp1'. injection Hp1' as <-.
  pose proof (band_average _ _ _ _ _ B1) as A1.
  unfold predicted_fps in Ha2, A1. rewrite Hindex, A1 in Ha2.
  injection Ha2 as <-.
  rewrite Z.sub_diag in E.
  eexists.
  exists (Py.round1 (percentage_of 0 (FPSPrediction.fps_average p1))).
  split; [exact E|]. cbn [Comparison.gpu2_fps Comparison.gpu1_fps
    Comparison.fps_difference Comparison.percentage_difference
    Comparison.faster_gpu].
  repeat (split; [reflexivity|]). split; [|reflexivity].
  pose proof zero_percentage_all as H. rewrite forallb_forall in H.
  assert (Hin : In (FPSPrediction.fps_average p1) (Z_range 1 2520))
    by (apply Z_range_In; lia).
  specialize (H _ Hin). unfold zero_percentage in H.
  destruct (Prim2SF (Py.round1 (percentage_of 0 (FPSPrediction.fps_average p1))))
    as [[|]| | |]; try discriminate H.
  reflexivity.
Qed.

Lemma compare_gpus_tie_witness :
  exists r x,
    compare_gpus rtx_3070 "RTX 2080 Ti" "Cyberpunk 2077" "1920x1080" "high"
    = Some r
    /\ Comparison.gpu2_fps r = Comparison.gpu1_fps r
    /\ Comparison.fps_difference r = 0%Z
    /\ Comparison.percentage_difference r = Py.Float x
    /\ Prim2SF x = S754_zero false
    /\ Comparison.faster_gpu r = GPUInfo.name rtx_3070.
Proof.
  apply (compare_gpus_tie rtx_3070 "RTX 2080 Ti" "Cyberpunk 2077"
           "1920x1080" "high").
  vm_compute. reflexivity.
Defined.

(** ** Name resolution *)

Lemma upper_lower_ascii c :
  Py.upper_ascii (Py.lower_ascii c) = Py.upper_ascii c.
Proof. destruct c as [[] [] [] [] [] [] [] []]; reflexivity. Qed.

Lemma lower_upper_ascii c :
  Py.lower_ascii (Py.upper_ascii c) = Py.lower_ascii c.
Proof. destruct c as [[] [] [] [] [] [] [] []]; reflexivity. Qed.

Lemma upper_lower s : Py.upper (Py.lower s) = Py.upper s.
Proof.
  induction s as [|c s IH]; cbn; [reflexivity|].
  now rewrite upper_lower_ascii, IH.
Qed.

Lemma lower_upper s : Py.lower (Py.upper s) = Py.lower s.
Proof.
  induction s as [|c s IH]; cbn; [reflexivity|].
  now rewrite lower_upper_ascii, IH.
Qed.

Lemma same_lower_same_upper s1 s2 :
  Py.lower s1 = Py.lower s2 -> Py.upper s1 = Py.upper s2.
Proof. intros H. now rewrite <- (upper_lower s1), H, upper_lower. Qed.

(** Processor names that differ only in the case of their letters get the
    same performance index and the same specifications. *)
Theorem gpu_lookup_case_insensitive :
  forall gpu_name1 gpu_name2 : string,
    Py.lower gpu_name1 = Py.lower gpu_name2 ->
    _get_gpu_performance_index gpu_name1
    = _get_gpu_performance_index gpu_name2
    /\ GPUDetector._lookup_gpu_specs gpu_name1
       = GPUDetector._lookup_gpu_specs gpu_name2.
Proof.
  intros n1 n2 H. apply same_lower_same_upper in H.
  unfold _get_gpu_performance_index, GPUDetector._lookup_gpu_specs.
  now rewrite H.
Qed.

Lemma gpu_lookup_case_insensitive_witness :
  _get_gpu_performance_index "nvidia geforce rtx 3070"
  = _get_gpu_performance_index "NVIDIA GeForce RTX 3070"
  /\ GPUDetector._lookup_gpu_specs "nvidia geforce rtx 3070"
     = GPUDetector._lookup_gpu_specs "NVIDIA GeForce RTX 3070".
Proof.
  apply (gpu_lookup_case_insensitive "nvidia geforce rtx 3070"
           "NVIDIA GeForce RTX 3070").
  reflexivity.
Defined.

(** No model name of the performance table is shadowed by an earlier
    one: every model name, alone or behind the vendor prefix, resolves to
    its own multiplier (the longer "TI", "SUPER" names come first). *)
Theorem gpu_index_of_every_model :
  Forall (fun '(model, multiplier) =>
            _get_gpu_performance_index model = multiplier
            /\ _get_gpu_performance_index (vendor_name model) = multiplier)
         GPU_PERFORMANCE_INDEX.
Proof. repeat constructor; vm_compute; reflexivity. Qed.

Lemma find_key_get {V : Type} (f : string -> bool) (d : Py.dict V) :
  match find f (Py.keys d) with
  | Some k =>
      exists v, find (fun '(k', _) => f k') d = Some (k, v)
                /\ Py.get d k = Some v
  | None => find (fun '(k', _) => f k') d = None
  end.
Proof.
  unfold Py.keys.
  induction d as [|[k0 v0] d IH]; cbn; [reflexivity|].
  destruct (f k0) eqn:E0.
  - exists v0. split; [reflexivity|]. now rewrite String.eqb_refl.
  - destruct (find f (map fst d)) as [k|] eqn:Ek; [|exact IH].
    destruct IH as (v & Hf & Hg). exists v. split; [exact Hf|].
    destruct (String.eqb_spec k0 k) as [->|_]; [|exact Hg].
    apply find_some in Ek as [_ Ek]. congruence.
Qed.

Lemma gpu_index_loop_find items gpu_name_upper :
  gpu_index_loop items gpu_name_upper
  = match find (fun '(model, _) =>
                  Py.str_in (Py.upper model) gpu_name_upper) items with
    | Some (_, index) => index
    | None => 0.50
    end.
Proof.
  induction items as [|[m i] items IH]; cbn; [reflexivity|].
  destruct (Py.str_in (Py.upper m) gpu_name_upper); auto.
Qed.

Lemma lookup_loop_find items gpu_name_upper :
  GPUDetector.lookup_loop items gpu_name_upper
  = match find (fun '(model, _) =>
                  Py.str_in (Py.upper model) gpu_name_upper) items with
    | Some (_, specs) => Some specs
    | None => None
    end.
Proof.
  induction items as [|[m i] items IH]; cbn; [reflexivity|].
  destruct (Py.str_in (Py.upper m) gpu_name_upper); auto.
Qed.

Lemma specs_keys :
  Py.keys GPUDetector.GPU_SPECS_DATABASE = Py.keys GPU_PERFORMANCE_INDEX.
Proof. reflexivity. Qed.

(** The specifications database and the performance table list the same
    models in the same order, so a processor name resolves to the same
    model in both: with a matching model it gets that model's
    specifications and multiplier, without one it gets no specifications
    and the default 0.50. *)
Theorem gpu_specs_and_index_same_model :
  forall gpu_name : string,
    match first_matching_model (Py.keys GPU_PERFORMANCE_INDEX) gpu_name with
    | Some model =>
        exists specs,
          GPUDetector._lookup_gpu_specs gpu_name = Some specs
          /\ Py.get GPUDetector.GPU_SPECS_DATABASE model = Some specs
          /\ Py.get GPU_PERFORMANCE_INDEX model
             = Some (_get_gpu_performance_index gpu_name)
    | None =>
        GPUDetector._lookup_gpu_specs gpu_name = None
        /\ _get_gpu_performance_index gpu_name = 0.50
    end.
Proof.
  intros gpu_name.
  unfold first_matching_model, GPUDetector._lookup_gpu_specs,
    _get_gpu_performance_index.
  rewrite gpu_index_loop_find, lookup_loop_find.
  pose proof (find_key_get
                (fun model => Py.str_in (Py.upper model) (Py.upper gpu_name))
                GPU_PERFORMANCE_INDEX) as Hi.
  pose proof (find_key_get
                (fun model => Py.str_in (Py.upper model) (Py.upper gpu_name))
                GPUDetector.GPU_SPECS_DATABASE) as Hs.
  rewrite specs_keys in Hs.
  destruct (find _ (Py.keys GPU_PERFORMANCE_INDEX)) as [model|].
  - destruct Hi as (i & -> & Hgi). destruct Hs as (sp & -> & Hgs).
    exists sp. repeat split; assumption.
  - rewrite Hi, Hs. split; reflexivity.
Qed.

(** *** Games *)

Lemma game_base_loop_lower items game_name1 game_name2 :
  Py.lower game_name1 = Py.lower game_name2 ->
  game_base_loop items game_name1 = game_base_loop items game_name2.
Proof.
  intros H. induction items as [|[name fps] items IH]; cbn; [reflexivity|].
  now rewrite H, IH.
Qed.

Lemma game_base_loop_of_every_key :
  Forall (fun '(name, fps) => game_base_loop GAME_BASE_FPS name = fps)
         GAME_BASE_FPS.
Proof. repeat constructor. Qed.

(** The exact-match step of [_get_game_base_fps] never changes the answer
    on this table: a key is also the first entry its loop finds. *)
Lemma game_base_fps_is_loop game_name :
  _get_game_base_fps game_name = game_base_loop GAME_BASE_FPS game_name.
Proof.
  unfold _get_game_base_fps.
  destruct (Py.get GAME_BASE_FPS game_name) as [fps|] eqn:E; [|reflexivity].
  apply get_entry in E.
  pose proof game_base_loop_of_every_key as H.
  rewrite Forall_forall in H. symmetry. exact (H _ E).
Qed.

(** Game names that differ only in the case of their letters get the same
    baseline, although the first step of the lookup is case-sensitive. *)
Theorem game_base_fps_case_insensitive :
  forall game_name1 game_name2 : string,
    Py.lower game_name1 = Py.lower game_name2 ->
    _get_game_base_fps game_name1 = _get_game_base_fps game_name2.
Proof.
  intros n1 n2 H. rewrite !game_base_fps_is_loop.
  now apply game_base_loop_lower.
Qed.

Lemma game_base_fps_case_insensitive_witness :
  _get_game_base_fps "gta v" = _get_game_base_fps "GTA V".
Proof.
  apply (game_base_fps_case_insensitive "gta v" "GTA V"). reflexivity.
Defined.

(** ** The game catalog *)

Lemma prefix_refl s : String.prefix s s = true.
Proof.
  induction s as [|c s IH]; cbn; [reflexivity|].
  destruct (Ascii.ascii_dec c c); [exact IH|congruence].
Qed.

Lemma str_in_refl s : Py.str_in s s = true.
Proof.
  destruct s as [|c s]; [reflexivity|].
  change (Py.str_in (String c s) (String c s))
    with (String.prefix (String c s) (String c s)
          || Py.str_in (String c s) s)%bool.
  now rewrite prefix_refl.
Qed.

Lemma str_in_empty s : Py.str_in "" s = true.
Proof. destruct s; reflexivity. Qed.

Lemma get_set_same {V : Type} (d : Py.dict V) k v :
  Py.get (Py.set d k v) k = Some v.
Proof.
  induction d as [|[k' v'] d IH]; cbn.
  - now rewrite String.eqb_refl.
  - destruct (String.eqb k' k) eqn:E; cbn; rewrite E; [reflexivity|exact IH].
Qed.

Lemma get_set_other {V : Type} (d : Py.dict V) k v other :
  other <> k -> Py.get (Py.set d k v) other = Py.get d other.
Proof.
  intros Hne. induction d as [|[k' v'] d IH]; cbn.
  - destruct (String.eqb_spec k other); [congruence|reflexivity].
  - destruct (String.eqb_spec k' k) as [->|Hk]; cbn.
    + destruct (String.eqb_spec k other); [congruence|reflexivity].
    + destruct (String.eqb k' other); [reflexivity|exact IH].
Qed.

Section Catalog.
Variable games_db : Py.dict GameAnalyzerDB.game_data.

Lemma get_game_requirements_cases :
  forall game_name : string,
    match GameAnalyzerDB.get_game_requirements games_db game_name with
    | Some requirements =>
        exists data,
          In (GameAnalyzerDB.GameRequirements.name requirements, data)
             games_db
          /\ requirements
             = requirements_of
                 (GameAnalyzerDB.GameRequirements.name requirements) data
          /\ name_contains game_name
               (GameAnalyzerDB.GameRequirements.name requirements) = true
    | None =>
        forall name data, In (name, data) games_db ->
                          name_contains game_name name = false
    end.
Proof.
  intros game_name. unfold GameAnalyzerDB.get_game_requirements, name_contains.
  destruct (Py.get games_db game_name) as [data|] eqn:Eget.
  - exists data. cbn. split; [now apply get_entry|].
    split; [reflexivity|apply str_in_refl].
  - destruct (find (fun '(name, _) =>
                      String.eqb (Py.lower name) (Py.lower game_name))
                   games_db) as [[name data]|] eqn:Eci.
    + apply find_some in Eci as [Hin Heq]. apply String.eqb_eq in Heq.
      exists data. cbn. split; [exact Hin|]. split; [reflexivity|].
      rewrite Heq. apply str_in_refl.
    + destruct (find (fun '(name, _) =>
                        Py.str_in (Py.lower game_name) (Py.lower name))
                     games_db) as [[name data]|] eqn:Epart.
      * apply find_some in Epart as [Hin Hc].
        exists data. cbn. repeat split; assumption.
      * intros name data Hin.
        exact (find_none _ _ Epart (name, data) Hin).
Qed.


Lemma insert_sorted_perm x l : Permutation (Py.insert_sorted x l) (x :: l).
Proof.
  induction l as [|y l IH]; cbn; [reflexivity|].
  destruct (String.leb x y); [reflexivity|].
  rewrite IH. apply perm_swap.
Qed.

Lemma sorted_perm l : Permutation (Py.sorted l) l.
Proof.
  induction l as [|x l IH]; cbn; [reflexivity|].
  fold (Py.sorted l). rewrite insert_sorted_perm. now apply perm_skip.
Qed.

Lemma insert_sorted_Sorted x l :
  Sorted string_le l -> Sorted string_le (Py.insert_sorted x l).
Proof.
  induction 1 as [|y l Hs IH Hhd]; cbn.
  - repeat constructor.
  - destruct (String.leb x y) eqn:E.
    + constructor; [now constructor|]. constructor. exact E.
    + constructor; [exact IH|].
      assert (Hyx : string_le y x).
      { destruct (String.leb_total x y) as [H|H]; [congruence|exact H]. }
      destruct Hhd as [|z l Hyz]; cbn.
      * constructor. exact Hyx.
      * destruct (String.leb x z); constructor; assumption.
Qed.

Lemma sorted_Sorted l : Sorted string_le (Py.sorted l).
Proof.
  induction l as [|x l IH]; cbn; [constructor|].
  now apply insert_sorted_Sorted.
Qed.


(** [list_games] is the sorted list of all names, and it is what
    [search_games] returns for the empty query. *)
Theorem list_games_is_empty_search :
  GameAnalyzerDB.list_games games_db = GameAnalyzerDB.search_games games_db ""
  /\ Sorted string_le (GameAnalyzerDB.list_games games_db)
  /\ Permutation (GameAnalyzerDB.list_games games_db) (Py.keys games_db).
Proof.
  unfold GameAnalyzerDB.list_games, GameAnalyzerDB.search_games.
  split; [|split; [apply sorted_Sorted|apply sorted_perm]].
  f_equal. cbn [Py.lower]. symmetry.
  apply forallb_filter_id, forallb_forall. intros name _.
  apply str_in_empty.
Qed.

(** The suggestions of [check_compatibility] are always empty: they are
    searched with the criterion whose failure made the game unknown.  The
    unknown answer is given exactly when no name contains the query. *)
Theorem check_compatibility_unknown_has_no_suggestions :
  forall (gpu_info : GPUInfo.t) (game_name : string),
    match GameAnalyzerDB.check_compatibility games_db gpu_info game_name with
    | GameAnalyzerDB.NotFound name compatible _ suggestions =>
        name = game_name /\ compatible = "unknown" /\ suggestions = []
        /\ GameAnalyzerDB.search_games games_db game_name = []
    | GameAnalyzerDB.Found name compatible _ your_vram_mb _ _ _ _ _ _ _ =>
        name = game_name /\ your_vram_mb = GPUInfo.vram_total gpu_info
        /\ GameAnalyzerDB.search_games games_db game_name <> []
    end.
Proof.
  intros gpu_info game_name.
  pose proof (get_game_requirements_cases game_name) as H.
  unfold GameAnalyzerDB.check_compatibility.
  destruct (GameAnalyzerDB.get_game_requirements games_db game_name)
    as [r|].
  - destruct H as (data & Hin & _ & Hc).
    destruct (if (_ >=? _)%Z then _ else _) as [c m].
    repeat split. intros E.
    assert (Hs : In (GameAnalyzerDB.GameRequirements.name r)
                    (GameAnalyzerDB.search_games games_db game_name)).
    { apply (Permutation_in _ (Permutation_sym (sorted_perm _))).
      apply filter_In. split; [|exact Hc].
      apply in_map_iff. exists (GameAnalyzerDB.GameRequirements.name r, data).
      split; [reflexivity|exact Hin]. }
    rewrite E in Hs. exact Hs.
  - assert (E : filter (name_contains game_name) (Py.keys games_db) = []).
    { destruct (filter _ _) as [|name l] eqn:Ef; [reflexivity|].
      assert (Hin : In name (filter (name_contains game_name)
                               (Py.keys games_db)))
        by (rewrite Ef; now left).
      apply filter_In in Hin as [Hk Hc].
      apply in_map_iff in Hk as ([name' data] & <- & Hin).
      cbn [fst] in Hc. rewrite (H _ _ Hin) in Hc. discriminate. }
    unfold GameAnalyzerDB.search_games. fold (name_contains game_name).
    change (fun game_name0 : string =>
              Py.str_in (Py.lower game_name) (Py.lower game_name0))
      with (name_contains game_name).
    rewrite E. repeat split.
Qed.

(** After [add_game(name, requirements)], looking the game up under that
    exact name returns the added requirements, and every other key of the
    database keeps its entry. *)
Theorem add_game_then_get :
  forall (name : string) (data : GameAnalyzerDB.game_data),
    GameAnalyzerDB.get_game_requirements
      (GameAnalyzerDB.add_game games_db name data) name
    = Some (requirements_of name data)
    /\ forall other, other <> name ->
         Py.get (GameAnalyzerDB.add_game games_db name data) other
         = Py.get games_db other.
Proof.
  intros name data. unfold GameAnalyzerDB.add_game. split.
  - unfold GameAnalyzerDB.get_game_requirements.
    rewrite get_set_same. reflexivity.
  - intros other Hne. now apply get_set_other.
Qed.

End Catalog.

(** ** The built-in database *)

Lemma database_vram_ordered :
  Forall (fun '(_, data) =>
            (GameAnalyzerDB.minimum_vram data
             <= GameAnalyzerDB.recommended_vram data)%Z)
         GameAnalyzerDB.GAMES_DATABASE.
Proof. repeat constructor; discriminate. Qed.

(** For a game of the built-in database the minimum memory never exceeds
    the recommended one, so the three levels of [check_compatibility]
    split the memory sizes at two thresholds: poor below the minimum, good
    from the minimum up to the recommended size, excellent from there. *)
Theorem check_compatibility_levels :
  forall (gpu_info : GPUInfo.t) (game_name : string),
    match GameAnalyzerDB.check_compatibility GameAnalyzerDB.GAMES_DATABASE
            gpu_info game_name with
    | GameAnalyzerDB.Found _ compatible _ vram minimum recommended _ _ _ _ _ =>
        (minimum <= recommended)%Z
        /\ ((compatible = "poor" /\ (vram < minimum)%Z)
            \/ (compatible = "good" /\ (minimum <= vram < recommended)%Z)
            \/ (compatible = "excellent" /\ (recommended <= vram)%Z))
    | GameAnalyzerDB.NotFound _ compatible _ _ => compatible = "unknown"
    end.
Proof.
  intros gpu_info game_name.
  pose proof (get_game_requirements_cases GameAnalyzerDB.GAMES_DATABASE
                game_name) as H.
  unfold GameAnalyzerDB.check_compatibility.
  destruct (GameAnalyzerDB.get_game_requirements _ game_name) as [r|];
    [|reflexivity].
  destruct H as (data & Hin & -> & _).
  pose proof database_vram_ordered as Hord.
  rewrite Forall_forall in Hord. specialize (Hord _ Hin). cbn in Hord.
  cbn [requirements_of GameAnalyzerDB.GameRequirements.recommended_vram
       GameAnalyzerDB.GameRequirements.minimum_vram].
  destruct (Z.geb_spec (GPUInfo.vram_total gpu_info)
              (GameAnalyzerDB.recommended_vram data)).
  - split; [exact Hord|]. right. right. split; [reflexivity|lia].
  - destruct (Z.geb_spec (GPUInfo.vram_total gpu_info)
                (GameAnalyzerDB.minimum_vram data)).
    + split; [exact Hord|]. right. left. split; [reflexivity|lia].
    + split; [exact Hord|]. left. split; [reflexivity|lia].
Qed.

(** *** The analyzer of the predictor *)

Lemma predictor_database :
  GameAnalyzer.GAMES_DATABASE
  = map (fun '(name, data) => (name, predictor_view data))
        GameAnalyzerDB.GAMES_DATABASE.
Proof. reflexivity. Qed.

Lemma get_map {V W : Type} (f : V -> W) (d : Py.dict V) k :
  Py.get (map (fun '(name, data) => (name, f data)) d) k
  = option_map f (Py.get d k).
Proof.
  induction d as [|[k' v] d IH]; cbn; [reflexivity|].
  destruct (String.eqb k' k); [reflexivity|exact IH].
Qed.

Lemma find_name_map {V W : Type} (f : V -> W) (g : string -> bool)
    (d : Py.dict V) :
  find (fun '(name, _) => g name) (map (fun '(name, data) => (name, f data)) d)
  = option_map (fun '(name, data) => (name, f data))
      (find (fun '(name, _) => g name) d).
Proof.
  induction d as [|[k v] d IH]; cbn; [reflexivity|].
  destruct (g k); [reflexivity|exact IH].
Qed.

(** The requirements [predict] reads are those of the analyzer. *)
Lemma predictor_requirements game_name :
  GameAnalyzer.get_game_requirements game_name
  = option_map
      (fun r =>
         GameAnalyzer.mk (GameAnalyzerDB.GameRequirements.name r)
           (GameAnalyzerDB.GameRequirements.recommended_vram r)
           (GameAnalyzerDB.GameRequirements.supports_dlss r)
           (GameAnalyzerDB.GameRequirements.supports_fsr r))
      (GameAnalyzerDB.get_game_requirements GameAnalyzerDB.GAMES_DATABASE
         game_name).
Proof.
  unfold GameAnalyzer.get_game_requirements,
    GameAnalyzerDB.get_game_requirements.
  cbv zeta. rewrite predictor_database, get_map.
  destruct (Py.get GameAnalyzerDB.GAMES_DATABASE game_name) as [data|];
    [reflexivity|]. cbn [option_map].
  rewrite (find_name_map predictor_view
             (fun name => String.eqb (Py.lower name) (Py.lower game_name))).
  destruct (find (fun '(name, _) =>
                    String.eqb (Py.lower name) (Py.lower game_name))
                 GameAnalyzerDB.GAMES_DATABASE) as [[name data]|];
    [reflexivity|]. cbn [option_map].
  rewrite (find_name_map predictor_view
             (fun name => Py.str_in (Py.lower game_name) (Py.lower name))).
  destruct (find (fun '(name, _) =>
                    Py.str_in (Py.lower game_name) (Py.lower name))
                 GameAnalyzerDB.GAMES_DATABASE) as [[name data]|];
    reflexivity.
Qed.

Lemma existsb_keys_find {V : Type} (g : string -> bool) (d : Py.dict V) :
  existsb g (Py.keys d)
  = match find (fun '(name, _) => g name) d with
    | Some _ => true
    | None => false
    end.
Proof.
  unfold Py.keys. induction d as [|[k v] d IH]; cbn; [reflexivity|].
  destruct (g k); [reflexivity|exact IH].
Qed.

Lemma base_fps_keys :
  Py.keys GAME_BASE_FPS = Py.keys GameAnalyzerDB.GAMES_DATABASE.
Proof. reflexivity. Qed.

(** The baseline table and the database list the same games, so the
    confidence of [predict] counts a game as known exactly when the
    analyzer finds requirements for it. *)
Theorem game_in_db_iff_requirements :
  forall game_name : string,
    game_in_db game_name
    = match GameAnalyzerDB.get_game_requirements
              GameAnalyzerDB.GAMES_DATABASE game_name with
      | Some _ => true
      | None => false
      end.
Proof.
  intros game_name.
  pose proof (get_game_requirements_cases GameAnalyzerDB.GAMES_DATABASE
                game_name) as H.
  unfold game_in_db, Py.any. rewrite base_fps_keys.
  destruct (GameAnalyzerDB.get_game_requirements _ game_name) as [r|].
  - destruct H as (data & Hin & _ & Hc).
    apply orb_true_iff. right. apply existsb_exists.
    exists (GameAnalyzerDB.GameRequirements.name r). split; [|exact Hc].
    apply in_map_iff. exists (GameAnalyzerDB.GameRequirements.name r, data).
    split; [reflexivity|exact Hin].
  - apply orb_false_iff. split.
    + unfold Py.contains.
      destruct (Py.get GAME_BASE_FPS game_name) as [fps|] eqn:E;
        [|reflexivity].
      apply get_entry, (in_map fst) in E. cbn [fst] in E.
      fold (Py.keys GAME_BASE_FPS) in E. rewrite base_fps_keys in E.
      apply in_map_iff in E as ([name data] & Hn & Hin). cbn in Hn. subst name.
      pose proof (H _ _ Hin) as Hc. unfold name_contains in Hc.
      rewrite str_in_refl in Hc. discriminate.
    + destruct (existsb _ _) eqn:E; [|reflexivity].
      apply existsb_exists in E as (name & Hk & Hc).
      apply in_map_iff in Hk as ([name' data] & Hn & Hin). cbn in Hn.
      subst name'. pose proof (H _ _ Hin) as Hc'. unfold name_contains in Hc'.
      congruence.
Qed.

Lemma database_entries_found :
  Forall (fun '(name, data) =>
            Py.get GameAnalyzerDB.GAMES_DATABASE name = Some data
            /\ GameAnalyzerDB.settings data <> [])
         GameAnalyzerDB.GAMES_DATABASE.
Proof. repeat constructor; discriminate. Qed.

Lemma database_names_apart :
  Forall (fun '(name, data) =>
            find (fun '(other, _) =>
                    Py.str_in (Py.lower name) (Py.lower other))
                 GameAnalyzerDB.GAMES_DATABASE
            = Some (name, data))
         GameAnalyzerDB.GAMES_DATABASE.
Proof. repeat constructor. Qed.

(** On the built-in database [get_game_settings] and
    [get_game_requirements] resolve a query to the same entry, although
    only the second tries a case-insensitive equality first: the settings
    returned are those of the game whose requirements are returned, and
    the empty list when no requirements are found. *)
Theorem get_game_settings_of_resolved_game :
  forall game_name : string,
    match GameAnalyzerDB.get_game_requirements GameAnalyzerDB.GAMES_DATABASE
            game_name with
    | Some requirements =>
        exists data,
          Py.get GameAnalyzerDB.GAMES_DATABASE
            (GameAnalyzerDB.GameRequirements.name requirements) = Some data
          /\ GameAnalyzerDB.get_game_settings GameAnalyzerDB.GAMES_DATABASE
               game_name = GameAnalyzerDB.settings data
          /\ GameAnalyzerDB.settings data <> []
    | None =>
        GameAnalyzerDB.get_game_settings GameAnalyzerDB.GAMES_DATABASE
          game_name = []
    end.
Proof.
  intros game_name.
  assert (Hentry : forall name data,
            In (name, data) GameAnalyzerDB.GAMES_DATABASE ->
            Py.get GameAnalyzerDB.GAMES_DATABASE name = Some data
            /\ GameAnalyzerDB.settings data <> []
            /\ find (fun '(other, _) =>
                       Py.str_in (Py.lower name) (Py.lower other))
                    GameAnalyzerDB.GAMES_DATABASE = Some (name, data)).
  { intros name data Hin.
    pose proof database_entries_found as H1. rewrite Forall_forall in H1.
    pose proof database_names_apart as H2. rewrite Forall_forall in H2.
    specialize (H1 _ Hin). specialize (H2 _ Hin). cbn in H1, H2.
    destruct H1. auto. }
  unfold GameAnalyzerDB.get_game_requirements,
    GameAnalyzerDB.get_game_settings.
  destruct (Py.get GameAnalyzerDB.GAMES_DATABASE game_name)
    as [data|] eqn:Eget.
  - exists data. cbn. split; [exact Eget|]. split; [reflexivity|].
    apply (Hentry game_name). now apply get_entry.
  - destruct (find (fun '(name, _) =>
                      String.eqb (Py.lower name) (Py.lower game_name))
                   GameAnalyzerDB.GAMES_DATABASE)
      as [[name data]|] eqn:Eci.
    + apply find_some in Eci as [Hin Heq]. apply String.eqb_eq in Heq.
      destruct (Hentry _ _ Hin) as (Hg & Hs & Hf).
      rewrite <- Heq, Hf.
      exists data. cbn. split; [exact Hg|]. split; [reflexivity|exact Hs].
    + destruct (find (fun '(name, _) =>
                        Py.str_in (Py.lower game_name) (Py.lower name))
                     GameAnalyzerDB.GAMES_DATABASE)
        as [[name data]|] eqn:Epart; [|reflexivity].
      apply find_some in Epart as [Hin _].
      destruct (Hentry _ _ Hin) as (Hg & Hs & _).
      exists data. cbn. auto.
Qed.

(** *** Notes and compatibility *)

Lemma In_cond_append {A : Type} (b : bool) (l : list A) (x y : A) :
  In x (if b then Py.append l y else l) <-> In x l \/ (b = true /\ x = y).
Proof.
  destruct b; unfold Py.append; rewrite ?in_app_iff; cbn;
    intuition congruence.
Qed.

Lemma In_cond_append2 {A : Type} (b1 b2 : bool) (l : list A) (x y1 y2 : A) :
  In x (if b1 then Py.append l y1
        else if b2 then Py.append l y2 else l)
  <-> In x l \/ (b1 = true /\ x = y1)
      \/ (b1 = false /\ b2 = true /\ x = y2).
Proof.
  destruct b1, b2; unfold Py.append; rewrite ?in_app_iff; cbn;
    intuition congruence.
Qed.

(** The notes of [predict] follow the analyzer: for a game the analyzer
    knows, the memory note is present exactly when [check_compatibility]
    rates the processor below excellent, and the DLSS and FSR notes never
    come together; for a game it does not know, the only notes are the
    resolution note and the quality note. *)
Theorem predict_notes_follow_analyzer :
  forall (gpu_info : GPUInfo.t) (game_name resolution quality_preset : string),
  exists p,
    predict gpu_info game_name resolution quality_preset = Some p
    /\ match GameAnalyzerDB.check_compatibility GameAnalyzerDB.GAMES_DATABASE
               gpu_info game_name with
       | GameAnalyzerDB.Found _ compatible _ vram _ recommended _ _ _ _ _ =>
           (In (vram_note vram recommended) (FPSPrediction.notes p)
            <-> compatible <> "excellent")
           /\ ~ (In dlss_note (FPSPrediction.notes p)
                 /\ In fsr_note (FPSPrediction.notes p))
       | GameAnalyzerDB.NotFound _ _ _ _ =>
           forall note, In note (FPSPrediction.notes p) ->
                        note = resolution_note \/ note = quality_note
       end.
Proof.
  intros gpu_info game_name resolution quality_preset.
  destruct (predicted_fps_bands (GPUInfo.name gpu_info) game_name resolution
              quality_preset)
    as (a & mn & mx & lo & [Ha Hmn Hmx Hlo _ _ _ _ _ _]).
  unfold predicted_fps, raw_fps in Ha, Hmn, Hmx, Hlo.
  unfold predict. cbv zeta. rewrite Ha, Hmn, Hmx, Hlo.
  eexists. split; [reflexivity|]. cbn [FPSPrediction.notes].
  clear Ha Hmn Hmx Hlo.
  rewrite predictor_requirements.
  unfold GameAnalyzerDB.check_compatibility.
  destruct (GameAnalyzerDB.get_game_requirements
              GameAnalyzerDB.GAMES_DATABASE game_name) as [r|];
    cbn [option_map GameAnalyzer.recommended_vram GameAnalyzer.supports_dlss
         GameAnalyzer.supports_fsr].
  - fold (vram_note (GPUInfo.vram_total gpu_info)
            (GameAnalyzerDB.GameRequirements.recommended_vram r)).
    fold dlss_note fsr_note resolution_note quality_note.
    set (V := vram_note _ _).
    assert (Hv : V <> dlss_note /\ V <> fsr_note /\ V <> resolution_note
                 /\ V <> quality_note)
      by (repeat split; discriminate).
    assert (Hd : dlss_note <> fsr_note /\ dlss_note <> resolution_note
                 /\ dlss_note <> quality_note /\ fsr_note <> resolution_note
                 /\ fsr_note <> quality_note)
      by (repeat split; discriminate).
    assert (Hc : (let '(compatibility, _) :=
                    if (GPUInfo.vram_total gpu_info
                        >=? GameAnalyzerDB.GameRequirements.recommended_vram r)%Z
                    then ("excellent",
                          "Your GPU exceeds the recommended requirements")
                    else if (GPUInfo.vram_total gpu_info
                             >=? GameAnalyzerDB.GameRequirements.minimum_vram r)%Z
                    then ("good",
                          "Your GPU meets minimum requirements but is below recommended")
                    else ("poor",
                          "Your GPU does not meet minimum VRAM requirements")
                  in compatibility <> "excellent")
                 <-> (GPUInfo.vram_total gpu_info
                      <? GameAnalyzerDB.GameRequirements.recommended_vram r)%Z
                     = true).
    { rewrite Z.ltb_lt.
      destruct (Z.geb_spec (GPUInfo.vram_total gpu_info)
                  (GameAnalyzerDB.GameRequirements.recommended_vram r));
        [split; [congruence|lia]|].
      destruct (GPUInfo.vram_total gpu_info
                >=? GameAnalyzerDB.GameRequirements.minimum_vram r)%Z;
        split; (lia || discriminate). }
    destruct (if (_ >=? _)%Z then _ else _) as [compatibility message].
    rewrite Hc. rewrite !In_cond_append, !In_cond_append2, !In_cond_append.
    cbn [In]. split; [|revert Hd]; intuition congruence.
  - fold resolution_note quality_note. intros note.
    rewrite !In_cond_append. cbn [In]. intuition.
Qed.
